(** * ThreadBrief: feedback listener and digest distributor

    A shallow embedding of [scripts/feedback_listener.py] and
    [src/daily_digest/distributor.py], and the properties of the
    specification that concern them.

    Python values are modelled by the inductive type [pyval]; a function
    that may raise returns an [outcome]; code that talks to collaborators
    (clock, feedback store, Slack client) runs in a state-and-exception
    monad over a world that also keeps a log of the calls made.

    Conventions:
    - the collaborators whose code is not among the sources (feedback
      store and metrics, formatter, Slack client) and the library
      functions (HMAC, clock) are fields of an environment record; the
      theorems hold for every environment;
    - an exception is an instance of [Exception], which is what the
      [except Exception] clauses catch;
    - [await] is sequential: the coroutines are modelled by the sequence
      of their calls;
    - calls to [logger] have no effect on what is proved and are left as
      comments at the place of the call;
    - a [float] is a rational: [time.time() - int(timestamp)] is exact
      (no rounding, and no [OverflowError] for an integer beyond the float
      range), confidences are only stored and compared;
    - text is a [string] of one-byte characters. *)

From Stdlib Require Import ZArith QArith Qabs List String Ascii Bool Lia.
Import ListNotations.
Set Warnings "-register-all".
Local Open Scope string_scope.
Local Open Scope Z_scope.

(* ================================================================== *)
(** ** Python values, exceptions and the effect monad *)
(* ================================================================== *)

Module Py.

(** A Python exception: its class name and [str(e)]. *)
Record exn : Type := Exn { exn_class : string; exn_msg : string }.

Definition ValueError (m : string) : exn := Exn "ValueError" m.
Definition TypeError (m : string) : exn := Exn "TypeError" m.
Definition AttributeError (m : string) : exn := Exn "AttributeError" m.

(** The result of evaluating an expression that may raise. *)
Inductive outcome (A : Type) : Type :=
| Ok (a : A)
| Raise (e : exn).
Arguments Ok {A} a.
Arguments Raise {A} e.

Definition is_ok {A} (o : outcome A) : bool :=
  match o with Ok _ => true | Raise _ => false end.

(** Dynamically typed values.  A [float] is modelled by a rational; a
    [dict] with string keys by an association list (first binding wins). *)
Inductive pyval : Type :=
| PNone
| PBool (b : bool)
| PInt (z : Z)
| PFloat (q : Q)
| PStr (s : string)
| PList (l : list pyval)
| PDict (d : list (string * pyval)).

Definition pydict : Type := list (string * pyval).

Fixpoint dict_lookup {V : Type} (d : list (string * V)) (k : string) : option V :=
  match d with
  | [] => None
  | (k', v) :: d' => if String.eqb k k' then Some v else dict_lookup d' k
  end.

(** [d.get(k)] and [d.get(k, default)] on a dict. *)
Definition dict_get (d : pydict) (k : string) (default : pyval) : pyval :=
  match dict_lookup d k with Some v => v | None => default end.

(** [d[k] = v]: replaces the binding of [k] in place, or appends it. *)
Fixpoint dict_set {V : Type} (d : list (string * V)) (k : string) (v : V)
  : list (string * V) :=
  match d with
  | [] => [(k, v)]
  | (k', v') :: d' =>
      if String.eqb k k' then (k, v) :: d' else (k', v') :: dict_set d' k v
  end.

(** [x.get(k, default)] on an arbitrary value: only a dict has [get]. *)
Definition py_get (x : pyval) (k : string) (default : pyval) : outcome pyval :=
  match x with
  | PDict d => Ok (dict_get d k default)
  | _ => Raise (AttributeError "object has no attribute 'get'")
  end.

(** Truth value of an object, as tested by [if x] and [not x]. *)
Definition truthy (x : pyval) : bool :=
  match x with
  | PNone => false
  | PBool b => b
  | PInt z => negb (z =? 0)
  | PFloat q => negb (Qeq_bool q 0)
  | PStr s => negb (String.eqb s "")
  | PList l => match l with [] => false | _ => true end
  | PDict d => match d with [] => false | _ => true end
  end.

(** [x == "literal"]. *)
Definition py_eq_str (x : pyval) (s : string) : bool :=
  match x with PStr s' => String.eqb s' s | _ => false end.

(** *** State and exception monad *)

Definition M (W A : Type) : Type := W -> outcome A * W.

Definition ret {W A} (a : A) : M W A := fun w => (Ok a, w).

Definition raise {W A} (e : exn) : M W A := fun w => (Raise e, w).

Definition bind {W A B} (m : M W A) (k : A -> M W B) : M W B :=
  fun w => match m w with
           | (Ok a, w') => k a w'
           | (Raise e, w') => (Raise e, w')
           end.

(** [try: m  except Exception as e: h e] *)
Definition try_except {W A} (m : M W A) (h : exn -> M W A) : M W A :=
  fun w => match m w with
           | (Ok a, w') => (Ok a, w')
           | (Raise e, w') => h e w'
           end.

Definition lift {W A} (o : outcome A) : M W A := fun w => (o, w).

(** [for x in xs: acc = body(acc, x)]; an exception leaves the loop. *)
Fixpoint for_each {W A X} (xs : list X) (body : A -> X -> M W A) (acc : A)
  : M W A :=
  match xs with
  | [] => ret acc
  | x :: xs' => bind (body acc x) (for_each xs' body)
  end.

End Py.

Import Py.

Declare Scope py_scope.
Delimit Scope py_scope with py.
Notation "x <- m ;; k" := (bind m (fun x => k))
  (at level 61, m at next level, right associativity) : py_scope.
Notation "' pat <- m ;; k" := (bind m (fun x => match x with pat => k end))
  (at level 61, pat pattern, m at next level, right associativity) : py_scope.
Notation "m ;;; k" := (bind m (fun _ => k))
  (at level 61, right associativity) : py_scope.
Local Open Scope py_scope.

(* ================================================================== *)
(** ** Text helpers: [int(str)], [bytes.hex()], ASCII test *)
(* ================================================================== *)

Module Text.

Definition is_digit (c : ascii) : bool :=
  let n := nat_of_ascii c in (48 <=? n)%nat && (n <=? 57)%nat.

Definition digit_val (c : ascii) : Z := Z.of_nat (nat_of_ascii c) - 48.

(** [str.isspace] for the characters a header value can hold
    (code points below 256). *)
Definition py_isspace (c : ascii) : bool :=
  let n := nat_of_ascii c in
  ((9 <=? n)%nat && (n <=? 13)%nat) || ((28 <=? n)%nat && (n <=? 32)%nat)
  || (n =? 133)%nat || (n =? 160)%nat.

Fixpoint lstrip (s : string) : string :=
  match s with
  | EmptyString => EmptyString
  | String c r => if py_isspace c then lstrip r else s
  end.

Fixpoint rstrip (s : string) : string :=
  match s with
  | EmptyString => EmptyString
  | String c r =>
      match rstrip r with
      | EmptyString => if py_isspace c then EmptyString else String c EmptyString
      | r' => String c r'
      end
  end.

Definition strip (s : string) : string := rstrip (lstrip s).

(** Decimal digits with single underscores between digits. *)
Fixpoint parse_digits (s : string) (acc : Z) (after_digit : bool) : option Z :=
  match s with
  | EmptyString => if after_digit then Some acc else None
  | String c r =>
      if is_digit c then parse_digits r (10 * acc + digit_val c) true
      else if Ascii.eqb c "_" then
             if after_digit then parse_digits r acc false else None
      else None
  end.

(** [int(s)] for a string [s], base 10: surrounding whitespace, an
    optional sign, digits.  [None] stands for [ValueError].  (The limit
    on the number of digits of recent interpreters is not modelled.) *)
Definition parse_int (s : string) : option Z :=
  match strip s with
  | String "+" r => parse_digits r 0 false
  | String "-" r => option_map Z.opp (parse_digits r 0 false)
  | t => parse_digits t 0 false
  end.


Definition py_int (s : string) : outcome Z :=
  match parse_int s with
  | Some z => Ok z
  | None => Raise (ValueError ("invalid literal for int() with base 10: " ++ s))
  end.

Definition hex_digit (n : nat) : ascii :=
  match n with
  | 0 => "0" | 1 => "1" | 2 => "2" | 3 => "3" | 4 => "4" | 5 => "5"
  | 6 => "6" | 7 => "7" | 8 => "8" | 9 => "9" | 10 => "a" | 11 => "b"
  | 12 => "c" | 13 => "d" | 14 => "e" | _ => "f"
  end%nat%char.

(** [bytes.hex()]: two lowercase hexadecimal digits per byte. *)
Fixpoint hex (bs : string) : string :=
  match bs with
  | EmptyString => EmptyString
  | String c r =>
      let n := nat_of_ascii c in
      String (hex_digit (n / 16)) (String (hex_digit (n mod 16)) (hex r))
  end.

Definition is_ascii_char (c : ascii) : bool := (nat_of_ascii c <? 128)%nat.

Fixpoint is_ascii (s : string) : bool :=
  match s with
  | EmptyString => true
  | String c r => is_ascii_char c && is_ascii r
  end.

(** [hmac.compare_digest(a, b)] on two [str]: the comparison is done in
    time independent of the contents (not observable here) and raises
    [TypeError] when either string holds a non-ASCII character. *)
Definition compare_digest (a b : string) : outcome bool :=
  if is_ascii a && is_ascii b then Ok (String.eqb a b)
  else Raise (TypeError "comparing strings with non-ASCII characters is not supported").






End Text.

Import Text.

(* ================================================================== *)
(** ** Data model of the feedback store (daily_digest.feedback) *)
(* ================================================================== *)

Module Feedback.

(** [DigestItem(...)], with the fields the distributor fills in. *)
Record DigestItem : Type := mkDigestItem {
  digest_item_id : string;
  run_id : string;
  date : string;
  team : string;
  item_type : string;
  title : string;
  summary : string;
  confidence : Q;
  slack_message_ts : pyval;
  slack_channel_id : string
}.

(** [FeedbackEvent(...)], with the fields the listener fills in. *)
Record FeedbackEvent : Type := mkFeedbackEvent {
  fe_digest_item_id : string;
  fe_user_id : pyval;
  fe_team : string;
  fe_feedback_type : string;
  fe_created_at : string
}.

End Feedback.

Import Feedback.

(* ================================================================== *)
(** ** scripts/feedback_listener.py *)
(* ================================================================== *)

Module Listener.

(** What the handlers read of a Flask request: the two headers
    ([None] when absent), [get_data(as_text=True)] and [request.json]
    (which raises when the body does not decode). *)
Record Request : Type := mkRequest {
  x_slack_request_timestamp : option string;
  x_slack_signature : option string;
  data : string;
  json : outcome pyval
}.

(** [request.headers.get(name, "")] *)
Definition header_get (h : option string) (default : string) : string :=
  match h with Some v => v | None => default end.

(** The collaborators of the listener.  [S] is the state of the durable
    feedback store ([feedback_store] and [feedback_metrics] share it), [K]
    the state of the clock.  Every store call may change the store and may
    raise. *)
Record Env (S K : Type) : Type := mkEnv {
  SIGNING_SECRET : string;
  (** [hmac.new(key.encode(), msg.encode(), hashlib.sha256).digest()] *)
  hmac_sha256 : string -> string -> string;
  (** [time.time()], in seconds, as a rational *)
  time_time : K -> Q * K;
  (** [datetime.now().isoformat()] *)
  datetime_now_isoformat : K -> string * K;
  emoji_to_feedback_type : pyval -> S -> outcome (option string) * S;
  get_item_by_message_ts : pyval -> pyval -> S -> outcome (option DigestItem) * S;
  check_rate_limit : pyval -> S -> outcome (bool * Z) * S;
  is_user_spamming : pyval -> string -> S -> outcome bool * S;
  store_feedback : FeedbackEvent -> S -> outcome Z * S
}.
Arguments SIGNING_SECRET {S K} _.
Arguments hmac_sha256 {S K} _ _ _.
Arguments time_time {S K} _ _.
Arguments datetime_now_isoformat {S K} _ _.
Arguments emoji_to_feedback_type {S K} _ _ _.
Arguments get_item_by_message_ts {S K} _ _ _ _.
Arguments check_rate_limit {S K} _ _ _.
Arguments is_user_spamming {S K} _ _ _ _.
Arguments store_feedback {S K} _ _ _.

(** The log of collaborator calls, each with what it answered. *)
Inductive Event : Type :=
| EvTime (t : Q)
| EvNow (iso : string)
| EvEmoji (reaction : pyval) (out : outcome (option string))
| EvGetItem (message_ts channel_id : pyval) (out : outcome (option DigestItem))
| EvRateLimit (user_id : pyval) (out : outcome (bool * Z))
| EvSpamming (user_id : pyval) (item_id : string) (out : outcome bool)
| EvStoreFeedback (ev : FeedbackEvent) (out : outcome Z).

Record World (S K : Type) : Type := mkWorld {
  store : S;
  clock : K;
  trace : list Event
}.
Arguments mkWorld {S K} _ _ _.
Arguments store {S K} _.
Arguments clock {S K} _.
Arguments trace {S K} _.

(** Flask's [(jsonify(body), status)]. *)
Record Response : Type := mkResponse { body : pyval; status : Z }.

Section Code.

Context {S K : Type}.
Variable env : Env S K.

Let W : Type := World S K.

Definition store_call {A} (op : S -> outcome A * S) (ev : outcome A -> Event)
  : M W A :=
  fun w => let (o, s') := op (store w) in
           (o, mkWorld s' (clock w) (trace w ++ [ev o])%list).

Definition clock_call {A} (op : K -> A * K) (ev : A -> Event) : M W A :=
  fun w => let (a, k') := op (clock w) in
           (Ok a, mkWorld (store w) k' (trace w ++ [ev a])%list).

(** [x > 300] on seconds *)
Definition Qgt_bool (x y : Q) : bool := negb (Qle_bool x y).

Definition verify_slack_request (request : Request) : M W bool :=
  if negb (truthy (PStr (SIGNING_SECRET env))) then
    (* logger.warning("SLACK_SIGNING_SECRET not set, skipping verification") *)
    ret true
  else
    let timestamp := header_get (x_slack_request_timestamp request) "" in
    let signature := header_get (x_slack_signature request) "" in
    now <- clock_call (time_time env) EvTime ;;
    ts <- lift (py_int timestamp) ;;
    if Qgt_bool (Qabs (now - inject_Z ts)) (inject_Z (60 * 5)) then ret false
    else
      let sig_basestring := "v0:" ++ timestamp ++ ":" ++ data request in
      let expected_sig :=
        "v0=" ++ hex (hmac_sha256 env (SIGNING_SECRET env) sig_basestring) in
      lift (compare_digest expected_sig signature).

Definition handle_reaction_added (event : pyval) : M W unit :=
  user_id <- lift (py_get event "user" (PStr "")) ;;
  reaction <- lift (py_get event "reaction" (PStr "")) ;;
  item <- lift (py_get event "item" (PDict [])) ;;
  channel_id <- lift (py_get item "channel" (PStr "")) ;;
  message_ts <- lift (py_get item "ts" (PStr "")) ;;
  feedback_type <- store_call (emoji_to_feedback_type env reaction) (EvEmoji reaction) ;;
  match feedback_type with
  | None => ret tt
  | Some ft =>
  if negb (truthy (PStr ft)) then ret tt (* logger.debug; return *)
  else
  digest_item <- store_call (get_item_by_message_ts env message_ts channel_id)
                            (EvGetItem message_ts channel_id) ;;
  match digest_item with
  | None => ret tt (* logger.debug; return *)
  | Some digest_item =>
  ' (allowed, _) <- store_call (check_rate_limit env user_id) (EvRateLimit user_id) ;;
  if negb allowed then ret tt (* logger.info; return *)
  else
  spamming <- store_call (is_user_spamming env user_id (digest_item_id digest_item))
                         (EvSpamming user_id (digest_item_id digest_item)) ;;
  if spamming then ret tt (* logger.debug; return *)
  else
  created_at <- clock_call (datetime_now_isoformat env) EvNow ;;
  let feedback_event :=
    {| fe_digest_item_id := digest_item_id digest_item;
       fe_user_id := user_id;
       fe_team := team digest_item;
       fe_feedback_type := ft;
       fe_created_at := created_at |} in
  _ <- store_call (store_feedback env feedback_event) (EvStoreFeedback feedback_event) ;;
  (* logger.info("Stored feedback ...") *)
  ret tt
  end
  end.

Definition handle_reaction_removed (event : pyval) : M W unit :=
  _ <- lift (py_get event "user" (PStr "")) ;;
  reaction <- lift (py_get event "reaction" (PStr "")) ;;
  feedback_type <- store_call (emoji_to_feedback_type env reaction) (EvEmoji reaction) ;;
  (* if feedback_type: logger.info("... removed reaction ... (feedback remains)") *)
  ret tt.

Definition invalid_signature : Response :=
  mkResponse (PDict [("error", PStr "Invalid signature")]) 403.

Definition challenge_response (c : pyval) : Response :=
  mkResponse (PDict [("challenge", c)]) 200.

Definition ok_response : Response := mkResponse (PDict [("ok", PBool true)]) 200.

Definition handle_slack_event (request : Request) : M W Response :=
  verified <- verify_slack_request request ;;
  if negb verified then
    (* logger.warning("Invalid Slack request signature") *)
    ret invalid_signature
  else
    data <- lift (json request) ;;
    ty <- lift (py_get data "type" PNone) ;;
    if py_eq_str ty "url_verification" then
      challenge <- lift (py_get data "challenge" PNone) ;;
      ret (challenge_response challenge)
    else
      ty' <- lift (py_get data "type" PNone) ;;
      (if py_eq_str ty' "event_callback" then
         event <- lift (py_get data "event" (PDict [])) ;;
         event_type <- lift (py_get event "type" PNone) ;;
         if py_eq_str event_type "reaction_added" then handle_reaction_added event
         else if py_eq_str event_type "reaction_removed" then handle_reaction_removed event
         else ret tt
       else ret tt) ;;;
      ret ok_response.

End Code.

(** *** Signature verification *)

Section Verify.

Context {S K : Type}.
Variable env : Env S K.








Lemma secret_truthy : SIGNING_SECRET env <> "" ->
  negb (truthy (PStr (SIGNING_SECRET env))) = false.
Proof.
  intros H. cbn. rewrite negb_involutive. now apply String.eqb_neq.
Qed.


(** With a secret, a timestamp header that [int] rejects (an absent
    header reads as the empty string) makes the verifier raise
    [ValueError]: no value is returned. *)
Lemma verify_slack_request_raises (request : Request) (w : World S K) :
  SIGNING_SECRET env <> "" ->
  parse_int (header_get (x_slack_request_timestamp request) "") = None ->
  exists m, fst (verify_slack_request env request w) = Raise (ValueError m).
Proof.
  intros Hs Hn. unfold verify_slack_request. rewrite (secret_truthy Hs).
  unfold bind, clock_call, lift, py_int. rewrite Hn.
  destruct (time_time env (clock w)). cbn. eauto.
Qed.

End Verify.

(** *** Event handlers *)

(** The kind of a logged call, and the order of the ingestion pipeline. *)
Inductive Kind : Type :=
  KTime | KNow | KEmoji | KGetItem | KRateLimit | KSpamming | KStoreFeedback.

Definition kind_of (e : Event) : Kind :=
  match e with
  | EvTime _ => KTime
  | EvNow _ => KNow
  | EvEmoji _ _ => KEmoji
  | EvGetItem _ _ _ => KGetItem
  | EvRateLimit _ _ => KRateLimit
  | EvSpamming _ _ _ => KSpamming
  | EvStoreFeedback _ _ => KStoreFeedback
  end.






Ltac innermost x :=
  lazymatch x with
  | context [match _ with _ => _ end] => fail
  | _ => idtac
  end.

Ltac run_step :=
  match goal with
  | |- context [match ?x with _ => _ end] => innermost x; destruct x eqn:?
  end; cbn [fst snd trace store clock] in *.

Ltac unfold_run :=
  unfold bind, lift, ret, store_call, clock_call, try_except; cbn [fst snd trace store clock].

Section Handlers.

Context {S K : Type}.
Variable env : Env S K.

(** C6.  Handling [reaction_removed] calls nothing but the emoji lookup:
    the log grows by at most that one call, the clock is not read, and
    the store is in the state the lookup left it in; with a lookup that
    only reads (the static table), the store is unchanged. *)
Theorem handle_reaction_removed_frame (event : pyval) (w : World S K) :
  let r := handle_reaction_removed env event w in
  (trace (snd r) = trace w /\ store (snd r) = store w
   \/ exists reaction out,
        trace (snd r) = (trace w ++ [EvEmoji reaction out])%list /\
        store (snd r) = snd (emoji_to_feedback_type env reaction (store w))) /\
  clock (snd r) = clock w /\
  (forall fe out, ~ In (EvStoreFeedback fe out) (skipn (List.length (trace w)) (trace (snd r)))) /\
  ((forall reaction s, snd (emoji_to_feedback_type env reaction s) = s) ->
   store (snd r) = store w).
Proof.
  unfold handle_reaction_removed. unfold_run.
  destruct event; cbn; try (repeat split; auto; rewrite skipn_all; auto).
  destruct (emoji_to_feedback_type env (dict_get d "reaction" (PStr "")) (store w))
    as [o s'] eqn:He.
  assert (Hs : s' = snd (emoji_to_feedback_type env (dict_get d "reaction" (PStr "")) (store w)))
    by now rewrite He.
  destruct o; cbn; repeat split; eauto;
    try (rewrite skipn_app, skipn_all, Nat.sub_diag; cbn; intros fe out [H|[]]; discriminate);
    try (intros Hp; rewrite Hs; apply Hp).
Qed.


Lemma verify_slack_request_frame (request : Request) (w : World S K) :
  let v := verify_slack_request env request w in
  store (snd v) = store w /\
  (trace (snd v) = trace w \/ exists t, trace (snd v) = (trace w ++ [EvTime t])%list).
Proof.
  unfold verify_slack_request. unfold_run.
  repeat run_step; cbn [snd store trace]; split; eauto.
Qed.





End Handlers.

End Listener.

(* ================================================================== *)
(** ** src/daily_digest/distributor.py *)
(* ================================================================== *)

Module Distributor.

(** [DigestItemMessage] of the formatter: one formatted digest item. *)
Record DigestItemMessage : Type := mkItemMessage {
  msg_digest_item_id : string;
  msg_text : string;
  msg_blocks : pyval;
  msg_confidence : Q;
  msg_team : string;
  msg_item_type : string;
  msg_title : string
}.

(** What the distributor reads of [DigestConfig]. *)
Record DigestConfig : Type := mkConfig {
  digest_channel : string;
  channels : list (string * string);
  leadership_users : list string
}.

(** The collaborators of the distributor.  [Output] and [TA] stand for
    [DigestOutput] and [TeamAnalysis], [Excluded] for whatever the
    formatter reports of an excluded item.  [C], [S] and [K] are the states
    of the Slack client, of the feedback store and of the clock.  The
    formatter computes and may raise; client and store calls may also
    change their own state. *)
Record Env (Output TA Excluded C S K : Type) : Type := mkEnv {
  team_name : TA -> string;
  format_header_message :
    Output -> list (string * TA) -> outcome (string * pyval);
  format_digest_items :
    list (string * TA) -> string -> option (list (string * Q)) ->
    outcome (list DigestItemMessage * list DigestItemMessage * list Excluded);
  format_main_digest :
    Output -> list (string * TA) -> outcome (string * pyval);
  format_team_details : TA -> outcome string;
  format_leadership_dm : Output -> list (string * TA) -> outcome string;
  (** [client.post_message(channel=, text=, blocks=)] *)
  post_message : string -> string -> option pyval -> C -> outcome pydict * C;
  (** [client.send_dm(user_id=, text=)] *)
  send_dm : string -> string -> C -> outcome pydict * C;
  (** [feedback_store.store_digest_item(digest_item)] *)
  store_digest_item : DigestItem -> S -> outcome unit * S;
  (** [datetime.now().strftime(fmt)] *)
  now_strftime : string -> K -> string * K;
  (** the module flag set by the optional import *)
  FEEDBACK_AVAILABLE : bool
}.
Arguments team_name {Output TA Excluded C S K} _ _.
Arguments format_header_message {Output TA Excluded C S K} _ _ _.
Arguments format_digest_items {Output TA Excluded C S K} _ _ _ _.
Arguments format_main_digest {Output TA Excluded C S K} _ _ _.
Arguments format_team_details {Output TA Excluded C S K} _ _.
Arguments format_leadership_dm {Output TA Excluded C S K} _ _ _.
Arguments post_message {Output TA Excluded C S K} _ _ _ _ _.
Arguments send_dm {Output TA Excluded C S K} _ _ _ _.
Arguments store_digest_item {Output TA Excluded C S K} _ _ _.
Arguments now_strftime {Output TA Excluded C S K} _ _ _.
Arguments FEEDBACK_AVAILABLE {Output TA Excluded C S K} _.

(** The distributor object: its configuration and whether a feedback
    store was passed to the constructor ([None] when it was not). *)
Record DigestDistributor : Type := mkDistributor {
  config : DigestConfig;
  feedback_store : option unit
}.

(** The log of collaborator calls. *)
Inductive Event : Type :=
| EvNow (fmt : string) (out : string)
| EvPost (channel text : string) (blocks : option pyval) (out : outcome pydict)
| EvDM (user_id text : string) (out : outcome pydict)
| EvStore (item : DigestItem) (out : outcome unit).

Record World (C S K : Type) : Type := mkWorld {
  client : C;
  store : S;
  clock : K;
  trace : list Event
}.
Arguments mkWorld {C S K} _ _ _ _.
Arguments client {C S K} _.
Arguments store {C S K} _.
Arguments clock {C S K} _.
Arguments trace {C S K} _.

(** An entry of [results["items"]]. *)
Record ItemPost : Type := mkItemPost {
  ip_digest_item_id : string;
  ip_message_ts : pyval;
  ip_ok : pyval;
  ip_confidence : Q;
  ip_section : string
}.

(** The dict [_post_main_digest_with_items] returns. *)
Record MainResults : Type := mkMainResults {
  m_header : option pydict;
  m_items : list ItemPost;
  m_items_stored : Z
}.

(** The dict [distribute] returns. *)
Record DistributionResult : Type := mkResult {
  r_run_id : string;
  r_main_post : option pydict;
  r_item_posts : list ItemPost;
  r_team_posts : list (string * pydict);
  r_dms : list (string * pydict);
  r_errors : list string;
  r_items_stored : Z
}.

(** The dict [preview] returns. *)
Record Preview (Excluded : Type) : Type := mkPreview {
  p_run_id : string;
  p_main_post : string * pyval;
  p_header : string * pyval;
  p_high_confidence_items : list (string * string * Q);
  p_low_confidence_items : list (string * string * Q);
  p_excluded_items : list Excluded;
  p_team_details : list (string * string);
  p_leadership_dm : string
}.
Arguments mkPreview {Excluded} _ _ _ _ _ _ _ _.
Arguments p_run_id {Excluded} _.
Arguments p_main_post {Excluded} _.
Arguments p_header {Excluded} _.
Arguments p_high_confidence_items {Excluded} _.
Arguments p_low_confidence_items {Excluded} _.
Arguments p_excluded_items {Excluded} _.
Arguments p_team_details {Excluded} _.
Arguments p_leadership_dm {Excluded} _.

Definition nl : string := String (ascii_of_nat 10) EmptyString.

Definition DIVIDER_TEXT : string := "📋 Lower Confidence / FYI".

Definition DIVIDER_BLOCKS : pyval :=
  PList [PDict [("type", PStr "section");
                ("text", PDict [("type", PStr "mrkdwn");
                                ("text", PStr ("*📋 Lower Confidence / FYI*" ++ nl
                                               ++ "_These items may need verification:_"))])]].

Definition is_some {A} (o : option A) : bool :=
  match o with Some _ => true | None => false end.

Definition add_error (results : DistributionResult) (error : string)
  : DistributionResult :=
  {| r_run_id := r_run_id results;
     r_main_post := r_main_post results;
     r_item_posts := r_item_posts results;
     r_team_posts := r_team_posts results;
     r_dms := r_dms results;
     r_errors := (r_errors results ++ [error])%list;
     r_items_stored := r_items_stored results |}.

(** [results] as [distribute] initialises it. *)
Definition initial_results (run_id : string) : DistributionResult :=
  {| r_run_id := run_id; r_main_post := None; r_item_posts := [];
     r_team_posts := []; r_dms := []; r_errors := []; r_items_stored := 0 |}.

(** Counting events of a kind in a log. *)
Definition count (f : Event -> bool) (tr : list Event) : nat :=
  List.length (filter f tr).

Definition post_raised (e : Event) : bool :=
  match e with EvPost _ _ _ (Raise _) => true | _ => false end.

Definition post_returned (e : Event) : bool :=
  match e with EvPost _ _ _ (Ok _) => true | _ => false end.

(** a post that returned a result whose [ok] is not true *)
Definition post_not_ok (e : Event) : bool :=
  match e with
  | EvPost _ _ _ (Ok r) => negb (truthy (dict_get r "ok" PNone))
  | _ => false
  end.

(** a post that returned a result whose [ok] is true *)
Definition post_ok (e : Event) : bool :=
  match e with
  | EvPost _ _ _ (Ok r) => truthy (dict_get r "ok" PNone)
  | _ => false
  end.

Definition store_called (e : Event) : bool :=
  match e with EvStore _ _ => true | _ => false end.

Definition store_raised (e : Event) : bool :=
  match e with EvStore _ (Raise _) => true | _ => false end.

(** calls of the Slack client *)
Definition is_client_event (e : Event) : bool :=
  match e with EvPost _ _ _ _ | EvDM _ _ _ => true | _ => false end.

Definition client_events (tr : list Event) : list Event :=
  filter is_client_event tr.

(** The messages posted to channels, in order: channel, text, blocks. *)
Fixpoint posts_of (tr : list Event) : list (string * string * option pyval) :=
  match tr with
  | [] => []
  | EvPost channel text blocks _ :: tr' => (channel, text, blocks) :: posts_of tr'
  | _ :: tr' => posts_of tr'
  end.


Section Code.

Context {Output TA Excluded C S K : Type}.
Variable env : Env Output TA Excluded C S K.

Let W : Type := World C S K.

Definition client_call (op : C -> outcome pydict * C) (ev : outcome pydict -> Event)
  : M W pydict :=
  fun w => let (o, c') := op (client w) in
           (o, mkWorld c' (store w) (clock w) (trace w ++ [ev o])%list).

Definition store_call (op : S -> outcome unit * S) (ev : outcome unit -> Event)
  : M W unit :=
  fun w => let (o, s') := op (store w) in
           (o, mkWorld (client w) s' (clock w) (trace w ++ [ev o])%list).

Definition clock_call (fmt : string) : M W string :=
  fun w => let (a, k') := now_strftime env fmt (clock w) in
           (Ok a, mkWorld (client w) (store w) k' (trace w ++ [EvNow fmt a])%list).

Definition client_post_message (channel text : string) (blocks : option pyval)
  : M W pydict :=
  client_call (post_message env channel text blocks) (EvPost channel text blocks).

Definition client_send_dm (user_id text : string) : M W pydict :=
  client_call (send_dm env user_id text) (EvDM user_id text).

(** [run_id or datetime.now().strftime("%Y%m%d_%H%M%S")] *)
Definition resolve_run_id (run_id : option string) : M W string :=
  match run_id with
  | Some r => if truthy (PStr r) then ret r else clock_call "%Y%m%d_%H%M%S"
  | None => clock_call "%Y%m%d_%H%M%S"
  end.

Definition _store_digest_item (self : DigestDistributor)
    (item_msg : DigestItemMessage) (message_ts : pyval)
    (channel_id run_id : string) : M W unit :=
  if negb (is_some (feedback_store self)) || negb (FEEDBACK_AVAILABLE env) then
    ret tt
  else
    today <- clock_call "%Y-%m-%d" ;;
    let digest_item :=
      {| digest_item_id := msg_digest_item_id item_msg;
         run_id := run_id;
         date := today;
         team := msg_team item_msg;
         item_type := msg_item_type item_msg;
         title := msg_title item_msg;
         summary := msg_text item_msg;
         confidence := msg_confidence item_msg;
         slack_message_ts := message_ts;
         slack_channel_id := channel_id |} in
    store_call (store_digest_item env digest_item) (EvStore digest_item).

(** The body of the two item loops, which differ in [section] only:
    post the item, store it when a store is configured and the post is
    ok, record the post; an exception is logged and the item skipped. *)
Definition post_item (self : DigestDistributor) (channel run_id section : string)
    (results : MainResults) (item_msg : DigestItemMessage) : M W MainResults :=
  try_except
    (result <- client_post_message channel (msg_text item_msg)
                                   (Some (msg_blocks item_msg)) ;;
     stored <-
       (if is_some (feedback_store self) && truthy (dict_get result "ok" PNone)
        then
          _store_digest_item self item_msg (dict_get result "ts" (PStr ""))
                             channel run_id ;;;
          ret (m_items_stored results + 1)
        else ret (m_items_stored results)) ;;
     ret {| m_header := m_header results;
            m_items := (m_items results ++
                        [{| ip_digest_item_id := msg_digest_item_id item_msg;
                            ip_message_ts := dict_get result "ts" PNone;
                            ip_ok := dict_get result "ok" PNone;
                            ip_confidence := msg_confidence item_msg;
                            ip_section := section |}])%list;
            m_items_stored := stored |})
    (fun e => (* logger.warning("Failed to post item ...") *) ret results).

Definition _post_main_digest_with_items (self : DigestDistributor)
    (output : Output) (team_analyses : list (string * TA)) (run_id : string)
    (item_confidences : option (list (string * Q))) : M W MainResults :=
  let channel := digest_channel (config self) in
  ' (header_text, header_blocks) <-
      lift (format_header_message env output team_analyses) ;;
  header_result <- client_post_message channel header_text (Some header_blocks) ;;
  let results :=
    {| m_header := Some header_result; m_items := []; m_items_stored := 0 |} in
  ' (high_conf, low_conf, excluded) <-
      lift (format_digest_items env team_analyses run_id item_confidences) ;;
  results <- for_each high_conf (post_item self channel run_id "main") results ;;
  match low_conf with
  | [] => ret results
  | _ :: _ =>
      client_post_message channel DIVIDER_TEXT (Some DIVIDER_BLOCKS) ;;;
      for_each low_conf (post_item self channel run_id "fyi") results
  end.

Definition _post_team_details (self : DigestDistributor) (team_analysis : TA)
  : M W pydict :=
  match dict_lookup (channels (config self)) (team_name env team_analysis) with
  | Some channel_id =>
      if negb (truthy (PStr channel_id)) then
        ret [("ok", PBool false); ("error", PStr "no_channel_configured")]
      else
        details <- lift (format_team_details env team_analysis) ;;
        client_post_message channel_id details None
  | None =>
      ret [("ok", PBool false); ("error", PStr "no_channel_configured")]
  end.

Definition _send_leadership_dm (self : DigestDistributor) (output : Output)
    (team_analyses : list (string * TA)) (user_id : string) : M W pydict :=
  summary <- lift (format_leadership_dm env output team_analyses) ;;
  client_send_dm user_id summary.

Definition post_team (self : DigestDistributor) (results : DistributionResult)
    (entry : string * TA) : M W DistributionResult :=
  let (team_name, team_analysis) := entry in
  try_except
    (team_result <- _post_team_details self team_analysis ;;
     ret {| r_run_id := r_run_id results;
            r_main_post := r_main_post results;
            r_item_posts := r_item_posts results;
            r_team_posts := dict_set (r_team_posts results) team_name team_result;
            r_dms := r_dms results;
            r_errors := r_errors results;
            r_items_stored := r_items_stored results |})
    (fun e => ret (add_error results
                     ("Failed to post to " ++ team_name ++ ": " ++ exn_msg e))).

Definition send_dm_to (self : DigestDistributor) (output : Output)
    (team_analyses : list (string * TA)) (results : DistributionResult)
    (user_id : string) : M W DistributionResult :=
  try_except
    (dm_result <- _send_leadership_dm self output team_analyses user_id ;;
     ret {| r_run_id := r_run_id results;
            r_main_post := r_main_post results;
            r_item_posts := r_item_posts results;
            r_team_posts := r_team_posts results;
            r_dms := (r_dms results ++ [(user_id, dm_result)])%list;
            r_errors := r_errors results;
            r_items_stored := r_items_stored results |})
    (fun e => ret (add_error results
                     ("Failed to DM " ++ user_id ++ ": " ++ exn_msg e))).

Definition post_main (self : DigestDistributor) (output : Output)
    (team_analyses : list (string * TA)) (run_id : string)
    (item_confidences : option (list (string * Q)))
    (results : DistributionResult) : M W DistributionResult :=
  try_except
    (main_results <- _post_main_digest_with_items self output team_analyses
                                                  run_id item_confidences ;;
     ret {| r_run_id := r_run_id results;
            r_main_post := m_header main_results;
            r_item_posts := m_items main_results;
            r_team_posts := r_team_posts results;
            r_dms := r_dms results;
            r_errors := r_errors results;
            r_items_stored := m_items_stored main_results |})
    (fun e => ret (add_error results ("Failed to post main digest: " ++ exn_msg e))).

Definition distribute (self : DigestDistributor) (output : Output)
    (team_analyses : list (string * TA)) (run_id : option string)
    (item_confidences : option (list (string * Q))) : M W DistributionResult :=
  run_id <- resolve_run_id run_id ;;
  let results := initial_results run_id in
  (* 1. header and individual items to the main digest channel *)
  results <- post_main self output team_analyses run_id item_confidences results ;;
  (* 2. detailed breakdown to each team's channel *)
  results <- for_each team_analyses (post_team self) results ;;
  (* 3. leadership DMs *)
  results <- for_each (leadership_users (config self))
                      (send_dm_to self output team_analyses) results ;;
  ret results.

Definition item_view (m : DigestItemMessage) : string * string * Q :=
  (msg_digest_item_id m, msg_text m, msg_confidence m).

Definition team_detail (team_details : list (string * string))
    (entry : string * TA) : M W (list (string * string)) :=
  let (team_name, ta) := entry in
  details <- lift (format_team_details env ta) ;;
  ret (dict_set team_details team_name details).

Definition preview (self : DigestDistributor) (output : Output)
    (team_analyses : list (string * TA)) (run_id : option string)
    (item_confidences : option (list (string * Q))) : M W (Preview Excluded) :=
  run_id <- resolve_run_id run_id ;;
  header <- lift (format_header_message env output team_analyses) ;;
  ' (high_conf, low_conf, excluded) <-
      lift (format_digest_items env team_analyses run_id item_confidences) ;;
  main <- lift (format_main_digest env output team_analyses) ;;
  team_details <- for_each team_analyses team_detail [] ;;
  leadership_dm <- lift (format_leadership_dm env output team_analyses) ;;
  ret {| p_run_id := run_id;
         p_main_post := main;
         p_header := header;
         p_high_confidence_items := map item_view high_conf;
         p_low_confidence_items := map item_view low_conf;
         p_excluded_items := excluded;
         p_team_details := team_details;
         p_leadership_dm := leadership_dm |}.

End Code.

(** *** What a run of the main-channel step looks like

    The relations below describe the calls the item loops and
    [_post_main_digest_with_items] make, read off the log: they relate
    the events appended to the log to the results computed. *)

Section Runs.

Context {Output TA Excluded C S K : Type}.
Variable env : Env Output TA Excluded C S K.
Variable self : DigestDistributor.
Variables channel rid : string.

Definition post_event (it : DigestItemMessage) (out : outcome pydict) : Event :=
  EvPost channel (msg_text it) (Some (msg_blocks it)) out.

(** The [DigestItem] stored for a posted item. *)
Definition digest_item_of (it : DigestItemMessage) (result : pydict)
    (today : string) : DigestItem :=
  {| digest_item_id := msg_digest_item_id it;
     run_id := rid;
     date := today;
     team := msg_team it;
     item_type := msg_item_type it;
     title := msg_title it;
     summary := msg_text it;
     confidence := msg_confidence it;
     slack_message_ts := dict_get result "ts" (PStr "");
     slack_channel_id := channel |}.

(** [results] after recording a post. *)
Definition recorded (section : string) (it : DigestItemMessage)
    (result : pydict) (stored : Z) (acc : MainResults) : MainResults :=
  {| m_header := m_header acc;
     m_items := (m_items acc ++
                 [{| ip_digest_item_id := msg_digest_item_id it;
                     ip_message_ts := dict_get result "ts" PNone;
                     ip_ok := dict_get result "ok" PNone;
                     ip_confidence := msg_confidence it;
                     ip_section := section |}])%list;
     m_items_stored := stored |}.

(** [self.feedback_store and result.get("ok")] *)
Definition wants_store (result : pydict) : bool :=
  is_some (feedback_store self) && truthy (dict_get result "ok" PNone).

(** One pass through the loop body for item [it]. *)
Inductive item_step (section : string) (it : DigestItemMessage)
    (acc : MainResults) : list Event -> MainResults -> Prop :=
| step_post_raised e :
    item_step section it acc [post_event it (Raise e)] acc
| step_posted result :
    wants_store result = false ->
    item_step section it acc [post_event it (Ok result)]
              (recorded section it result (m_items_stored acc) acc)
| step_counted result :
    wants_store result = true ->
    FEEDBACK_AVAILABLE env = false ->
    item_step section it acc [post_event it (Ok result)]
              (recorded section it result (m_items_stored acc + 1) acc)
| step_stored result today :
    wants_store result = true ->
    FEEDBACK_AVAILABLE env = true ->
    item_step section it acc
              [post_event it (Ok result); EvNow "%Y-%m-%d" today;
               EvStore (digest_item_of it result today) (Ok tt)]
              (recorded section it result (m_items_stored acc + 1) acc)
| step_store_raised result today e :
    wants_store result = true ->
    FEEDBACK_AVAILABLE env = true ->
    item_step section it acc
              [post_event it (Ok result); EvNow "%Y-%m-%d" today;
               EvStore (digest_item_of it result today) (Raise e)]
              acc.

(** The whole loop over [items]. *)
Inductive items_run (section : string)
  : list DigestItemMessage -> MainResults -> list Event -> MainResults -> Prop :=
| run_done acc : items_run section [] acc [] acc
| run_item it items acc tr1 acc1 tr2 acc2 :
    item_step section it acc tr1 acc1 ->
    items_run section items acc1 tr2 acc2 ->
    items_run section (it :: items) acc (tr1 ++ tr2)%list acc2.

Variables (header_text : string) (header_blocks : pyval).
Variables high low : list DigestItemMessage.

Definition header_event (out : outcome pydict) : Event :=
  EvPost channel header_text (Some header_blocks) out.

Definition divider_event (out : outcome pydict) : Event :=
  EvPost channel DIVIDER_TEXT (Some DIVIDER_BLOCKS) out.

Definition after_header (header_result : pydict) : MainResults :=
  {| m_header := Some header_result; m_items := []; m_items_stored := 0 |}.

(** The calls of [_post_main_digest_with_items] once the formatter has
    produced the header and the buckets [high] and [low]. *)
Inductive main_run : list Event -> outcome MainResults -> Prop :=
| main_header_raised e :
    main_run [header_event (Raise e)] (Raise e)
| main_without_low hr trh acc :
    low = [] ->
    items_run "main" high (after_header hr) trh acc ->
    main_run (header_event (Ok hr) :: trh) (Ok acc)
| main_divider_raised hr trh acc e :
    low <> [] ->
    items_run "main" high (after_header hr) trh acc ->
    main_run (header_event (Ok hr) :: trh ++ [divider_event (Raise e)])%list
             (Raise e)
| main_with_low hr trh acc dr trl acc' :
    low <> [] ->
    items_run "main" high (after_header hr) trh acc ->
    items_run "fyi" low acc trl acc' ->
    main_run (header_event (Ok hr) :: trh ++ divider_event (Ok dr) :: trl)%list
             (Ok acc').

End Runs.

Ltac run_step :=
  match goal with
  | |- context [match ?x with _ => _ end] =>
      lazymatch x with
      | context [match _ with _ => _ end] => fail
      | _ => destruct x eqn:?
      end
  end; cbn [fst snd trace store clock client] in *.

Ltac unfold_run :=
  unfold bind, lift, ret, client_post_message, client_send_dm, client_call,
         store_call, clock_call, try_except;
  cbn [fst snd trace store clock client].

Section RunLemmas.

Context {Output TA Excluded C S K : Type}.
Variable env : Env Output TA Excluded C S K.
Variable self : DigestDistributor.

Lemma post_item_run (channel run_id section : string) (acc : MainResults)
    (it : DigestItemMessage) (w : World C S K) :
  exists acc' tr w',
    post_item env self channel run_id section acc it w = (Ok acc', w') /\
    trace w' = (trace w ++ tr)%list /\
    item_step env self channel run_id section it acc tr acc'.
Proof.
  unfold post_item, _store_digest_item. unfold_run.
  destruct (post_message env channel (msg_text it) (Some (msg_blocks it)) (client w))
    as [[result|e] c'] eqn:Hpost.
  - fold (wants_store self result).
    destruct (wants_store self result) eqn:Hw.
    + assert (Hs : is_some (feedback_store self) = true)
        by (unfold wants_store in Hw; now apply andb_prop in Hw).
      rewrite Hs. cbn [negb orb].
      destruct (FEEDBACK_AVAILABLE env) eqn:Hf;
        cbn [negb fst snd trace store clock client].
      * destruct (now_strftime env "%Y-%m-%d" (clock w)) as [today k'].
        cbn [fst snd trace store clock client].
        match goal with
        | |- context [store_digest_item env ?d (store w)] =>
            destruct (store_digest_item env d (store w)) as [[[]|e] s'] eqn:Hst
        end.
        -- do 3 eexists. split; [reflexivity|]. cbn [trace].
           split; [rewrite <- !app_assoc; reflexivity|].
           now apply step_stored.
        -- do 3 eexists. split; [reflexivity|]. cbn [trace].
           split; [rewrite <- !app_assoc; reflexivity|].
           now apply step_store_raised.
      * do 3 eexists. split; [reflexivity|]. cbn [trace].
        split; [reflexivity|]. now apply step_counted.
    + do 3 eexists. split; [reflexivity|]. cbn [trace].
      split; [reflexivity|]. now apply step_posted.
  - do 3 eexists. split; [reflexivity|]. cbn [trace].
    split; [reflexivity|]. apply step_post_raised.
Qed.

Lemma for_each_post_item_run (channel run_id section : string)
    (items : list DigestItemMessage) :
  forall (acc : MainResults) (w : World C S K),
  exists acc' tr w',
    for_each items (post_item env self channel run_id section) acc w = (Ok acc', w') /\
    trace w' = (trace w ++ tr)%list /\
    items_run env self channel run_id section items acc tr acc'.
Proof.
  induction items as [|it items IH]; intros acc w.
  - exists acc, [], w. cbn. rewrite app_nil_r. repeat split. constructor.
  - destruct (post_item_run channel run_id section acc it w)
      as (acc1 & tr1 & w1 & Hrun1 & Htr1 & Hstep).
    destruct (IH acc1 w1) as (acc2 & tr2 & w2 & Hrun2 & Htr2 & Hrest).
    exists acc2, (tr1 ++ tr2)%list, w2.
    cbn [for_each]. unfold bind. rewrite Hrun1, Hrun2.
    split; [reflexivity|]. split.
    + now rewrite Htr2, Htr1, app_assoc.
    + econstructor; eassumption.
Qed.

Lemma main_digest_run (output : Output) (team_analyses : list (string * TA))
    (run_id : string) (item_confidences : option (list (string * Q)))
    (w : World C S K) header_text header_blocks high low excluded :
  format_header_message env output team_analyses = Ok (header_text, header_blocks) ->
  format_digest_items env team_analyses run_id item_confidences
    = Ok (high, low, excluded) ->
  exists tr,
    trace (snd (_post_main_digest_with_items env self output team_analyses
                                             run_id item_confidences w))
    = (trace w ++ tr)%list /\
    main_run env self (digest_channel (config self)) run_id
             header_text header_blocks high low tr
             (fst (_post_main_digest_with_items env self output team_analyses
                                                run_id item_confidences w)).
Proof.
  intros Hh Hb. unfold _post_main_digest_with_items.
  rewrite Hh, Hb. unfold_run.
  set (ch := digest_channel (config self)).
  destruct (post_message env ch header_text (Some header_blocks) (client w))
    as [[hr|e] c1] eqn:Hpost; cbn [fst snd trace].
  2:{ eexists. split; [reflexivity|]. apply main_header_raised. }
  match goal with
  | |- context [for_each high ?body ?acc ?w1] =>
      destruct (for_each_post_item_run ch run_id "main" high acc w1)
        as (acc1 & trh & w1' & Hrun & Htr & Hitems)
  end.
  rewrite Hrun. cbn [trace] in Htr.
  destruct low as [|l0 low'] eqn:Hlow.
  - cbn [fst snd]. exists (header_event ch header_text header_blocks (Ok hr) :: trh).
    split.
    + rewrite Htr, <- app_assoc. reflexivity.
    + now apply main_without_low.
  - rewrite <- Hlow in *.
    destruct (post_message env ch DIVIDER_TEXT (Some DIVIDER_BLOCKS) (client w1'))
      as [[dr|e] c2] eqn:Hdiv; cbn [fst snd trace].
    + match goal with
      | |- context [for_each low ?body ?acc ?w2] =>
          destruct (for_each_post_item_run ch run_id "fyi" low acc w2)
            as (acc2 & trl & w2' & Hrun2 & Htr2 & Hitems2)
      end.
      rewrite Hrun2. cbn [fst snd trace] in *.
      exists (header_event ch header_text header_blocks (Ok hr)
                :: trh ++ divider_event ch (Ok dr) :: trl)%list.
      split.
      * rewrite Htr2, Htr. rewrite <- !app_assoc. reflexivity.
      * eapply main_with_low; eauto. subst low. discriminate.
    + exists (header_event ch header_text header_blocks (Ok hr)
                :: trh ++ [divider_event ch (Raise e)])%list.
      split.
      * rewrite Htr. rewrite <- !app_assoc. reflexivity.
      * eapply main_divider_raised; eauto. subst low. discriminate.
Qed.

Lemma count_app (f : Event -> bool) (a b : list Event) :
  count f (a ++ b) = (count f a + count f b)%nat.
Proof. unfold count. now rewrite filter_app, length_app. Qed.

Lemma count_cons (f : Event -> bool) (e : Event) (tr : list Event) :
  count f (e :: tr) = ((if f e then 1 else 0) + count f tr)%nat.
Proof. unfold count. cbn. now destruct (f e). Qed.

Definition item_ok (ip : ItemPost) : Prop := truthy (ip_ok ip) = true.

Lemma item_step_counts channel rid section it acc tr acc' :
  item_step env self channel rid section it acc tr acc' ->
  (count post_returned tr + count post_raised tr = 1)%nat /\
  (List.length (m_items acc') + count store_raised tr
   = List.length (m_items acc) + count post_returned tr)%nat /\
  m_header acc' = m_header acc /\
  (count post_not_ok tr = 0%nat ->
   Forall item_ok (m_items acc) -> Forall item_ok (m_items acc')) /\
  (feedback_store self <> None -> count post_not_ok tr = 0%nat ->
   m_items_stored acc' + Z.of_nat (count store_raised tr)
   = m_items_stored acc + Z.of_nat (count post_returned tr)) /\
  (feedback_store self = None ->
   m_items_stored acc' = m_items_stored acc /\ count store_called tr = 0%nat).
Proof.
  assert (Hnone : forall r, feedback_store self = None -> wants_store self r = false).
  { intros r Hn. unfold wants_store. now rewrite Hn. }
  assert (Hsome : forall r, feedback_store self <> None ->
                            wants_store self r = false ->
                            negb (truthy (dict_get r "ok" PNone)) = true).
  { intros r Hn. unfold wants_store.
    destruct (feedback_store self); [|congruence]. cbn.
    now intros ->. }
  intros Hstep. destruct Hstep; unfold recorded, item_ok in *;
    cbn [count filter post_returned post_raised store_raised post_not_ok
         store_called post_event List.length m_items m_header m_items_stored];
    rewrite ?length_app; cbn [List.length];
    (repeat split; try lia; try reflexivity; intros;
     try (rewrite Forall_app; split; [assumption|]; repeat constructor; cbn);
     try match goal with
         | Hn : feedback_store self = None, Hw : wants_store self _ = true |- _ =>
             rewrite (Hnone _ Hn) in Hw; discriminate Hw
         end).
  all: try match goal with
           | H : (if negb ?b then _ else _) = 0%nat |- _ =>
               destruct b eqn:?; [reflexivity|discriminate H]
           | H : List.length (if negb ?b then _ else _) = 0%nat |- _ =>
               destruct b eqn:?; [reflexivity|discriminate H]
           end.
  all: try match goal with
           | Hs : feedback_store self <> None, Hw : wants_store self ?r = false,
             H : context [negb (truthy (dict_get ?r "ok" PNone))] |- _ =>
               rewrite (Hsome r Hs Hw) in H; discriminate H
           end.
  all: assumption.
Qed.

Lemma items_run_counts channel rid section items acc tr acc' :
  items_run env self channel rid section items acc tr acc' ->
  (count post_returned tr + count post_raised tr = List.length items)%nat /\
  (List.length (m_items acc') + count store_raised tr
   = List.length (m_items acc) + count post_returned tr)%nat /\
  m_header acc' = m_header acc /\
  (count post_not_ok tr = 0%nat ->
   Forall item_ok (m_items acc) -> Forall item_ok (m_items acc')) /\
  (feedback_store self <> None -> count post_not_ok tr = 0%nat ->
   m_items_stored acc' + Z.of_nat (count store_raised tr)
   = m_items_stored acc + Z.of_nat (count post_returned tr)) /\
  (feedback_store self = None ->
   m_items_stored acc' = m_items_stored acc /\ count store_called tr = 0%nat).
Proof.
  induction 1 as [acc|it items acc tr1 acc1 tr2 acc2 Hstep Hrest IH].
  - cbn. repeat split; auto.
  - apply item_step_counts in Hstep.
    destruct Hstep as (S1 & S2 & S3 & S4 & S5 & S6).
    destruct IH as (I1 & I2 & I3 & I4 & I5 & I6).
    rewrite !count_app. cbn [List.length].
    split; [lia|]. split; [lia|]. split; [congruence|].
    split; [|split].
    + intros Hz Hall. apply I4; [lia|]. apply S4; [lia|assumption].
    + intros Hs Hz. specialize (S5 Hs). specialize (I5 Hs). lia.
    + intros Hn. destruct (S6 Hn), (I6 Hn). split; [congruence|lia].
Qed.

(** Once the header post has returned, the main-channel step records
    one entry per item post that returned, less those whose store call
    raised; with a store and all posts ok it counts the same number of
    stored items. *)
Lemma main_run_counts channel rid ht hb high low tr m :
  main_run env self channel rid ht hb high low tr (Ok m) ->
  (count post_raised tr + List.length (m_items m) + count store_raised tr
   = List.length high + List.length low)%nat /\
  (count post_not_ok tr = 0%nat -> Forall item_ok (m_items m)) /\
  (feedback_store self <> None -> count post_not_ok tr = 0%nat ->
   m_items_stored m = Z.of_nat (List.length (m_items m))) /\
  (feedback_store self = None ->
   m_items_stored m = 0 /\ count store_called tr = 0%nat).
Proof.
  intros Hrun. inversion Hrun as [|hr trh acc Hlow Hh|
                                  |hr trh acc dr trl acc' Hlow Hh Hl]; subst.
  - apply items_run_counts in Hh. destruct Hh as (H1 & H2 & _ & H4 & H5 & H6).
    rewrite !count_cons. cbn [header_event post_raised store_raised post_not_ok
                              store_called after_header m_items m_items_stored
                              List.length] in *.
    split; [lia|]. split; [|split].
    + intros Hz. apply H4; [|constructor].
      destruct (negb (truthy (dict_get hr "ok" PNone))); [discriminate|exact Hz].
    + intros Hs Hz.
      destruct (negb (truthy (dict_get hr "ok" PNone))); [discriminate|].
      specialize (H5 Hs Hz). lia.
    + intros Hn. destruct (H6 Hn). split; [assumption|lia].
  - apply items_run_counts in Hh. destruct Hh as (H1 & H2 & _ & H4 & H5 & H6).
    apply items_run_counts in Hl. destruct Hl as (L1 & L2 & _ & L4 & L5 & L6).
    rewrite !count_cons, !count_app, !count_cons.
    cbn [header_event divider_event post_raised store_raised post_not_ok
         store_called after_header m_items m_items_stored List.length] in *.
    split; [lia|]. split; [|split].
    + intros Hz.
      destruct (negb (truthy (dict_get hr "ok" PNone))); [discriminate|].
      destruct (negb (truthy (dict_get dr "ok" PNone))); [lia|].
      apply L4; [lia|]. apply H4; [lia|constructor].
    + intros Hs Hz.
      destruct (negb (truthy (dict_get hr "ok" PNone))); [discriminate|].
      destruct (negb (truthy (dict_get dr "ok" PNone))); [lia|].
      assert (Hh0 : count post_not_ok trh = 0%nat) by lia.
      assert (Hl0 : count post_not_ok trl = 0%nat) by lia.
      specialize (H5 Hs Hh0). specialize (L5 Hs Hl0). lia.
    + intros Hn. destruct (H6 Hn), (L6 Hn). split; [congruence|lia].
Qed.

(** *** The three stages of [distribute] *)

Definition team_error (name msg : string) : string :=
  "Failed to post to " ++ name ++ ": " ++ msg.

Definition dm_error (user_id msg : string) : string :=
  "Failed to DM " ++ user_id ++ ": " ++ msg.

Definition main_error (msg : string) : string :=
  "Failed to post main digest: " ++ msg.

Definition is_team_error (s : string) : Prop := exists name msg, s = team_error name msg.
Definition is_dm_error (s : string) : Prop := exists user msg, s = dm_error user msg.

(** Two results that differ at most in team posts, DMs and errors. *)
Definition same_main (a b : DistributionResult) : Prop :=
  r_run_id a = r_run_id b /\ r_main_post a = r_main_post b /\
  r_item_posts a = r_item_posts b /\ r_items_stored a = r_items_stored b.

Lemma resolve_run_id_ok (run_id : option string) (w : World C S K) :
  exists rid w0,
    resolve_run_id env run_id w = (Ok rid, w0) /\
    client w0 = client w /\ store w0 = store w /\
    (trace w0 = trace w \/ exists fmt, trace w0 = (trace w ++ [EvNow fmt rid])%list).
Proof.
  unfold resolve_run_id. unfold_run.
  destruct run_id as [r|]; [destruct (truthy (PStr r))|];
    try destruct (now_strftime env "%Y%m%d_%H%M%S" (clock w)) as [rid k'];
    do 2 eexists; cbn [client store trace];
    (split; [reflexivity|]; split; [reflexivity|]; split; [reflexivity|]);
    first [left; reflexivity | right; eexists; reflexivity].
Qed.

Lemma dict_set_key_in {V} (d : list (string * V)) (k : string) (v : V) :
  In k (map fst (dict_set d k v)).
Proof.
  induction d as [|[k0 v0] d IH]; cbn; [auto|].
  destruct (String.eqb k k0); cbn; auto.
Qed.

Lemma dict_set_keys_mono {V} (d : list (string * V)) (k k' : string) (v : V) :
  In k' (map fst d) -> In k' (map fst (dict_set d k v)).
Proof.
  induction d as [|[k0 v0] d IH]; cbn; [tauto|].
  destruct (String.eqb k k0) eqn:E; cbn.
  - apply String.eqb_eq in E. subst. tauto.
  - intros [->|H]; auto.
Qed.

Lemma post_team_run (results : DistributionResult) (entry : string * TA)
    (w : World C S K) :
  exists results' w' tr,
    post_team env self results entry w = (Ok results', w') /\
    trace w' = (trace w ++ tr)%list /\ store w' = store w /\
    count store_called tr = 0%nat /\
    same_main results results' /\ r_dms results' = r_dms results /\
    (forall k, In k (map fst (r_team_posts results)) ->
               In k (map fst (r_team_posts results'))) /\
    ((r_errors results' = r_errors results /\
      In (fst entry) (map fst (r_team_posts results')))
     \/ (exists msg, r_errors results'
                     = (r_errors results ++ [team_error (fst entry) msg])%list)).
Proof.
  destruct entry as [name ta]. unfold post_team, _post_team_details. unfold_run.
  repeat run_step;
    repeat match goal with
           | H : (_, _) = (_, _) |- _ => injection H as <- <-
           | H : Ok _ = Ok _ |- _ => injection H as <-
           | H : Ok _ = Raise _ |- _ => discriminate H
           | H : Raise _ = Ok _ |- _ => discriminate H
           | H : Raise _ = Raise _ |- _ => injection H as <-
           end;
    (do 3 eexists; split; [reflexivity|]; cbn [trace store];
     split; [first [rewrite app_nil_r; reflexivity | reflexivity
                   | symmetry; apply app_nil_r]|];
     split; [reflexivity|]; split; [reflexivity|];
     split; [repeat split|]; split; [reflexivity|];
     cbn [r_team_posts r_errors add_error fst];
     split; [intros k Hk; first [exact Hk | apply dict_set_keys_mono; exact Hk]|];
     first [ left; split; [reflexivity|apply dict_set_key_in]
           | right; eexists; reflexivity ]).
Qed.

Lemma same_main_trans (a b c : DistributionResult) :
  same_main a b -> same_main b c -> same_main a c.
Proof. unfold same_main. intuition congruence. Qed.

Lemma teams_run (team_analyses : list (string * TA)) :
  forall (results : DistributionResult) (w : World C S K),
  exists results' w' tr errs,
    for_each team_analyses (post_team env self) results w = (Ok results', w') /\
    trace w' = (trace w ++ tr)%list /\ store w' = store w /\
    count store_called tr = 0%nat /\
    same_main results results' /\ r_dms results' = r_dms results /\
    r_errors results' = (r_errors results ++ errs)%list /\
    (Forall is_team_error errs /\
     (List.length errs <= List.length team_analyses)%nat) /\
    (forall k, In k (map fst (r_team_posts results)) ->
               In k (map fst (r_team_posts results'))) /\
    (forall entry, In entry team_analyses ->
       In (fst entry) (map fst (r_team_posts results')) \/
       exists msg, In (team_error (fst entry) msg) errs).
Proof.
  induction team_analyses as [|entry rest IH]; intros results w.
  - exists results, w, [], []. cbn. rewrite !app_nil_r.
    repeat split; auto. intros _ [].
  - destruct (post_team_run results entry w)
      as (r1 & w1 & tr1 & Hrun1 & Htr1 & Hst1 & Hc1 & Hm1 & Hd1 & Hk1 & He1).
    destruct (IH r1 w1)
      as (r2 & w2 & tr2 & errs2 & Hrun2 & Htr2 & Hst2 & Hc2 & Hm2 & Hd2 & He2
          & [Hf2 Hlen2] & Hk2 & Hp2).
    cbn [for_each]. unfold bind. rewrite Hrun1, Hrun2.
    destruct He1 as [[He1 Hin1] | [msg He1]].
    + exists r2, w2, (tr1 ++ tr2)%list, errs2.
      split; [reflexivity|]. split; [now rewrite Htr2, Htr1, app_assoc|].
      split; [congruence|]. split; [rewrite count_app; lia|].
      split; [eapply same_main_trans; eassumption|].
      split; [congruence|]. split; [congruence|].
      split; [split; [assumption|cbn; lia]|].
      split; [auto|].
      intros e [<-|Hin]; auto.
    + exists r2, w2, (tr1 ++ tr2)%list, (team_error (fst entry) msg :: errs2).
      split; [reflexivity|]. split; [now rewrite Htr2, Htr1, app_assoc|].
      split; [congruence|]. split; [rewrite count_app; lia|].
      split; [eapply same_main_trans; eassumption|].
      split; [congruence|].
      split; [rewrite He2, He1, <- app_assoc; reflexivity|].
      split; [split; [constructor; [do 2 eexists; reflexivity|assumption]
                     |cbn; lia]|].
      split; [auto|].
      intros e [<-|Hin].
      * right. exists msg. now left.
      * destruct (Hp2 e Hin) as [H|[m H]]; [now left|].
        right. exists m. now right.
Qed.

Lemma send_dm_to_run (output : Output) (team_analyses : list (string * TA))
    (results : DistributionResult) (user_id : string) (w : World C S K) :
  exists results' w' tr,
    send_dm_to env self output team_analyses results user_id w = (Ok results', w') /\
    trace w' = (trace w ++ tr)%list /\ store w' = store w /\
    count store_called tr = 0%nat /\
    same_main results results' /\
    r_team_posts results' = r_team_posts results /\
    ((r_errors results' = r_errors results /\
      exists res, r_dms results' = (r_dms results ++ [(user_id, res)])%list)
     \/ (r_dms results' = r_dms results /\
         exists msg, r_errors results'
                     = (r_errors results ++ [dm_error user_id msg])%list)).
Proof.
  unfold send_dm_to, _send_leadership_dm. unfold_run.
  repeat run_step;
    repeat match goal with
           | H : (_, _) = (_, _) |- _ => injection H as <- <-
           | H : Ok _ = Ok _ |- _ => injection H as <-
           | H : Ok _ = Raise _ |- _ => discriminate H
           | H : Raise _ = Ok _ |- _ => discriminate H
           | H : Raise _ = Raise _ |- _ => injection H as <-
           end;
    (do 3 eexists; split; [reflexivity|]; cbn [trace store];
     split; [first [reflexivity | symmetry; apply app_nil_r]|];
     split; [reflexivity|]; split; [reflexivity|];
     split; [repeat split|]; split; [reflexivity|];
     cbn [r_dms r_errors add_error];
     first [ left; split; [reflexivity|eexists; reflexivity]
           | right; split; [reflexivity|eexists; reflexivity] ]).
Qed.

Lemma dms_run (output : Output) (team_analyses : list (string * TA))
    (users : list string) :
  forall (results : DistributionResult) (w : World C S K),
  exists results' w' tr errs new,
    for_each users (send_dm_to env self output team_analyses) results w
    = (Ok results', w') /\
    trace w' = (trace w ++ tr)%list /\ store w' = store w /\
    count store_called tr = 0%nat /\
    same_main results results' /\
    r_team_posts results' = r_team_posts results /\
    r_errors results' = (r_errors results ++ errs)%list /\
    (Forall is_dm_error errs /\ (List.length errs <= List.length users)%nat) /\
    r_dms results' = (r_dms results ++ new)%list /\
    (forall user, In user users ->
       (exists res, In (user, res) new) \/ exists msg, In (dm_error user msg) errs).
Proof.
  induction users as [|user rest IH]; intros results w.
  - exists results, w, [], [], []. cbn. rewrite !app_nil_r.
    repeat split; auto. intros _ [].
  - destruct (send_dm_to_run output team_analyses results user w)
      as (r1 & w1 & tr1 & Hrun1 & Htr1 & Hst1 & Hc1 & Hm1 & Ht1 & He1).
    destruct (IH r1 w1)
      as (r2 & w2 & tr2 & errs2 & new2 & Hrun2 & Htr2 & Hst2 & Hc2 & Hm2 & Ht2
          & He2 & [Hf2 Hlen2] & Hd2 & Hp2).
    cbn [for_each]. unfold bind. rewrite Hrun1, Hrun2.
    destruct He1 as [[He1 [res Hd1]] | [Hd1 [msg He1]]].
    + exists r2, w2, (tr1 ++ tr2)%list, errs2, ((user, res) :: new2).
      split; [reflexivity|]. split; [now rewrite Htr2, Htr1, app_assoc|].
      split; [congruence|]. split; [rewrite count_app; lia|].
      split; [eapply same_main_trans; eassumption|].
      split; [congruence|]. split; [congruence|].
      split; [split; [assumption|cbn; lia]|].
      split; [rewrite Hd2, Hd1, <- app_assoc; reflexivity|].
      intros u [<-|Hin].
      * left. exists res. now left.
      * destruct (Hp2 u Hin) as [[r H]|H]; [|now right].
        left. exists r. now right.
    + exists r2, w2, (tr1 ++ tr2)%list, (dm_error user msg :: errs2), new2.
      split; [reflexivity|]. split; [now rewrite Htr2, Htr1, app_assoc|].
      split; [congruence|]. split; [rewrite count_app; lia|].
      split; [eapply same_main_trans; eassumption|].
      split; [congruence|].
      split; [rewrite He2, He1, <- app_assoc; reflexivity|].
      split; [split; [constructor; [do 2 eexists; reflexivity|assumption]
                     |cbn; lia]|].
      split; [congruence|].
      intros u [<-|Hin].
      * right. exists msg. now left.
      * destruct (Hp2 u Hin) as [H|[m H]]; [now left|].
        right. exists m. now right.
Qed.

Lemma post_main_run (output : Output) (team_analyses : list (string * TA))
    (rid : string) (item_confidences : option (list (string * Q)))
    (results : DistributionResult) (w : World C S K) :
  post_main env self output team_analyses rid item_confidences results w
  = match _post_main_digest_with_items env self output team_analyses rid
                                       item_confidences w with
    | (Ok m, w1) =>
        (Ok {| r_run_id := r_run_id results;
               r_main_post := m_header m;
               r_item_posts := m_items m;
               r_team_posts := r_team_posts results;
               r_dms := r_dms results;
               r_errors := r_errors results;
               r_items_stored := m_items_stored m |}, w1)
    | (Raise e, w1) => (Ok (add_error results (main_error (exn_msg e))), w1)
    end.
Proof.
  unfold post_main, try_except, bind, ret.
  destruct (_post_main_digest_with_items env self output team_analyses rid
                                         item_confidences w) as [[m|e] w1];
    reflexivity.
Qed.

(** The shape of every run of [distribute]: the three stages in order,
    each returning; what the result holds after them. *)
Lemma distribute_run (output : Output) (team_analyses : list (string * TA))
    (run_id : option string) (item_confidences : option (list (string * Q)))
    (w : World C S K) (rid : string) (w0 : World C S K) :
  resolve_run_id env run_id w = (Ok rid, w0) ->
  let main := _post_main_digest_with_items env self output team_analyses rid
                                           item_confidences w0 in
  exists r w' tr_teams tr_dms errs_teams errs_dms,
    distribute env self output team_analyses run_id item_confidences w = (Ok r, w') /\
    trace w' = (trace (snd main) ++ tr_teams ++ tr_dms)%list /\
    store w' = store (snd main) /\
    count store_called (tr_teams ++ tr_dms) = 0%nat /\
    r_run_id r = rid /\
    match fst main with
    | Ok m =>
        r_main_post r = m_header m /\ r_item_posts r = m_items m /\
        r_items_stored r = m_items_stored m /\
        r_errors r = (errs_teams ++ errs_dms)%list
    | Raise e =>
        r_main_post r = None /\ r_item_posts r = [] /\ r_items_stored r = 0 /\
        r_errors r = (main_error (exn_msg e) :: errs_teams ++ errs_dms)%list
    end /\
    (Forall is_team_error errs_teams /\
     (List.length errs_teams <= List.length team_analyses)%nat) /\
    (Forall is_dm_error errs_dms /\
     (List.length errs_dms <= List.length (leadership_users (config self)))%nat) /\
    (forall entry, In entry team_analyses ->
       In (fst entry) (map fst (r_team_posts r)) \/
       exists msg, In (team_error (fst entry) msg) errs_teams) /\
    (forall user, In user (leadership_users (config self)) ->
       (exists res, In (user, res) (r_dms r)) \/
       exists msg, In (dm_error user msg) errs_dms).
Proof.
  intros Hrid main.
  unfold distribute. unfold bind at 1. rewrite Hrid.
  unfold bind at 1. rewrite post_main_run. fold main.
  destruct main as [[m|e] w1]; cbn [fst snd];
    match goal with
    | |- context [for_each team_analyses (post_team env self) ?r1] =>
        destruct (teams_run team_analyses r1 w1)
          as (r2 & w2 & trt & et & Hrun2 & Htr2 & Hst2 & Hc2 & Hm2 & Hd2 & He2
              & Hf2 & Hk2 & Hp2)
    end;
    destruct (dms_run output team_analyses (leadership_users (config self)) r2 w2)
      as (r3 & w3 & trd & ed & new & Hrun3 & Htr3 & Hst3 & Hc3 & Hm3 & Ht3 & He3
          & Hf3 & Hd3 & Hp3);
    exists r3, w3, trt, trd, et, ed;
    destruct Hm2 as (A1 & A2 & A3 & A4), Hm3 as (B1 & B2 & B3 & B4);
    cbn [r_run_id r_main_post r_item_posts r_items_stored r_errors r_dms
         r_team_posts add_error initial_results] in *;
    (split; [unfold bind; rewrite Hrun2, Hrun3; reflexivity|]);
    (split; [now rewrite Htr3, Htr2, app_assoc|]);
    (split; [congruence|]);
    (split; [rewrite count_app; lia|]);
    (split; [congruence|]);
    (split; [ (split; [congruence|]); (split; [congruence|]);
              (split; [congruence|]);
              rewrite He3, He2; cbn [app]; rewrite <- ?app_assoc; reflexivity |]);
    (split; [assumption|]); (split; [assumption|]);
    (split;
     [ intros entry Hin; destruct (Hp2 entry Hin) as [H|H]; [left|now right];
       now rewrite Ht3
     | intros user Hin; destruct (Hp3 user Hin) as [[res H]|H]; [left|now right];
       exists res; rewrite Hd3; apply in_or_app; now right ]).
Qed.


Lemma main_digest_no_header (output : Output) (team_analyses : list (string * TA))
    (rid : string) (item_confidences : option (list (string * Q)))
    (w : World C S K) (e : exn) :
  format_header_message env output team_analyses = Raise e ->
  _post_main_digest_with_items env self output team_analyses rid
                               item_confidences w = (Raise e, w).
Proof.
  intros Hh. unfold _post_main_digest_with_items. rewrite Hh. reflexivity.
Qed.

Lemma client_events_app (a b : list Event) :
  client_events (a ++ b) = (client_events a ++ client_events b)%list.
Proof. apply filter_app. Qed.

Lemma skipn_length_app {A} (a b : list A) : skipn (List.length a) (a ++ b) = b.
Proof. now rewrite skipn_app, skipn_all, Nat.sub_diag. Qed.


Lemma main_digest_returned (output : Output) (team_analyses : list (string * TA))
    (rid : string) (item_confidences : option (list (string * Q)))
    (w w1 : World C S K) (m : MainResults) high low excluded :
  format_digest_items env team_analyses rid item_confidences
    = Ok (high, low, excluded) ->
  _post_main_digest_with_items env self output team_analyses rid
                               item_confidences w = (Ok m, w1) ->
  exists ht hb,
    format_header_message env output team_analyses = Ok (ht, hb) /\
    main_run env self (digest_channel (config self)) rid ht hb high low
             (skipn (List.length (trace w)) (trace w1)) (Ok m).
Proof.
  intros Hb Hmain.
  destruct (format_header_message env output team_analyses) as [[ht hb]|e] eqn:Hh.
  - exists ht, hb. split; [reflexivity|].
    destruct (main_digest_run output team_analyses rid item_confidences w
                              ht hb high low excluded Hh Hb) as (tr & Htr & Hrun).
    rewrite Hmain in Htr, Hrun. cbn [fst snd] in *.
    now rewrite Htr, skipn_length_app.
  - rewrite (main_digest_no_header output team_analyses rid item_confidences w e Hh)
      in Hmain. discriminate.
Qed.


Lemma posts_of_app (a b : list Event) :
  posts_of (a ++ b) = (posts_of a ++ posts_of b)%list.
Proof.
  induction a as [|e a IH]; [reflexivity|].
  destruct e; cbn; now rewrite ?IH.
Qed.

(** the message an item is posted as *)
Definition item_post (channel : string) (it : DigestItemMessage)
  : string * string * option pyval :=
  (channel, msg_text it, Some (msg_blocks it)).

(** Each item of a loop is posted once, in order, as its own message. *)
Lemma items_run_posts channel rid section items acc tr acc' :
  items_run env self channel rid section items acc tr acc' ->
  posts_of tr = map (item_post channel) items.
Proof.
  induction 1 as [acc|it items acc tr1 acc1 tr2 acc2 Hstep Hrest IH];
    [reflexivity|].
  rewrite posts_of_app, IH. destruct Hstep; reflexivity.
Qed.


(** *** Preview *)




(** [_post_main_digest_with_items], one call at a time. *)
Lemma main_unfold (output : Output) (team_analyses : list (string * TA))
    (rid : string) (item_confidences : option (list (string * Q)))
    (w : World C S K) :
  let ch := digest_channel (config self) in
  _post_main_digest_with_items env self output team_analyses rid item_confidences w
  = match format_header_message env output team_analyses with
    | Raise e => (Raise e, w)
    | Ok (ht, hb) =>
        match client_post_message env ch ht (Some hb) w with
        | (Raise e, w1) => (Raise e, w1)
        | (Ok hr, w1) =>
            match format_digest_items env team_analyses rid item_confidences with
            | Raise e => (Raise e, w1)
            | Ok (high, low, _) =>
                match for_each high (post_item env self ch rid "main")
                               (after_header hr) w1 with
                | (Raise e, w2) => (Raise e, w2)
                | (Ok results, w2) =>
                    match low with
                    | [] => (Ok results, w2)
                    | _ :: _ =>
                        match client_post_message env ch DIVIDER_TEXT
                                                  (Some DIVIDER_BLOCKS) w2 with
                        | (Raise e, w3) => (Raise e, w3)
                        | (Ok _, w3) =>
                            for_each low (post_item env self ch rid "fyi") results w3
                        end
                    end
                end
            end
        end
    end.
Proof.
  intros ch. unfold _post_main_digest_with_items. fold ch.
  unfold bind, lift, ret, after_header.
  destruct (format_header_message env output team_analyses) as [[ht hb]|e];
    [|reflexivity].
  destruct (client_post_message env ch ht (Some hb) w) as [[hr|e] w1]; [|reflexivity].
  destruct (format_digest_items env team_analyses rid item_confidences)
    as [[[high low] excluded]|e]; [|reflexivity].
  destruct (for_each high (post_item env self ch rid "main") _ w1) as [[res|e] w2];
    [|reflexivity].
  destruct low; [reflexivity|].
  destruct (client_post_message env ch DIVIDER_TEXT (Some DIVIDER_BLOCKS) w2)
    as [[dr|e] w3]; reflexivity.
Qed.

(** *** Runs without a feedback store *)

(** the store is in the same state and the log has no new store call *)
Definition store_untouched (w w' : World C S K) : Prop :=
  store w' = store w /\
  count store_called (trace w') = count store_called (trace w).

Lemma store_untouched_refl (w : World C S K) : store_untouched w w.
Proof. split; reflexivity. Qed.

Lemma store_untouched_trans (a b c : World C S K) :
  store_untouched a b -> store_untouched b c -> store_untouched a c.
Proof. unfold store_untouched. intuition congruence. Qed.

Lemma store_untouched_ext (w w' : World C S K) (tr : list Event) :
  trace w' = (trace w ++ tr)%list -> store w' = store w ->
  count store_called tr = 0%nat -> store_untouched w w'.
Proof.
  intros Ht Hs Hc. split; [exact Hs|]. rewrite Ht, count_app. lia.
Qed.

Lemma items_untouched channel rid section items acc acc' (w w' : World C S K) :
  feedback_store self = None ->
  for_each items (post_item env self channel rid section) acc w = (Ok acc', w') ->
  store_untouched w w'.
Proof.
  intros Hn. revert acc w.
  induction items as [|it items IH]; intros acc w Hrun.
  - cbn in Hrun. injection Hrun as _ <-. apply store_untouched_refl.
  - cbn [for_each] in Hrun. unfold bind in Hrun.
    destruct (post_item env self channel rid section acc it w) as [[a1|e] w1] eqn:E1.
    + apply store_untouched_trans with w1; [|eapply IH; eassumption].
      revert E1. unfold post_item, _store_digest_item, wants_store.
      rewrite Hn. unfold_run.
      destruct (post_message env channel (msg_text it) (Some (msg_blocks it))
                             (client w)) as [[res|e] c'];
        intros E1; injection E1 as _ <-; split; cbn [store trace];
        rewrite ?count_app; cbn; lia || reflexivity.
    + destruct (post_item_run channel rid section acc it w) as (? & ? & ? & E & _).
      congruence.
Qed.

Lemma client_post_untouched channel text blocks (w : World C S K) :
  store_untouched w (snd (client_post_message env channel text blocks w)).
Proof.
  unfold_run. destruct (post_message env channel text blocks (client w)).
  split; cbn [snd store trace]; [reflexivity|]. rewrite count_app. cbn. lia.
Qed.

Lemma main_untouched (output : Output) (team_analyses : list (string * TA))
    (rid : string) (item_confidences : option (list (string * Q)))
    (w : World C S K) :
  feedback_store self = None ->
  store_untouched w (snd (_post_main_digest_with_items env self output team_analyses
                                                       rid item_confidences w)).
Proof.
  intros Hn. unfold _post_main_digest_with_items.
  unfold bind at 1. unfold lift at 1.
  destruct (format_header_message env output team_analyses) as [[ht hb]|e];
    [|apply store_untouched_refl].
  unfold bind at 1.
  pose proof (client_post_untouched (digest_channel (config self)) ht (Some hb) w)
    as Hhdr.
  destruct (client_post_message env (digest_channel (config self)) ht (Some hb) w)
    as [[hr|e] w1]; cbn [snd] in *; [|exact Hhdr].
  unfold bind at 1. unfold lift at 1.
  destruct (format_digest_items env team_analyses rid item_confidences)
    as [[[high low] excluded]|e]; [|exact Hhdr].
  unfold bind at 1.
  match goal with
  | |- context [for_each high ?body ?acc w1] =>
      destruct (for_each_post_item_run (digest_channel (config self)) rid "main"
                                       high acc w1) as (acc1 & trh & w2 & Hrun & _);
      pose proof (items_untouched _ _ _ _ _ _ _ _ Hn Hrun) as Hhigh
  end.
  rewrite Hrun.
  assert (H2 : store_untouched w w2) by (eapply store_untouched_trans; eassumption).
  destruct low as [|l0 low']; [exact H2|].
  unfold bind at 1.
  pose proof (client_post_untouched (digest_channel (config self)) DIVIDER_TEXT
                                    (Some DIVIDER_BLOCKS) w2) as Hdiv.
  destruct (client_post_message env (digest_channel (config self)) DIVIDER_TEXT
                                (Some DIVIDER_BLOCKS) w2) as [[dr|e] w3];
    cbn [snd] in *; [|eapply store_untouched_trans; eassumption].
  match goal with
  | |- context [for_each ?items ?body ?acc w3] =>
      destruct (for_each_post_item_run (digest_channel (config self)) rid "fyi"
                                       items acc w3) as (acc2 & trl & w4 & Hrun2 & _);
      pose proof (items_untouched _ _ _ _ _ _ _ _ Hn Hrun2) as Hlow
  end.
  rewrite Hrun2. cbn [snd].
  eapply store_untouched_trans; [exact H2|].
  eapply store_untouched_trans; eassumption.
Qed.

(** Without a feedback store, a run of [distribute] leaves the store as
    it was, calls it never, and reports [items_stored = 0]. *)
Lemma distribute_untouched (output : Output) (team_analyses : list (string * TA))
    (run_id : option string) (item_confidences : option (list (string * Q)))
    (w : World C S K) :
  feedback_store self = None ->
  exists r w',
    distribute env self output team_analyses run_id item_confidences w = (Ok r, w') /\
    store w' = store w /\
    count store_called (trace w') = count store_called (trace w) /\
    r_items_stored r = 0.
Proof.
  intros Hn.
  destruct (resolve_run_id_ok run_id w) as (rid & w0 & Hrid & _ & Hs0 & Htr0).
  destruct (distribute_run output team_analyses run_id item_confidences w rid w0 Hrid)
    as (r & w' & trt & trd & et & ed & Hrun & Htr & Hst & Hc & _ & Hres & _).
  cbv zeta in *.
  pose proof (main_untouched output team_analyses rid item_confidences w0 Hn)
    as [Hms Hmc].
  exists r, w'. split; [exact Hrun|].
  assert (H0 : count store_called (trace w0) = count store_called (trace w)).
  { destruct Htr0 as [-> | [fmt ->]]; [reflexivity|].
    rewrite count_app. cbn. lia. }
  split; [congruence|].
  split; [rewrite Htr, count_app; lia|].
  destruct (_post_main_digest_with_items env self output team_analyses rid
                                         item_confidences w0) as [[m|e] w1] eqn:Hmain;
    cbn [fst snd] in *; [|tauto].
  destruct Hres as (_ & _ & -> & _).
  destruct (format_digest_items env team_analyses rid item_confidences)
    as [[[high low] excluded]|e] eqn:Hb.
  - destruct (main_digest_returned output team_analyses rid item_confidences
                                   w0 w1 m high low excluded Hb Hmain)
      as (ht & hb & _ & Hmr).
    apply main_run_counts in Hmr. destruct Hmr as (_ & _ & _ & Hz).
    now destruct (Hz Hn).
  - exfalso. revert Hmain. unfold _post_main_digest_with_items.
    rewrite Hb. unfold_run.
    destruct (format_header_message env output team_analyses) as [[ht hb]|e'];
      [|discriminate].
    destruct (post_message env (digest_channel (config self)) ht (Some hb) (client w0))
      as [[hr|e'] c1]; discriminate.
Qed.

(** *** What is stored, and when *)

(** [item] was handed to the store right after a post to [channel] that
    reported ok, and carries that post's text and timestamp. *)
Definition stored_after_ok_post (channel : string) (tr : list Event)
    (item : DigestItem) : Prop :=
  exists blocks result,
    In (EvPost channel (summary item) blocks (Ok result)) tr /\
    truthy (dict_get result "ok" PNone) = true /\
    slack_message_ts item = dict_get result "ts" (PStr "") /\
    slack_channel_id item = channel.

Lemma stored_after_ok_post_incl channel tr tr' item :
  incl tr tr' ->
  stored_after_ok_post channel tr item -> stored_after_ok_post channel tr' item.
Proof.
  intros Hi (b & r & Hin & H). exists b, r. split; [apply Hi, Hin|exact H].
Qed.

Lemma item_step_stores channel rid section it acc tr acc' :
  item_step env self channel rid section it acc tr acc' ->
  (forall item out, In (EvStore item out) tr ->
     feedback_store self <> None /\ stored_after_ok_post channel tr item) /\
  m_items_stored acc <= m_items_stored acc'
    <= m_items_stored acc + Z.of_nat (count post_ok tr).
Proof.
  assert (Hw : forall r, wants_store self r = true ->
                         feedback_store self <> None /\
                         truthy (dict_get r "ok" PNone) = true).
  { intros r. unfold wants_store. destruct (feedback_store self); cbn; [|discriminate].
    intros ->. split; [discriminate|reflexivity]. }
  intros Hstep. destruct Hstep as [e|result Hf|result Ht Hf|result today Ht Hf
                                   |result today e Ht Hf];
    cbn [count filter post_ok post_event List.length recorded m_items_stored];
    try (destruct (Hw _ Ht) as [Hs Hok]; rewrite ?Hok; cbn [List.length]);
    (split; [|try lia;
              try (destruct (truthy (dict_get result "ok" PNone)); cbn; lia)]);
    intros item out Hin; cbn [In] in Hin;
    repeat match goal with
           | H : _ \/ _ |- _ => destruct H
           | H : False |- _ => contradiction
           | H : post_event _ _ _ = EvStore _ _ |- _ => discriminate H
           | H : EvNow _ _ = EvStore _ _ |- _ => discriminate H
           | H : EvStore _ _ = EvStore _ _ |- _ => injection H as <- <-
           end;
    (split; [assumption|]);
    exists (Some (msg_blocks it)), result; cbn; auto.
Qed.

Lemma items_run_stores channel rid section items acc tr acc' :
  items_run env self channel rid section items acc tr acc' ->
  (forall item out, In (EvStore item out) tr ->
     feedback_store self <> None /\ stored_after_ok_post channel tr item) /\
  m_items_stored acc <= m_items_stored acc'
    <= m_items_stored acc + Z.of_nat (count post_ok tr).
Proof.
  induction 1 as [acc|it items acc tr1 acc1 tr2 acc2 Hstep Hrest IH].
  - cbn. split; [intros ? ? []|lia].
  - apply item_step_stores in Hstep. destruct Hstep as [S1 S2], IH as [I1 I2].
    rewrite count_app. split; [|lia].
    intros item out Hin. apply in_app_or in Hin. destruct Hin as [Hin|Hin].
    + destruct (S1 item out Hin) as [Hs Hp]. split; [exact Hs|].
      eapply stored_after_ok_post_incl; [|exact Hp]. apply incl_appl, incl_refl.
    + destruct (I1 item out Hin) as [Hs Hp]. split; [exact Hs|].
      eapply stored_after_ok_post_incl; [|exact Hp]. apply incl_appr, incl_refl.
Qed.

Lemma no_store_called (tr : list Event) (item : DigestItem) (out : outcome unit) :
  count store_called tr = 0%nat -> ~ In (EvStore item out) tr.
Proof.
  induction tr as [|e tr IH]; [intros _ []|].
  rewrite count_cons. intros Hc [->|Hin].
  - cbn in Hc. discriminate.
  - apply IH; [lia|exact Hin].
Qed.

Lemma main_run_stores channel rid ht hb high low tr o :
  main_run env self channel rid ht hb high low tr o ->
  (forall item out, In (EvStore item out) tr ->
     feedback_store self <> None /\ stored_after_ok_post channel tr item) /\
  (forall m, o = Ok m -> 0 <= m_items_stored m <= Z.of_nat (count post_ok tr)).
Proof.
  intros Hrun. inversion Hrun; subst;
    repeat match goal with
           | H : items_run _ _ _ _ _ _ _ _ _ |- _ =>
               apply items_run_stores in H; destruct H
           end;
    cbn [after_header m_items_stored] in *;
    (split;
     [ intros item out Hin; cbn [In] in Hin;
       repeat match goal with
              | H : _ \/ _ |- _ => destruct H
              | H : False |- _ => contradiction
              | H : header_event _ _ _ _ = EvStore _ _ |- _ => discriminate H
              | H : divider_event _ _ = EvStore _ _ |- _ => discriminate H
              | H : In _ (_ ++ _) |- _ => apply in_app_or in H; cbn [In] in H
              end;
       match goal with
       | Hst : (forall i o, In (EvStore i o) ?t -> _), Hi : In (EvStore _ _) ?t |- _ =>
           destruct (Hst _ _ Hi) as [Hs Hp]; split; [exact Hs|];
           eapply stored_after_ok_post_incl; [|exact Hp];
           first [ apply incl_tl, incl_refl
                 | apply incl_tl, incl_appl, incl_refl
                 | apply incl_tl, incl_appr, incl_tl, incl_refl ]
       end
     | intros m Hm; try discriminate Hm; injection Hm as <-;
       rewrite ?count_cons, ?count_app, ?count_cons; lia ]).
Qed.

Lemma main_digest_stores (output : Output) (team_analyses : list (string * TA))
    (rid : string) (item_confidences : option (list (string * Q)))
    (w : World C S K) :
  let main := _post_main_digest_with_items env self output team_analyses rid
                                           item_confidences w in
  exists tr,
    trace (snd main) = (trace w ++ tr)%list /\
    (forall item out, In (EvStore item out) tr ->
       feedback_store self <> None /\
       stored_after_ok_post (digest_channel (config self)) tr item) /\
    (forall m, fst main = Ok m ->
       0 <= m_items_stored m <= Z.of_nat (count post_ok tr)).
Proof.
  intros main.
  destruct (format_header_message env output team_analyses) as [[ht hb]|e] eqn:Hh.
  - destruct (format_digest_items env team_analyses rid item_confidences)
      as [[[high low] excluded]|e] eqn:Hb.
    + destruct (main_digest_run output team_analyses rid item_confidences w
                                ht hb high low excluded Hh Hb) as (tr & Htr & Hrun).
      fold main in Htr, Hrun. exists tr. split; [exact Htr|].
      now apply main_run_stores in Hrun.
    + unfold main, _post_main_digest_with_items. rewrite Hh, Hb. unfold_run.
      destruct (post_message env (digest_channel (config self)) ht (Some hb) (client w))
        as [[hr|e'] c1]; cbn [fst snd trace];
        (eexists; split; [reflexivity|]; split;
         [intros item out [Hin|[]]; discriminate Hin|intros m Hm; discriminate Hm]).
  - unfold main.
    rewrite (main_digest_no_header output team_analyses rid item_confidences w e Hh).
    exists []. cbn [fst snd]. rewrite app_nil_r.
    split; [reflexivity|]. split; [intros ? ? []|discriminate].
Qed.

(** In every run of [distribute], an item reaches the store only with a
    store configured and right after a post that reported ok, and
    [items_stored] counts no more than the posts that reported ok. *)
Lemma distribute_stores (output : Output) (team_analyses : list (string * TA))
    (run_id : option string) (item_confidences : option (list (string * Q)))
    (w : World C S K) :
  let run := distribute env self output team_analyses run_id item_confidences w in
  let new := skipn (List.length (trace w)) (trace (snd run)) in
  (forall item out, In (EvStore item out) new ->
     feedback_store self <> None /\
     stored_after_ok_post (digest_channel (config self)) new item) /\
  (forall r, fst run = Ok r ->
     0 <= r_items_stored r <= Z.of_nat (count post_ok new) /\
     (feedback_store self = None -> r_items_stored r = 0)).
Proof.
  intros run new.
  destruct (resolve_run_id_ok run_id w) as (rid & w0 & Hrid & _ & _ & Htr0).
  destruct (distribute_run output team_analyses run_id item_confidences w rid w0 Hrid)
    as (r & w' & trt & trd & et & ed & Hrun & Htr & _ & Hc & _ & Hres & _).
  destruct (main_digest_stores output team_analyses rid item_confidences w0)
    as (trm & Htrm & Hst & Hbound).
  cbv zeta in *.
  assert (Hnew : exists pre, new = (pre ++ trm ++ trt ++ trd)%list /\
                             count store_called pre = 0%nat).
  { unfold new, run. rewrite Hrun. cbn [snd]. rewrite Htr, Htrm.
    destruct Htr0 as [-> | [fmt ->]].
    - exists []. rewrite <- !app_assoc, skipn_length_app. split; reflexivity.
    - exists [EvNow fmt rid]. rewrite <- !app_assoc, skipn_length_app.
      split; reflexivity. }
  destruct Hnew as (pre & Hnew & Hpre). rewrite Hnew.
  split.
  - intros item out Hin.
    apply in_app_or in Hin. destruct Hin as [Hin|Hin];
      [exfalso; exact (no_store_called _ _ _ Hpre Hin)|].
    apply in_app_or in Hin. destruct Hin as [Hin|Hin];
      [|exfalso; exact (no_store_called _ _ _ Hc Hin)].
    destruct (Hst item out Hin) as [Hs Hp]. split; [exact Hs|].
    eapply stored_after_ok_post_incl; [|exact Hp].
    apply incl_appr, incl_appl, incl_refl.
  - intros r' Hr'. unfold run in Hr'. rewrite Hrun in Hr'. injection Hr' as <-.
    split.
    + rewrite !count_app.
      destruct (_post_main_digest_with_items env self output team_analyses rid
                  item_confidences w0) as [[m|e] w1] eqn:Hmain; cbn [fst] in *.
      * destruct Hres as (_ & _ & -> & _). specialize (Hbound m eq_refl). lia.
      * destruct Hres as (_ & _ & -> & _). lia.
    + intros Hn.
      destruct (distribute_untouched output team_analyses run_id item_confidences
                                     w Hn) as (r0 & w0' & Hrun0 & _ & _ & Hz).
      congruence.
Qed.


End RunLemmas.

(** *** Two distributors with the same configuration

    What the Slack client sees of a run: its state and the calls made to
    it.  It does not depend on whether a feedback store is configured. *)

Section SameClient.

Context {Output TA Excluded C S K : Type}.
Variable env : Env Output TA Excluded C S K.

Definition client_view (w : World C S K) : C * list Event :=
  (client w, client_events (trace w)).

Lemma client_view_eq (w1 w2 : World C S K) :
  client_view w1 = client_view w2 <->
  client w1 = client w2 /\ client_events (trace w1) = client_events (trace w2).
Proof. unfold client_view. split; [intros H; now injection H|intros [-> ->]; reflexivity]. Qed.

Lemma client_post_view channel text blocks (w1 w2 : World C S K) :
  client_view w1 = client_view w2 ->
  fst (client_post_message env channel text blocks w1)
  = fst (client_post_message env channel text blocks w2) /\
  client_view (snd (client_post_message env channel text blocks w1))
  = client_view (snd (client_post_message env channel text blocks w2)).
Proof.
  intros Hv. apply client_view_eq in Hv. destruct Hv as [Hc Ht].
  unfold_run. rewrite Hc.
  destruct (post_message env channel text blocks (client w2)) as [o c'].
  cbn [fst snd]. split; [reflexivity|].
  unfold client_view. cbn [client trace]. now rewrite !client_events_app, Ht.
Qed.

Lemma client_dm_view user text (w1 w2 : World C S K) :
  client_view w1 = client_view w2 ->
  fst (client_send_dm env user text w1) = fst (client_send_dm env user text w2) /\
  client_view (snd (client_send_dm env user text w1))
  = client_view (snd (client_send_dm env user text w2)).
Proof.
  intros Hv. apply client_view_eq in Hv. destruct Hv as [Hc Ht].
  unfold_run. rewrite Hc.
  destruct (send_dm env user text (client w2)) as [o c'].
  cbn [fst snd]. split; [reflexivity|].
  unfold client_view. cbn [client trace]. now rewrite !client_events_app, Ht.
Qed.

(** what posting one item does to the client *)
Definition item_client_step (channel : string) (v : C * list Event)
    (it : DigestItemMessage) : C * list Event :=
  let (out, c') :=
    post_message env channel (msg_text it) (Some (msg_blocks it)) (fst v) in
  (c', (snd v ++ [EvPost channel (msg_text it) (Some (msg_blocks it)) out])%list).

Lemma post_item_view (self : DigestDistributor) channel rid section acc it
    (w : World C S K) :
  client_view (snd (post_item env self channel rid section acc it w))
  = item_client_step channel (client_view w) it.
Proof.
  unfold post_item, _store_digest_item, item_client_step, client_view.
  unfold_run.
  destruct (post_message env channel (msg_text it) (Some (msg_blocks it)) (client w))
    as [[result|e] c']; cbn [fst snd client trace].
  2:{ now rewrite client_events_app. }
  repeat run_step; cbn [fst snd client trace];
    rewrite ?client_events_app; cbn; rewrite ?app_nil_r; reflexivity.
Qed.

Lemma items_view (self : DigestDistributor) channel rid section items :
  forall acc (w : World C S K),
    client_view (snd (for_each items (post_item env self channel rid section) acc w))
    = fold_left (item_client_step channel) items (client_view w).
Proof.
  induction items as [|it items IH]; intros acc w; [reflexivity|].
  cbn [for_each fold_left]. unfold bind.
  pose proof (post_item_view self channel rid section acc it w) as Hv.
  destruct (post_item_run env self channel rid section acc it w)
    as (acc1 & tr & w1 & Hrun & _).
  rewrite Hrun in *. cbn [snd] in Hv. rewrite IH, Hv. reflexivity.
Qed.

Variables self1 self2 : DigestDistributor.
Hypothesis same_config : config self1 = config self2.

Lemma main_same_client (output : Output) (team_analyses : list (string * TA))
    (rid : string) (item_confidences : option (list (string * Q)))
    (w1 w2 : World C S K) :
  client_view w1 = client_view w2 ->
  client_view (snd (_post_main_digest_with_items env self1 output team_analyses
                                                 rid item_confidences w1))
  = client_view (snd (_post_main_digest_with_items env self2 output team_analyses
                                                   rid item_confidences w2)).
Proof.
  intros Hv. rewrite !main_unfold. cbv zeta. rewrite same_config.
  set (ch := digest_channel (config self2)).
  destruct (format_header_message env output team_analyses) as [[ht hb]|e];
    [|exact Hv].
  destruct (client_post_view ch ht (Some hb) w1 w2 Hv) as [Ho Hv1].
  destruct (client_post_message env ch ht (Some hb) w1) as [o1 w1a].
  destruct (client_post_message env ch ht (Some hb) w2) as [o2 w2a].
  cbn [fst snd] in *. subst o2. destruct o1 as [hr|e]; [|exact Hv1].
  destruct (format_digest_items env team_analyses rid item_confidences)
    as [[[high low] excluded]|e]; [|exact Hv1].
  pose proof (items_view self1 ch rid "main" high (after_header hr) w1a) as H1.
  pose proof (items_view self2 ch rid "main" high (after_header hr) w2a) as H2.
  destruct (for_each_post_item_run env self1 ch rid "main" high (after_header hr) w1a)
    as (a1 & t1 & w1b & R1 & _).
  destruct (for_each_post_item_run env self2 ch rid "main" high (after_header hr) w2a)
    as (a2 & t2 & w2b & R2 & _).
  rewrite R1, R2 in *. cbn [snd] in H1, H2.
  assert (Hv2 : client_view w1b = client_view w2b) by congruence.
  destruct low as [|l0 low']; [exact Hv2|].
  destruct (client_post_view ch DIVIDER_TEXT (Some DIVIDER_BLOCKS) w1b w2b Hv2)
    as [Hd Hv3].
  destruct (client_post_message env ch DIVIDER_TEXT (Some DIVIDER_BLOCKS) w1b)
    as [d1 w1c].
  destruct (client_post_message env ch DIVIDER_TEXT (Some DIVIDER_BLOCKS) w2b)
    as [d2 w2c].
  cbn [fst snd] in *. subst d2. destruct d1 as [dr|e]; [|exact Hv3].
  rewrite !items_view. congruence.
Qed.

Lemma post_team_same_client (r1 r2 : DistributionResult) (entry : string * TA)
    (w1 w2 : World C S K) :
  client_view w1 = client_view w2 ->
  client_view (snd (post_team env self1 r1 entry w1))
  = client_view (snd (post_team env self2 r2 entry w2)).
Proof.
  intros Hv. destruct entry as [name ta].
  unfold post_team, _post_team_details. rewrite same_config.
  unfold try_except, bind, lift, ret.
  destruct (dict_lookup (channels (config self2)) (team_name env ta)) as [ch|];
    [|exact Hv].
  destruct (negb (truthy (PStr ch))); [exact Hv|].
  destruct (format_team_details env ta) as [details|e]; [|exact Hv].
  destruct (client_post_view ch details None w1 w2 Hv) as [Ho Hv1].
  destruct (client_post_message env ch details None w1) as [o1 w1a].
  destruct (client_post_message env ch details None w2) as [o2 w2a].
  cbn [fst snd] in *. subst o2. destruct o1; exact Hv1.
Qed.

Lemma teams_same_client (team_analyses : list (string * TA)) :
  forall (r1 r2 : DistributionResult) (w1 w2 : World C S K),
    client_view w1 = client_view w2 ->
    client_view (snd (for_each team_analyses (post_team env self1) r1 w1))
    = client_view (snd (for_each team_analyses (post_team env self2) r2 w2)).
Proof.
  induction team_analyses as [|entry rest IH]; intros r1 r2 w1 w2 Hv; [exact Hv|].
  cbn [for_each]. unfold bind.
  pose proof (post_team_same_client r1 r2 entry w1 w2 Hv) as Hstep.
  destruct (post_team_run env self1 r1 entry w1) as (a1 & w1a & t1 & R1 & _).
  destruct (post_team_run env self2 r2 entry w2) as (a2 & w2a & t2 & R2 & _).
  rewrite R1, R2 in *. cbn [snd] in Hstep. now apply IH.
Qed.

Lemma send_dm_same_client (output : Output) (team_analyses : list (string * TA))
    (r1 r2 : DistributionResult) (user : string) (w1 w2 : World C S K) :
  client_view w1 = client_view w2 ->
  client_view (snd (send_dm_to env self1 output team_analyses r1 user w1))
  = client_view (snd (send_dm_to env self2 output team_analyses r2 user w2)).
Proof.
  intros Hv. unfold send_dm_to, _send_leadership_dm.
  unfold try_except, bind, lift, ret.
  destruct (format_leadership_dm env output team_analyses) as [summary|e];
    [|exact Hv].
  destruct (client_dm_view user summary w1 w2 Hv) as [Ho Hv1].
  destruct (client_send_dm env user summary w1) as [o1 w1a].
  destruct (client_send_dm env user summary w2) as [o2 w2a].
  cbn [fst snd] in *. subst o2. destruct o1; exact Hv1.
Qed.

Lemma dms_same_client (output : Output) (team_analyses : list (string * TA))
    (users : list string) :
  forall (r1 r2 : DistributionResult) (w1 w2 : World C S K),
    client_view w1 = client_view w2 ->
    client_view (snd (for_each users (send_dm_to env self1 output team_analyses) r1 w1))
    = client_view (snd (for_each users (send_dm_to env self2 output team_analyses) r2 w2)).
Proof.
  induction users as [|user rest IH]; intros r1 r2 w1 w2 Hv; [exact Hv|].
  cbn [for_each]. unfold bind.
  pose proof (send_dm_same_client output team_analyses r1 r2 user w1 w2 Hv) as Hstep.
  destruct (send_dm_to_run env self1 output team_analyses r1 user w1)
    as (a1 & w1a & t1 & R1 & _).
  destruct (send_dm_to_run env self2 output team_analyses r2 user w2)
    as (a2 & w2a & t2 & R2 & _).
  rewrite R1, R2 in *. cbn [snd] in Hstep. now apply IH.
Qed.

Lemma distribute_unfold (self : DigestDistributor) (output : Output)
    (team_analyses : list (string * TA)) (run_id : option string)
    (item_confidences : option (list (string * Q))) (w w0 : World C S K)
    (rid : string) :
  resolve_run_id env run_id w = (Ok rid, w0) ->
  exists r1 w1 r2 w2,
    post_main env self output team_analyses rid item_confidences
              (initial_results rid) w0 = (Ok r1, w1) /\
    w1 = snd (_post_main_digest_with_items env self output team_analyses rid
                                           item_confidences w0) /\
    for_each team_analyses (post_team env self) r1 w1 = (Ok r2, w2) /\
    distribute env self output team_analyses run_id item_confidences w
    = for_each (leadership_users (config self))
               (send_dm_to env self output team_analyses) r2 w2.
Proof.
  intros Hrid.
  destruct (post_main env self output team_analyses rid item_confidences
                      (initial_results rid) w0) as [o1 w1] eqn:Hmain.
  pose proof Hmain as Hmain'. rewrite post_main_run in Hmain'.
  assert (Hw1 : w1 = snd (_post_main_digest_with_items env self output team_analyses
                            rid item_confidences w0) /\ exists r1, o1 = Ok r1).
  { destruct (_post_main_digest_with_items env self output team_analyses rid
                item_confidences w0) as [[m|e] w1'];
      injection Hmain' as <- <-; split; eauto. }
  destruct Hw1 as [Hw1 [r1 ->]].
  destruct (teams_run env self team_analyses r1 w1) as (r2 & w2 & ? & ? & R2 & _).
  exists r1, w1, r2, w2. split; [reflexivity|]. split; [exact Hw1|].
  split; [exact R2|].
  unfold distribute. unfold bind. rewrite Hrid, Hmain, R2.
  destruct (for_each (leadership_users (config self))
                     (send_dm_to env self output team_analyses) r2 w2) as [[r3|e] w3];
    reflexivity.
Qed.

(** Two distributors with the same configuration, started in the same
    world, make the same calls to the Slack client and get the same
    answers, whether or not either has a feedback store. *)
Lemma distribute_same_client (output : Output)
    (team_analyses : list (string * TA)) (run_id : option string)
    (item_confidences : option (list (string * Q))) (w : World C S K) :
  client_view (snd (distribute env self1 output team_analyses run_id
                               item_confidences w))
  = client_view (snd (distribute env self2 output team_analyses run_id
                                 item_confidences w)).
Proof.
  destruct (resolve_run_id_ok env run_id w) as (rid & w0 & Hrid & _).
  destruct (distribute_unfold self1 output team_analyses run_id item_confidences
                              w w0 rid Hrid) as (a1 & u1 & a2 & u2 & _ & Hu1 & T1 & ->).
  destruct (distribute_unfold self2 output team_analyses run_id item_confidences
                              w w0 rid Hrid) as (b1 & v1 & b2 & v2 & _ & Hv1 & T2 & ->).
  rewrite same_config. apply dms_same_client.
  pose proof (teams_same_client team_analyses a1 b1 u1 v1) as Ht.
  rewrite T1, T2 in Ht. cbn [snd] in Ht. apply Ht.
  subst u1 v1. now apply main_same_client.
Qed.

End SameClient.

Section WithoutStore.

Context {Output TA Excluded C S K : Type}.
Variable env : Env Output TA Excluded C S K.

(** C10.  A distributor built with [feedback_store = None] makes the same
    calls to the Slack client, with the same answers, as one built with a
    store on the same configuration; it never calls the store, leaves it
    unchanged and reports [items_stored = 0].  Whatever the distributor,
    an item reaches the store only when a store is configured and right
    after a post that reported ok, and [items_stored] counts no more than
    the posts that reported ok. *)
Theorem distribute_without_store (cfg : DigestConfig) (output : Output)
    (team_analyses : list (string * TA)) (run_id : option string)
    (item_confidences : option (list (string * Q))) (w : World C S K) :
  let without := {| config := cfg; feedback_store := None |} in
  let run0 := distribute env without output team_analyses run_id item_confidences w in
  (forall st,
     let run1 := distribute env {| config := cfg; feedback_store := Some st |}
                            output team_analyses run_id item_confidences w in
     client (snd run0) = client (snd run1) /\
     client_events (trace (snd run0)) = client_events (trace (snd run1))) /\
  store (snd run0) = store w /\
  (forall item out,
     ~ In (EvStore item out) (skipn (List.length (trace w)) (trace (snd run0)))) /\
  (exists r, fst run0 = Ok r /\ r_items_stored r = 0) /\
  (forall self : DigestDistributor,
     let run := distribute env self output team_analyses run_id item_confidences w in
     let new := skipn (List.length (trace w)) (trace (snd run)) in
     (forall item out, In (EvStore item out) new ->
        feedback_store self <> None /\
        stored_after_ok_post (digest_channel (config self)) new item) /\
     (forall r, fst run = Ok r ->
        0 <= r_items_stored r <= Z.of_nat (count post_ok new) /\
        (feedback_store self = None -> r_items_stored r = 0))).
Proof.
  intros without run0.
  split; [|split; [|split; [|split]]].
  - intros st run1.
    apply client_view_eq. apply distribute_same_client. reflexivity.
  - destruct (distribute_untouched env without output team_analyses run_id
                                   item_confidences w eq_refl)
      as (r & w' & Hrun & Hs & _). unfold run0. now rewrite Hrun.
  - intros item out Hin.
    destruct (distribute_stores env without output team_analyses run_id
                                item_confidences w) as [Hst _].
    destruct (Hst item out Hin) as [Hn _]. now apply Hn.
  - destruct (distribute_untouched env without output team_analyses run_id
                                   item_confidences w eq_refl)
      as (r & w' & Hrun & _ & _ & Hz). exists r. unfold run0. now rewrite Hrun.
  - intros self. apply distribute_stores.
Qed.

End WithoutStore.

End Distributor.

(* ================================================================== *)
(** ** Scenarios on concrete collaborators *)
(* ================================================================== *)

Module Scenario.

Import Distributor.

(** *** A formatter that buckets by confidence *)

Inductive Bucket : Type := High | Low | Excluded.

Definition Bucket_eqb (a b : Bucket) : bool :=
  match a, b with
  | High, High | Low, Low | Excluded, Excluded => true
  | _, _ => false
  end.

(** Modelled from the spec: [DigestFormatter.format_digest_items] (module
    [formatter]) is not among the sources.  Section 4.6, step 2: an item
    whose confidence is at least the high threshold goes to the high
    bucket, one below it and at least the low threshold to the low bucket,
    one below the low threshold is excluded. *)
Definition bucket_of (high_threshold low_threshold confidence : Q) : Bucket :=
  if Qle_bool high_threshold confidence then High
  else if Qle_bool low_threshold confidence then Low
  else Excluded.

Definition in_bucket (high_threshold low_threshold : Q) (b : Bucket)
    (it : DigestItemMessage) : bool :=
  Bucket_eqb (bucket_of high_threshold low_threshold (msg_confidence it)) b.

(** Modelled from the spec: the three buckets, each in generation order. *)
Definition partition_by_confidence (high_threshold low_threshold : Q)
    (items : list DigestItemMessage)
  : list DigestItemMessage * list DigestItemMessage * list DigestItemMessage :=
  (filter (in_bucket high_threshold low_threshold High) items,
   filter (in_bucket high_threshold low_threshold Low) items,
   filter (in_bucket high_threshold low_threshold Excluded) items).

(** A team analysis reduced to the team's name and its items. *)
Record TeamAnalysis : Type := mkTeam {
  ta_team_name : string;
  ta_items : list DigestItemMessage
}.

(** the confidence override of an item, when [item_confidences] has one *)
Definition with_override (item_confidences : option (list (string * Q)))
    (it : DigestItemMessage) : DigestItemMessage :=
  match item_confidences with
  | Some d =>
      match dict_lookup d (msg_digest_item_id it) with
      | Some c =>
          {| msg_digest_item_id := msg_digest_item_id it;
             msg_text := msg_text it;
             msg_blocks := msg_blocks it;
             msg_confidence := c;
             msg_team := msg_team it;
             msg_item_type := msg_item_type it;
             msg_title := msg_title it |}
      | None => it
      end
  | None => it
  end.

Definition all_items (team_analyses : list (string * TeamAnalysis))
  : list DigestItemMessage :=
  flat_map (fun entry => ta_items (snd entry)) team_analyses.

(** *** Test doubles for the Slack client, the store and the clock *)

(** The client counts its calls; call number [n] raises when [fails n]. *)
Definition slack_answer (fails : nat -> bool) (text : string) (n : nat)
  : outcome pydict * nat :=
  (if fails n then Raise (Exn "SlackApiError" "rate_limited")
   else Ok [("ok", PBool true); ("ts", PStr ("ts-" ++ text))],
   S n).

(** The store keeps the items in the order they were stored. *)
Definition keep_item (item : DigestItem) (s : list DigestItem)
  : outcome unit * list DigestItem :=
  (Ok tt, (s ++ [item])%list).

Definition fixed_clock (fmt : string) (k : unit) : string * unit :=
  (if String.eqb fmt "%Y-%m-%d" then "2026-11-03" else "20261103_090000", k).

Definition env (high_threshold low_threshold : Q) (fails : nat -> bool)
  : Env unit TeamAnalysis DigestItemMessage nat (list DigestItem) unit :=
  {| team_name := ta_team_name;
     format_header_message := fun _ _ => Ok ("Daily digest", PList []);
     format_digest_items := fun team_analyses _ item_confidences =>
       Ok (partition_by_confidence high_threshold low_threshold
             (map (with_override item_confidences) (all_items team_analyses)));
     format_main_digest := fun _ _ => Ok ("Daily digest", PList []);
     format_team_details := fun ta => Ok ("Details for " ++ ta_team_name ta);
     format_leadership_dm := fun _ _ => Ok "Executive summary";
     post_message := fun _ text _ => slack_answer fails text;
     send_dm := fun _ text => slack_answer fails text;
     store_digest_item := keep_item;
     now_strftime := fixed_clock;
     FEEDBACK_AVAILABLE := true |}.

Definition item (id : string) (confidence : Q) : DigestItemMessage :=
  {| msg_digest_item_id := id;
     msg_text := "item " ++ id;
     msg_blocks := PList [];
     msg_confidence := confidence;
     msg_team := "eng";
     msg_item_type := "decision";
     msg_title := "title " ++ id |}.

Definition cfg : DigestConfig :=
  {| digest_channel := "C-DIGEST";
     channels := [("eng", "C-ENG")];
     leadership_users := ["U-LEAD"] |}.

Definition with_store : DigestDistributor :=
  {| config := cfg; feedback_store := Some tt |}.

Definition start : World nat (list DigestItem) unit :=
  {| client := 0%nat; store := []; clock := tt; trace := [] |}.

Definition never (n : nat) : bool := false.

(** Scenario C: confidences 0.9, 0.5 and 0.1 against thresholds 0.7 and 0.3. *)
Definition teams_c : list (string * TeamAnalysis) :=
  [("eng", mkTeam "eng" [item "a" (9 # 10); item "b" (5 # 10); item "c" (1 # 10)])].

(** Scenario D: five high-confidence items; the post of the third raises
    (calls are numbered from the header, which is call 0). *)
Definition teams_d : list (string * TeamAnalysis) :=
  [("eng", mkTeam "eng" [item "1" (9 # 10); item "2" (9 # 10); item "3" (9 # 10);
                         item "4" (9 # 10); item "5" (9 # 10)])].

Definition third_item (n : nat) : bool := (n =? 3)%nat.

Definition env_d := env (7 # 10) (3 # 10) third_item.


Definition env_c := env (7 # 10) (3 # 10) never.

Definition main_c :=
  _post_main_digest_with_items env_c with_store tt teams_c "run-c" None start.

Definition header_result_c : pydict :=
  [("ok", PBool true); ("ts", PStr "ts-Daily digest")].




(** [preview] on scenario C reports the three buckets and posts nothing. *)
Example preview_scenario_c :
  let r := preview env_c with_store tt teams_c (Some "run-c") None start in
  snd r = start /\
  exists p, fst r = Ok p /\
    map fst (map fst (p_high_confidence_items p)) = ["a"] /\
    map fst (map fst (p_low_confidence_items p)) = ["b"] /\
    map msg_digest_item_id (p_excluded_items p) = ["c"].
Proof. vm_compute. split; [reflexivity|]. eexists. repeat split; reflexivity. Qed.


End Scenario.

Module WebhookScenario.

Import Listener.

(** *** Test doubles for the listener *)

(** A stand-in for HMAC-SHA256; the theorems hold for any function. *)
Definition toy_mac (key msg : string) : string := key ++ "|" ++ msg.

Definition tracked : DigestItem :=
  {| digest_item_id := "run-1:eng:0";
     run_id := "run-1";
     date := "2026-11-03";
     team := "eng";
     item_type := "decision";
     title := "Ship it";
     summary := "The team decided to ship";
     confidence := 9 # 10;
     slack_message_ts := PStr "1700000000.000100";
     slack_channel_id := "C-DIGEST" |}.

Definition emoji_table (reaction : pyval) : option string :=
  match reaction with
  | PStr r =>
      if String.eqb r "white_check_mark" then Some "positive"
      else if String.eqb r "x" then Some "negative"
      else None
  | _ => None
  end.

Definition lookup_item (message_ts channel_id : pyval) : option DigestItem :=
  if py_eq_str message_ts "1700000000.000100" && py_eq_str channel_id "C-DIGEST"
  then Some tracked else None.

Definition already_gave (user_id : pyval) (item_id : string)
    (s : list FeedbackEvent) : bool :=
  existsb (fun fe =>
             match user_id, fe_user_id fe with
             | PStr u, PStr v => String.eqb u v
             | _, _ => false
             end && String.eqb (fe_digest_item_id fe) item_id) s.

(** The store is the list of feedback events; the clock stands still. *)
Definition env (secret : string) : Env (list FeedbackEvent) unit :=
  {| SIGNING_SECRET := secret;
     hmac_sha256 := toy_mac;
     time_time := fun k => (1700000000 # 1, k);
     datetime_now_isoformat := fun k => ("2023-11-14T22:13:20", k);
     emoji_to_feedback_type := fun r s => (Ok (emoji_table r), s);
     get_item_by_message_ts := fun t c s => (Ok (lookup_item t c), s);
     check_rate_limit := fun _ s => (Ok (true, 9), s);
     is_user_spamming := fun u i s => (Ok (already_gave u i s), s);
     store_feedback := fun fe s =>
       (Ok (Z.of_nat (List.length s) + 1), (s ++ [fe])%list) |}.

Definition start : World (list FeedbackEvent) unit :=
  {| store := []; clock := tt; trace := [] |}.

Definition reaction_payload : pyval :=
  PDict [("type", PStr "event_callback");
         ("event", PDict [("type", PStr "reaction_added");
                          ("user", PStr "U123");
                          ("reaction", PStr "white_check_mark");
                          ("item", PDict [("type", PStr "message");
                                          ("channel", PStr "C-DIGEST");
                                          ("ts", PStr "1700000000.000100")])])].

(** a request signed under the secret ["shh"], 100 seconds old *)
Definition signed_request : Request :=
  {| x_slack_request_timestamp := Some "1699999900";
     x_slack_signature :=
       Some ("v0=" ++ hex (toy_mac "shh" ("v0:1699999900:" ++ "{}")));
     data := "{}";
     json := Ok reaction_payload |}.

(** the same request without its timestamp header *)
Definition request_without_timestamp : Request :=
  {| x_slack_request_timestamp := None;
     x_slack_signature := x_slack_signature signed_request;
     data := "{}";
     json := Ok reaction_payload |}.




(** C3 fails on the code: with a secret configured, a request without a
    timestamp header makes [verify_slack_request] raise [ValueError]
    ([int("")]); no value is returned, and the endpoint raises as well
    instead of answering 403. *)
Theorem missing_timestamp_raises :
  fst (verify_slack_request (env "shh") request_without_timestamp start)
  = Raise (ValueError "invalid literal for int() with base 10: ") /\
  fst (handle_slack_event (env "shh") request_without_timestamp start)
  = Raise (ValueError "invalid literal for int() with base 10: ").
Proof. split; reflexivity. Qed.


(** Scenario A: [white_check_mark] on a tracked message stores one
    positive feedback event and is acknowledged. *)
Example reaction_on_tracked_message :
  let r := handle_slack_event (env "shh") signed_request start in
  fst r = Ok ok_response /\
  store (snd r)
  = [{| fe_digest_item_id := "run-1:eng:0";
        fe_user_id := PStr "U123";
        fe_team := "eng";
        fe_feedback_type := "positive";
        fe_created_at := "2023-11-14T22:13:20" |}].
Proof. vm_compute. split; reflexivity. Qed.

Definition untracked_payload : pyval :=
  PDict [("type", PStr "event_callback");
         ("event", PDict [("type", PStr "reaction_added");
                          ("user", PStr "U123");
                          ("reaction", PStr "x");
                          ("item", PDict [("type", PStr "message");
                                          ("channel", PStr "C-OTHER");
                                          ("ts", PStr "1600000000.000200")])])].

(** Scenario B: [x] on a message that is not tracked stores nothing and
    is acknowledged all the same.  (No secret: verification is skipped.) *)
Example reaction_on_untracked_message :
  let r := handle_slack_event (env "")
             {| x_slack_request_timestamp := None; x_slack_signature := None;
                data := "{}"; json := Ok untracked_payload |} start in
  fst r = Ok ok_response /\ store (snd r) = [] /\
  map kind_of (trace (snd r)) = [KEmoji; KGetItem].
Proof. vm_compute. repeat split; reflexivity. Qed.

(** Handling the same delivery twice stores the event once. *)
Example duplicate_delivery :
  let r1 := handle_slack_event (env "shh") signed_request start in
  let r2 := handle_slack_event (env "shh") signed_request (snd r1) in
  fst r2 = Ok ok_response /\ store (snd r2) = store (snd r1) /\
  List.length (store (snd r2)) = 1%nat.
Proof. vm_compute. repeat split; reflexivity. Qed.




End WebhookScenario.

(* ================================================================== *)
(** ** Further properties of the distributor *)
(* ================================================================== *)

Module DistributorFacts.

Import Distributor.

(** *** Which calls a stage makes *)

Definition is_now (e : Event) : bool :=
  match e with EvNow _ _ => true | _ => false end.

(** a call of the main-channel step: a post with blocks to the digest
    channel, a clock reading or a store call *)
Definition main_event (channel : string) (e : Event) : bool :=
  match e with
  | EvPost c _ (Some _) _ => String.eqb c channel
  | EvNow _ _ | EvStore _ _ => true
  | _ => false
  end.

(** a post without blocks to a non-empty channel of the configuration *)
Definition team_post_event (cfg : DigestConfig) (e : Event) : bool :=
  match e with
  | EvPost c _ None _ =>
      existsb (fun kv => String.eqb (snd kv) c) (channels cfg)
      && negb (String.eqb c "")
  | _ => false
  end.

(** a DM to a leadership recipient *)
Definition dm_event (cfg : DigestConfig) (e : Event) : bool :=
  match e with
  | EvDM u _ _ => existsb (String.eqb u) (leadership_users cfg)
  | _ => false
  end.

Lemma dict_lookup_value {V} (d : list (string * V)) (k : string) (v : V) :
  dict_lookup d k = Some v -> In (k, v) d.
Proof.
  induction d as [|[k0 v0] d IH]; cbn; [discriminate|].
  destruct (String.eqb k k0) eqn:E.
  - intros H. injection H as <-. apply String.eqb_eq in E. subst. now left.
  - intros H. right. now apply IH.
Qed.

Definition is_dm (e : Event) : bool :=
  match e with EvDM _ _ _ => true | _ => false end.

(** The DM stage read off the answers of [send_dm], one per recipient:
    the calls made, the entries of [dms], the entries of [errors]. *)
Definition dm_events (summary : string) (answers : list (string * outcome pydict))
  : list Event :=
  map (fun a => EvDM (fst a) summary (snd a)) answers.

Definition dm_results (answers : list (string * outcome pydict))
  : list (string * pydict) :=
  flat_map (fun a => match snd a with Ok res => [(fst a, res)] | Raise _ => [] end)
           answers.

Definition dm_errors (answers : list (string * outcome pydict)) : list string :=
  flat_map (fun a => match snd a with
                     | Ok _ => []
                     | Raise e => [dm_error (fst a) (exn_msg e)]
                     end) answers.

Section Stages.

Context {Output TA Excluded C S K : Type}.
Variable env : Env Output TA Excluded C S K.
Variable self : DigestDistributor.

Let channel : string := digest_channel (config self).

Lemma item_step_main_events rid section it acc tr acc' :
  item_step env self channel rid section it acc tr acc' ->
  forallb (main_event channel) tr = true.
Proof.
  intros H. destruct H; cbn; now rewrite String.eqb_refl.
Qed.

Lemma items_run_main_events rid section items acc tr acc' :
  items_run env self channel rid section items acc tr acc' ->
  forallb (main_event channel) tr = true.
Proof.
  induction 1 as [acc|it items acc tr1 acc1 tr2 acc2 Hstep Hrest IH];
    [reflexivity|].
  rewrite forallb_app, IH, (item_step_main_events _ _ _ _ _ _ Hstep). reflexivity.
Qed.

Lemma main_run_main_events rid ht hb high low tr o :
  main_run env self channel rid ht hb high low tr o ->
  forallb (main_event channel) tr = true.
Proof.
  intros H. inversion H; subst;
    repeat match goal with
           | Hi : items_run _ _ _ _ _ _ _ _ _ |- _ =>
               apply items_run_main_events in Hi
           end;
    cbn [forallb main_event header_event divider_event];
    rewrite ?forallb_app; cbn [forallb main_event header_event divider_event];
    rewrite ?String.eqb_refl;
    repeat match goal with Hi : forallb _ _ = true |- _ => rewrite Hi; clear Hi end;
    reflexivity.
Qed.

Lemma main_stage_events (output : Output) (team_analyses : list (string * TA))
    (rid : string) (item_confidences : option (list (string * Q)))
    (w : World C S K) :
  exists tr,
    trace (snd (_post_main_digest_with_items env self output team_analyses rid
                                             item_confidences w))
    = (trace w ++ tr)%list /\
    forallb (main_event channel) tr = true.
Proof.
  destruct (format_header_message env output team_analyses) as [[ht hb]|e] eqn:Hh.
  - destruct (format_digest_items env team_analyses rid item_confidences)
      as [[[high low] excluded]|e] eqn:Hb.
    + destruct (main_digest_run env self output team_analyses rid item_confidences w
                                ht hb high low excluded Hh Hb) as (tr & Htr & Hrun).
      exists tr. split; [exact Htr|]. eapply main_run_main_events. exact Hrun.
    + rewrite main_unfold. cbv zeta. rewrite Hh, Hb. fold channel. unfold_run.
      destruct (post_message env channel ht (Some hb) (client w)) as [[hr|e'] c1];
        cbn [snd trace]; eexists; (split; [reflexivity|]);
        cbn; now rewrite String.eqb_refl.
  - rewrite (main_digest_no_header env self output team_analyses rid
                                   item_confidences w e Hh).
    exists []. cbn [snd]. now rewrite app_nil_r.
Qed.

Definition no_channel_configured : pydict :=
  [("ok", PBool false); ("error", PStr "no_channel_configured")].

(** the channel configured for a team, when there is one and it is not empty *)
Definition team_channel (ta : TA) : option string :=
  match dict_lookup (channels (config self)) (team_name env ta) with
  | Some c => if truthy (PStr c) then Some c else None
  | None => None
  end.

Lemma team_channel_event (ta : TA) (c text : string) (out : outcome pydict) :
  team_channel ta = Some c ->
  team_post_event (config self) (EvPost c text None out) = true.
Proof.
  unfold team_channel.
  destruct (dict_lookup (channels (config self)) (team_name env ta)) as [c'|] eqn:E;
    [|discriminate].
  destruct (truthy (PStr c')) eqn:Ht; [|discriminate].
  intros H. injection H as ->. cbn [team_post_event].
  cbn in Ht. rewrite Ht, andb_true_r.
  apply existsb_exists. exists (team_name env ta, c).
  split; [now apply dict_lookup_value|apply String.eqb_refl].
Qed.

(** One pass of the team loop, by cases: no channel, formatter failure,
    post failure, post returned. *)
Lemma post_team_cases (results : DistributionResult) (name : string) (ta : TA)
    (w : World C S K) :
  match team_channel ta with
  | None =>
      post_team env self results (name, ta) w
      = (Ok {| r_run_id := r_run_id results;
               r_main_post := r_main_post results;
               r_item_posts := r_item_posts results;
               r_team_posts := dict_set (r_team_posts results) name
                                        no_channel_configured;
               r_dms := r_dms results;
               r_errors := r_errors results;
               r_items_stored := r_items_stored results |}, w)
  | Some c =>
      match format_team_details env ta with
      | Raise e =>
          post_team env self results (name, ta) w
          = (Ok (add_error results (team_error name (exn_msg e))), w)
      | Ok details =>
          exists out w',
            client_post_message env c details None w = (out, w') /\
            trace w' = (trace w ++ [EvPost c details None out])%list /\
            store w' = store w /\
            post_team env self results (name, ta) w
            = (Ok match out with
                  | Ok res =>
                      {| r_run_id := r_run_id results;
                         r_main_post := r_main_post results;
                         r_item_posts := r_item_posts results;
                         r_team_posts := dict_set (r_team_posts results) name res;
                         r_dms := r_dms results;
                         r_errors := r_errors results;
                         r_items_stored := r_items_stored results |}
                  | Raise e => add_error results (team_error name (exn_msg e))
                  end, w')
      end
  end.
Proof.
  unfold team_channel, post_team, _post_team_details.
  unfold try_except, bind, lift, ret.
  destruct (dict_lookup (channels (config self)) (team_name env ta)) as [c|];
    [|reflexivity].
  destruct (truthy (PStr c)); cbn [negb]; [|reflexivity].
  destruct (format_team_details env ta) as [details|e]; [|reflexivity].
  unfold client_post_message, client_call.
  destruct (post_message env c details None (client w)) as [[res|e] c'];
    do 2 eexists; (split; [reflexivity|]); cbn [trace store]; repeat split.
Qed.

Lemma teams_stage_events (team_analyses : list (string * TA)) :
  forall (results : DistributionResult) (w : World C S K),
  exists tr,
    trace (snd (for_each team_analyses (post_team env self) results w))
    = (trace w ++ tr)%list /\
    forallb (team_post_event (config self)) tr = true /\
    (List.length tr <= List.length team_analyses)%nat.
Proof.
  induction team_analyses as [|[name ta] rest IH]; intros results w.
  - exists []. cbn. now rewrite app_nil_r.
  - cbn [for_each]. unfold bind.
    pose proof (post_team_cases results name ta w) as Hc.
    destruct (team_channel ta) as [c|] eqn:Hch.
    + destruct (format_team_details env ta) as [details|e].
      * destruct Hc as (out & w' & _ & Htr & _ & ->).
        match goal with
        | |- context [for_each rest _ ?r w'] =>
            destruct (IH r w') as (tr & Htr' & Hall & Hlen)
        end.
        exists (EvPost c details None out :: tr).
        split; [rewrite Htr', Htr, <- app_assoc; reflexivity|].
        split; [|cbn; lia].
        cbn [forallb]. now rewrite (team_channel_event ta c details out Hch), Hall.
      * rewrite Hc. destruct (IH (add_error results (team_error name (exn_msg e))) w)
          as (tr & Htr & Hall & Hlen).
        exists tr. repeat split; auto. cbn; lia.
    + rewrite Hc.
      match goal with
      | |- context [for_each rest _ ?r w] =>
          destruct (IH r w) as (tr & Htr & Hall & Hlen)
      end.
      exists tr. repeat split; auto. cbn; lia.
Qed.

(** One pass of the DM loop, by cases. *)
Lemma send_dm_cases (output : Output) (team_analyses : list (string * TA))
    (results : DistributionResult) (user : string) (w : World C S K) :
  match format_leadership_dm env output team_analyses with
  | Raise e =>
      send_dm_to env self output team_analyses results user w
      = (Ok (add_error results (dm_error user (exn_msg e))), w)
  | Ok summary =>
      exists out w',
        client_send_dm env user summary w = (out, w') /\
        trace w' = (trace w ++ [EvDM user summary out])%list /\
        store w' = store w /\
        send_dm_to env self output team_analyses results user w
        = (Ok match out with
              | Ok res =>
                  {| r_run_id := r_run_id results;
                     r_main_post := r_main_post results;
                     r_item_posts := r_item_posts results;
                     r_team_posts := r_team_posts results;
                     r_dms := (r_dms results ++ [(user, res)])%list;
                     r_errors := r_errors results;
                     r_items_stored := r_items_stored results |}
              | Raise e => add_error results (dm_error user (exn_msg e))
              end, w')
  end.
Proof.
  unfold send_dm_to, _send_leadership_dm.
  unfold try_except, bind, lift, ret.
  destruct (format_leadership_dm env output team_analyses) as [summary|e];
    [|reflexivity].
  unfold client_send_dm, client_call.
  destruct (send_dm env user summary (client w)) as [[res|e] c'];
    do 2 eexists; (split; [reflexivity|]); cbn [trace store]; repeat split.
Qed.

Lemma dms_stage_returned (output : Output) (team_analyses : list (string * TA))
    (summary : string) (users : list string) :
  format_leadership_dm env output team_analyses = Ok summary ->
  forall (results : DistributionResult) (w : World C S K),
  exists answers r' w',
    for_each users (send_dm_to env self output team_analyses) results w = (Ok r', w') /\
    map fst answers = users /\
    trace w' = (trace w ++ dm_events summary answers)%list /\
    store w' = store w /\
    r_dms r' = (r_dms results ++ dm_results answers)%list /\
    r_errors r' = (r_errors results ++ dm_errors answers)%list /\
    same_main results r' /\ r_team_posts r' = r_team_posts results.
Proof.
  intros Hf. induction users as [|user rest IH]; intros results w.
  - exists [], results, w. cbn. rewrite !app_nil_r. repeat split.
  - pose proof (send_dm_cases output team_analyses results user w) as Hc.
    rewrite Hf in Hc. destruct Hc as (out & w1 & _ & Htr & Hst & Hrun).
    cbn [for_each]. unfold bind. rewrite Hrun.
    match goal with
    | |- context [for_each rest _ ?r w1] =>
        destruct (IH r w1) as (answers & r' & w' & Hrest & Hfst & Htr' & Hst'
                               & Hd & He & Hm & Ht)
    end.
    exists ((user, out) :: answers), r', w'.
    split; [exact Hrest|]. split; [cbn; now rewrite Hfst|].
    split; [rewrite Htr', Htr, <- app_assoc; reflexivity|].
    split; [congruence|].
    destruct out as [res|e];
      cbn [dm_results dm_errors flat_map fst snd r_dms r_errors add_error
           r_team_posts app] in *;
      (split; [rewrite Hd, <- ?app_assoc; reflexivity|]);
      (split; [rewrite He, <- ?app_assoc; reflexivity|]);
      (split; [|exact Ht]);
      destruct Hm as (M1 & M2 & M3 & M4); repeat split; assumption.
Qed.

Lemma dms_stage_formatter_raised (output : Output)
    (team_analyses : list (string * TA)) (e : exn) (users : list string) :
  format_leadership_dm env output team_analyses = Raise e ->
  forall (results : DistributionResult) (w : World C S K),
  exists r',
    for_each users (send_dm_to env self output team_analyses) results w = (Ok r', w) /\
    r_dms r' = r_dms results /\
    r_errors r'
    = (r_errors results ++ map (fun u => dm_error u (exn_msg e)) users)%list /\
    same_main results r' /\ r_team_posts r' = r_team_posts results.
Proof.
  intros Hf. induction users as [|user rest IH]; intros results w.
  - exists results. cbn. rewrite app_nil_r. repeat split.
  - pose proof (send_dm_cases output team_analyses results user w) as Hc.
    rewrite Hf in Hc. cbn [for_each]. unfold bind. rewrite Hc.
    destruct (IH (add_error results (dm_error user (exn_msg e))) w)
      as (r' & Hrest & Hd & He & Hm & Ht).
    exists r'. split; [exact Hrest|]. split; [exact Hd|].
    split; [rewrite He; cbn; rewrite <- app_assoc; reflexivity|].
    split; [|exact Ht]. destruct Hm as (M1 & M2 & M3 & M4). repeat split; assumption.
Qed.

(** The stages of a run and the part of the log each one writes. *)
Lemma distribute_stages (output : Output) (team_analyses : list (string * TA))
    (run_id : option string) (item_confidences : option (list (string * Q)))
    (w : World C S K) :
  exists rid w0 r1 w1 r2 w2 pre main teams,
    resolve_run_id env run_id w = (Ok rid, w0) /\
    trace w0 = (trace w ++ pre)%list /\ forallb is_now pre = true /\
    post_main env self output team_analyses rid item_confidences
              (initial_results rid) w0 = (Ok r1, w1) /\
    w1 = snd (_post_main_digest_with_items env self output team_analyses rid
                                           item_confidences w0) /\
    trace w1 = (trace w0 ++ main)%list /\
    forallb (main_event channel) main = true /\
    for_each team_analyses (post_team env self) r1 w1 = (Ok r2, w2) /\
    trace w2 = (trace w1 ++ teams)%list /\
    forallb (team_post_event (config self)) teams = true /\
    r_dms r2 = [] /\
    (exists errs, r_errors r2 = (r_errors r1 ++ errs)%list) /\
    distribute env self output team_analyses run_id item_confidences w
    = for_each (leadership_users (config self))
               (send_dm_to env self output team_analyses) r2 w2.
Proof.
  destruct (resolve_run_id_ok env run_id w) as (rid & w0 & Hrid & _ & _ & Htr0).
  destruct (distribute_unfold env self output team_analyses run_id item_confidences
                              w w0 rid Hrid)
    as (r1 & w1 & r2 & w2 & Hmain & Hw1 & Hteams & Hdist).
  destruct (main_stage_events output team_analyses rid item_confidences w0)
    as (main & Hmtr & Hmall).
  rewrite <- Hw1 in Hmtr.
  destruct (teams_stage_events team_analyses r1 w1) as (teams & Httr & Htall & _).
  rewrite Hteams in Httr. cbn [snd] in Httr.
  destruct (teams_run env self team_analyses r1 w1)
    as (r2' & w2' & ? & errs & Hteams' & _ & _ & _ & _ & Hd & He & _).
  rewrite Hteams in Hteams'. injection Hteams' as <- <-.
  assert (Hd1 : r_dms r1 = []).
  { rewrite post_main_run in Hmain.
    destruct (_post_main_digest_with_items env self output team_analyses rid
                                           item_confidences w0) as [[m|e] w1'];
      injection Hmain as <- _; reflexivity. }
  exists rid, w0, r1, w1, r2, w2, (skipn (List.length (trace w)) (trace w0)),
    main, teams.
  split; [exact Hrid|].
  destruct Htr0 as [Ht0 | [fmt Ht0]].
  - split; [rewrite Ht0, skipn_all, app_nil_r; reflexivity|].
    split; [rewrite Ht0, skipn_all; reflexivity|].
    repeat split; try assumption; try congruence. now exists errs.
  - split; [rewrite Ht0, skipn_length_app; reflexivity|].
    split; [rewrite Ht0, skipn_length_app; reflexivity|].
    repeat split; try assumption; try congruence. now exists errs.
Qed.

Lemma dm_events_to_recipients (summary : string)
    (answers : list (string * outcome pydict)) :
  (forall a, In a answers -> In (fst a) (leadership_users (config self))) ->
  forallb (dm_event (config self)) (dm_events summary answers) = true.
Proof.
  induction answers as [|a answers IH]; intros H; [reflexivity|].
  cbn [dm_events map forallb dm_event]. fold (dm_events summary answers).
  rewrite IH by (intros b Hb; apply H; now right).
  rewrite andb_true_r. apply existsb_exists. exists (fst a).
  split; [apply H; now left|apply String.eqb_refl].
Qed.

Lemma dms_stage_events (output : Output) (team_analyses : list (string * TA))
    (results : DistributionResult) (w : World C S K) :
  let run := for_each (leadership_users (config self))
                      (send_dm_to env self output team_analyses) results w in
  exists dms,
    trace (snd run) = (trace w ++ dms)%list /\
    forallb (dm_event (config self)) dms = true /\
    (List.length dms <= List.length (leadership_users (config self)))%nat.
Proof.
  intros run. unfold run.
  destruct (format_leadership_dm env output team_analyses) as [summary|e] eqn:Hf.
  - destruct (dms_stage_returned output team_analyses summary
                (leadership_users (config self)) Hf results w)
      as (answers & r' & w' & Hrun & Hfst & Htr & _).
    rewrite Hrun. exists (dm_events summary answers).
    split; [exact Htr|]. split.
    + apply dm_events_to_recipients. intros a Ha. rewrite <- Hfst.
      now apply in_map.
    + unfold dm_events. rewrite length_map, <- Hfst, length_map. lia.
  - destruct (dms_stage_formatter_raised output team_analyses e
                (leadership_users (config self)) Hf results w) as (r' & Hrun & _).
    rewrite Hrun. exists []. cbn. rewrite app_nil_r. repeat split. lia.
Qed.

(** X1.  The calls of a run come in the order of the stages: at most one
    clock reading for the run identifier, then the calls of the
    main-channel step (posts with blocks to the digest channel, clock
    readings and store calls), then the team posts (without blocks, each
    to a configured channel, at most one per team), then the DMs (each to
    a leadership recipient, at most one per recipient). *)
Theorem distribute_stage_order (output : Output)
    (team_analyses : list (string * TA)) (run_id : option string)
    (item_confidences : option (list (string * Q))) (w : World C S K) :
  let run := distribute env self output team_analyses run_id item_confidences w in
  exists pre main teams dms,
    skipn (List.length (trace w)) (trace (snd run))
    = (pre ++ main ++ teams ++ dms)%list /\
    forallb is_now pre = true /\
    forallb (main_event (digest_channel (config self))) main = true /\
    forallb (team_post_event (config self)) teams = true /\
    forallb (dm_event (config self)) dms = true /\
    (List.length pre <= 1)%nat /\
    (List.length teams <= List.length team_analyses)%nat /\
    (List.length dms <= List.length (leadership_users (config self)))%nat.
Proof.
  intros run.
  destruct (distribute_stages output team_analyses run_id item_confidences w)
    as (rid & w0 & r1 & w1 & r2 & w2 & pre & main & teams & Hrid & Ht0 & Hpre
        & _ & _ & Ht1 & Hmain & Hteams & Ht2 & _ & _ & _ & Hdist).
  destruct (teams_stage_events team_analyses r1 w1) as (teams' & Ht2' & Hteams' & Hlen).
  rewrite Hteams in Ht2'. cbn [snd] in Ht2'.
  destruct (dms_stage_events output team_analyses r2 w2) as (dms & Ht3 & Hdms & Hlend).
  cbv zeta in Ht3. rewrite <- Hdist in Ht3. fold run in Ht3.
  exists pre, main, teams', dms.
  split.
  { rewrite Ht3, Ht2', Ht1, Ht0, <- !app_assoc. apply skipn_length_app. }
  repeat split; try assumption.
  destruct (resolve_run_id_ok env run_id w) as (rid' & w0' & Hrid' & _ & _ & Htr0).
  rewrite Hrid in Hrid'. injection Hrid' as <- <-.
  destruct Htr0 as [E | [fmt E]]; rewrite E in Ht0.
  - assert (pre = []) as ->; [|cbn; lia].
    rewrite <- (app_nil_r (trace w)) in Ht0 at 1. now apply app_inv_head in Ht0.
  - apply app_inv_head in Ht0. subst pre. cbn. lia.
Qed.

Lemma filter_none {A} (f g : A -> bool) (l : list A) :
  (forall a, g a = true -> f a = false) ->
  forallb g l = true -> filter f l = [].
Proof.
  intros Hfg. induction l as [|a l IH]; [reflexivity|].
  cbn. intros H. apply andb_prop in H. destruct H as [Ha Hl].
  now rewrite (Hfg a Ha), IH.
Qed.

Lemma filter_dm_events (summary : string) (answers : list (string * outcome pydict)) :
  filter is_dm (dm_events summary answers) = dm_events summary answers.
Proof.
  induction answers as [|a l IH]; [reflexivity|].
  unfold dm_events in *. cbn [map filter is_dm]. now rewrite IH.
Qed.

(** X3.  The DM stage.  When the formatter yields the summary, one DM
    is sent to each leadership recipient, in the order of the
    configuration and all with that summary; [dms] lists the recipients
    whose DM returned, in order, and [errors] holds a line for each one
    whose DM raised.  When the formatter raises, no DM is sent, [dms] is
    empty and [errors] holds a line for every recipient. *)
Theorem leadership_dms (output : Output)
    (team_analyses : list (string * TA)) (run_id : option string)
    (item_confidences : option (list (string * Q))) (w : World C S K) :
  let run := distribute env self output team_analyses run_id item_confidences w in
  let new := skipn (List.length (trace w)) (trace (snd run)) in
  exists r,
    fst run = Ok r /\
    match format_leadership_dm env output team_analyses with
    | Ok summary =>
        exists answers,
          map fst answers = leadership_users (config self) /\
          filter is_dm new = dm_events summary answers /\
          r_dms r = dm_results answers /\
          incl (dm_errors answers) (r_errors r)
    | Raise e =>
        filter is_dm new = [] /\ r_dms r = [] /\
        incl (map (fun u => dm_error u (exn_msg e)) (leadership_users (config self)))
             (r_errors r)
    end.
Proof.
  intros run new.
  destruct (distribute_stages output team_analyses run_id item_confidences w)
    as (rid & w0 & r1 & w1 & r2 & w2 & pre & main & teams & Hrid & Ht0 & Hpre
        & _ & _ & Ht1 & Hmain & Hteams & Ht2 & Htall & Hd2 & _ & Hdist).
  assert (Hbefore : trace w2 = (trace w ++ pre ++ main ++ teams)%list)
    by (rewrite Ht2, Ht1, Ht0, <- !app_assoc; reflexivity).
  assert (Hnodm : filter is_dm (pre ++ main ++ teams) = []).
  { rewrite !filter_app.
    rewrite (filter_none is_dm is_now pre),
      (filter_none is_dm (main_event channel) main),
      (filter_none is_dm (team_post_event (config self)) teams);
      try assumption; try reflexivity;
      intros [] H; try reflexivity; discriminate H. }
  unfold new, run. rewrite Hdist.
  destruct (format_leadership_dm env output team_analyses) as [summary|e] eqn:Hf.
  - destruct (dms_stage_returned output team_analyses summary
                (leadership_users (config self)) Hf r2 w2)
      as (answers & r' & w' & Hrun & Hfst & Htr & _ & Hd & He & _).
    rewrite Hrun. cbn [fst snd]. exists r'. split; [reflexivity|].
    exists answers. split; [exact Hfst|].
    split.
    + rewrite Htr, Hbefore, <- !app_assoc, skipn_length_app.
      rewrite !app_assoc, filter_app, <- !app_assoc, Hnodm. apply filter_dm_events.
    + split; [now rewrite Hd, Hd2|].
      rewrite He. apply incl_appr, incl_refl.
  - destruct (dms_stage_formatter_raised output team_analyses e
                (leadership_users (config self)) Hf r2 w2) as (r' & Hrun & Hd & He & _).
    rewrite Hrun. cbn [fst snd]. exists r'. split; [reflexivity|].
    split; [rewrite Hbefore, skipn_length_app; exact Hnodm|].
    split; [congruence|]. rewrite He. apply incl_appr, incl_refl.
Qed.

Lemma dict_lookup_set_same {V} (d : list (string * V)) (k : string) (v : V) :
  dict_lookup (dict_set d k v) k = Some v.
Proof.
  induction d as [|[k0 v0] d IH]; cbn.
  - now rewrite String.eqb_refl.
  - destruct (String.eqb k k0) eqn:E; cbn; [now rewrite String.eqb_refl|].
    now rewrite E.
Qed.

Lemma dict_lookup_set_other {V} (d : list (string * V)) (k k' : string) (v : V) :
  k' <> k -> dict_lookup (dict_set d k v) k' = dict_lookup d k'.
Proof.
  intros Hne. induction d as [|[k0 v0] d IH]; cbn.
  - apply String.eqb_neq in Hne. now rewrite Hne.
  - destruct (String.eqb k k0) eqn:E; cbn.
    + apply String.eqb_eq in E. subst k0.
      apply String.eqb_neq in Hne. now rewrite Hne.
    + destruct (String.eqb k' k0); [reflexivity|exact IH].
Qed.

(** the post a team gets: none without a channel or when the formatter raises *)
Definition team_post (entry : string * TA) : list (string * string * option pyval) :=
  match team_channel (snd entry), format_team_details env (snd entry) with
  | Some c, Ok details => [(c, details, None)]
  | _, _ => []
  end.

Lemma post_team_posts (results : DistributionResult) (entry : string * TA)
    (w : World C S K) :
  exists r' w' tr,
    post_team env self results entry w = (Ok r', w') /\
    trace w' = (trace w ++ tr)%list /\
    posts_of tr = team_post entry /\
    (team_channel (snd entry) = None ->
     w' = w /\ r_errors r' = r_errors results /\
     r_team_posts r' = dict_set (r_team_posts results) (fst entry)
                                no_channel_configured) /\
    (forall k, k <> fst entry ->
       dict_lookup (r_team_posts r') k = dict_lookup (r_team_posts results) k).
Proof.
  destruct entry as [name ta]. unfold team_post. cbn [fst snd].
  pose proof (post_team_cases results name ta w) as Hc.
  destruct (team_channel ta) as [c|].
  - destruct (format_team_details env ta) as [details|e].
    + destruct Hc as (out & w' & _ & Htr & _ & Hrun).
      do 3 eexists. split; [exact Hrun|]. split; [exact Htr|].
      split; [reflexivity|]. split; [discriminate|].
      intros k Hk. destruct out; cbn [r_team_posts add_error];
        [now apply dict_lookup_set_other|reflexivity].
    + exists (add_error results (team_error name (exn_msg e))), w, [].
      rewrite app_nil_r. repeat split; try assumption; discriminate.
  - do 2 eexists. exists []. rewrite app_nil_r. split; [exact Hc|].
    split; [reflexivity|]. split; [reflexivity|]. split; [repeat split|].
    intros k Hk. cbn [r_team_posts]. now apply dict_lookup_set_other.
Qed.

(** X2.  The team stage posts, in the order of the analyses, one message
    per team that has a non-empty channel configured and whose details
    the formatter yields, and nothing else.  A team without a channel
    costs no call and no error line: with distinct team names it ends up
    in [team_posts] with [{"ok": False, "error": "no_channel_configured"}],
    and when no team has a channel the stage leaves the world and
    [errors] as they were. *)
Theorem teams_without_channel (team_analyses : list (string * TA)) :
  forall (results : DistributionResult) (w : World C S K),
  exists r' w',
    for_each team_analyses (post_team env self) results w = (Ok r', w') /\
    posts_of (skipn (List.length (trace w)) (trace w'))
    = flat_map team_post team_analyses /\
    (NoDup (map fst team_analyses) ->
     (forall name ta, In (name, ta) team_analyses -> team_channel ta = None ->
        dict_lookup (r_team_posts r') name = Some no_channel_configured) /\
     (forall k, ~ In k (map fst team_analyses) ->
        dict_lookup (r_team_posts r') k = dict_lookup (r_team_posts results) k)) /\
    ((forall entry, In entry team_analyses -> team_channel (snd entry) = None) ->
     w' = w /\ r_errors r' = r_errors results).
Proof.
  induction team_analyses as [|entry rest IH]; intros results w.
  - exists results, w. cbn [for_each flat_map]. rewrite skipn_all.
    repeat split; auto. intros ? ? [].
  - destruct (post_team_posts results entry w)
      as (r1 & w1 & tr1 & Hrun1 & Htr1 & Hposts1 & Hnone1 & Hother1).
    destruct (IH r1 w1) as (r2 & w2 & Hrun2 & Hposts2 & Hlook2 & Hall2).
    exists r2, w2. cbn [for_each]. unfold bind. rewrite Hrun1.
    split; [exact Hrun2|].
    assert (Hext : exists tr2, trace w2 = (trace w1 ++ tr2)%list).
    { destruct (teams_stage_events rest r1 w1) as (tr2 & Ht & _).
      rewrite Hrun2 in Ht. eauto. }
    destruct Hext as [tr2 Htr2].
    split.
    { rewrite Htr2, skipn_length_app in Hposts2.
      rewrite Htr2, Htr1, <- app_assoc, skipn_length_app, posts_of_app.
      cbn [flat_map]. now rewrite Hposts1, Hposts2. }
    split.
    + intros Hnd. cbn [map] in Hnd. inversion Hnd as [|k l Hnotin Hnd']; subst.
      destruct (Hlook2 Hnd') as [Hin2 Hout2]. split.
      * intros name ta [->|Hin] Hch.
        -- cbn [fst] in Hnotin. rewrite (Hout2 name Hnotin).
           destruct (Hnone1 Hch) as (_ & _ & ->). apply dict_lookup_set_same.
        -- eapply Hin2; eassumption.
      * intros k Hk. cbn [map In] in Hk. rewrite Hout2 by tauto.
        apply Hother1. intros ->. tauto.
    + intros Hall.
      destruct (Hnone1 (Hall entry (or_introl eq_refl))) as (-> & He1 & _).
      destruct (Hall2 (fun e He => Hall e (or_intror He))) as [-> He2].
      split; congruence.
Qed.

End Stages.

(** *** The main-channel step: what is listed, counted and stored *)

(** the entry of [item_posts] for a posted item *)
Definition entry_of (section : string) (it : DigestItemMessage) (result : pydict)
  : ItemPost :=
  {| ip_digest_item_id := msg_digest_item_id it;
     ip_message_ts := dict_get result "ts" PNone;
     ip_ok := dict_get result "ok" PNone;
     ip_confidence := msg_confidence it;
     ip_section := section |}.

(** [listed section items entries]: [entries] are the entries, in order,
    of some of the [items], each for its own post result. *)
Inductive listed (section : string)
  : list DigestItemMessage -> list ItemPost -> Prop :=
| listed_none : listed section [] []
| listed_skip it items entries :
    listed section items entries -> listed section (it :: items) entries
| listed_take it items entries result :
    listed section items entries ->
    listed section (it :: items) (entry_of section it result :: entries).

(** the entries of [item_posts] whose [ok] is true *)
Definition count_ok (entries : list ItemPost) : nat :=
  List.length (filter (fun ip => truthy (ip_ok ip)) entries).

Lemma count_ok_app (a b : list ItemPost) :
  count_ok (a ++ b) = (count_ok a + count_ok b)%nat.
Proof. unfold count_ok. now rewrite filter_app, length_app. Qed.

(** the items the store accepted, in order *)
Definition stored_ok (tr : list Event) : list DigestItem :=
  flat_map (fun e => match e with EvStore item (Ok _) => [item] | _ => [] end) tr.

(** the entries of [item_posts] whose [ok] is true *)
Definition ok_posts (entries : list ItemPost) : list ItemPost :=
  filter (fun ip => truthy (ip_ok ip)) entries.

(** a stored item and the entry of [item_posts] of the same post *)
Definition same_post (item : DigestItem) (ip : ItemPost) : Prop :=
  digest_item_id item = ip_digest_item_id ip /\
  confidence item = ip_confidence ip /\
  (slack_message_ts item = ip_message_ts ip
   \/ (ip_message_ts ip = PNone /\ slack_message_ts item = PStr "")).

Section MainStep.

Context {Output TA Excluded C S K : Type}.
Variable env : Env Output TA Excluded C S K.
Variable self : DigestDistributor.

Let channel : string := digest_channel (config self).

(** the number [items_stored] holds for a list of entries *)
Definition stored_count (entries : list ItemPost) : Z :=
  if is_some (feedback_store self) then Z.of_nat (count_ok entries) else 0.

Lemma stored_count_app (a b : list ItemPost) :
  stored_count (a ++ b) = stored_count a + stored_count b.
Proof.
  unfold stored_count. destruct (is_some (feedback_store self)); [|reflexivity].
  rewrite count_ok_app. lia.
Qed.

Lemma item_step_listed rid section it acc tr acc' :
  item_step env self channel rid section it acc tr acc' ->
  exists entries,
    m_items acc' = (m_items acc ++ entries)%list /\
    listed section [it] entries /\
    m_items_stored acc' = m_items_stored acc + stored_count entries /\
    (forall item out, In (EvStore item out) tr ->
       exists result today,
         item = digest_item_of channel rid it result today /\
         In (EvNow "%Y-%m-%d" today) tr).
Proof.
  assert (Hw : forall r, wants_store self r = true ->
                         stored_count [entry_of section it r] = 1).
  { intros r. unfold wants_store, stored_count, count_ok.
    destruct (feedback_store self); cbn; [|discriminate]. now intros ->. }
  assert (Hn : forall r, wants_store self r = false ->
                         stored_count [entry_of section it r] = 0).
  { intros r. unfold wants_store, stored_count, count_ok.
    destruct (feedback_store self); cbn; [|reflexivity]. now intros ->. }
  intros Hstep. destruct Hstep as [e|result Hf|result Ht Hf|result today Ht Hf
                                   |result today e Ht Hf].
  - exists []. rewrite app_nil_r. split; [reflexivity|].
    split; [apply listed_skip, listed_none|]. split; [unfold stored_count, count_ok;
      destruct (is_some (feedback_store self)); cbn; lia|].
    intros item out [H|[]]. discriminate H.
  - exists [entry_of section it result]. split; [reflexivity|].
    split; [apply listed_take, listed_none|]. split; [cbn; rewrite (Hn _ Hf); lia|].
    intros item out [H|[]]. discriminate H.
  - exists [entry_of section it result]. split; [reflexivity|].
    split; [apply listed_take, listed_none|]. split; [cbn; rewrite (Hw _ Ht); lia|].
    intros item out [H|[]]. discriminate H.
  - exists [entry_of section it result]. split; [reflexivity|].
    split; [apply listed_take, listed_none|]. split; [cbn; rewrite (Hw _ Ht); lia|].
    intros item out [H|[H|[H|[]]]]; try discriminate H.
    injection H as <- <-. exists result, today. split; [reflexivity|].
    right. now left.
  - exists []. rewrite app_nil_r. split; [reflexivity|].
    split; [apply listed_skip, listed_none|]. split; [unfold stored_count, count_ok;
      destruct (is_some (feedback_store self)); cbn; lia|].
    intros item out [H|[H|[H|[]]]]; try discriminate H.
    injection H as <- <-. exists result, today. split; [reflexivity|].
    right. now left.
Qed.

Lemma listed_app section items1 items2 e1 e2 :
  listed section items1 e1 -> listed section items2 e2 ->
  listed section (items1 ++ items2) (e1 ++ e2).
Proof.
  induction 1 as [|it items entries H IH|it items entries result H IH];
    intros H2; cbn [app].
  - exact H2.
  - apply listed_skip. now apply IH.
  - apply listed_take. now apply IH.
Qed.

Lemma items_run_listed rid section items acc tr acc' :
  items_run env self channel rid section items acc tr acc' ->
  exists entries,
    m_items acc' = (m_items acc ++ entries)%list /\
    listed section items entries /\
    m_items_stored acc' = m_items_stored acc + stored_count entries /\
    (forall item out, In (EvStore item out) tr ->
       exists it result today,
         In it items /\
         item = digest_item_of channel rid it result today /\
         In (EvNow "%Y-%m-%d" today) tr).
Proof.
  induction 1 as [acc|it items acc tr1 acc1 tr2 acc2 Hstep Hrest IH].
  - exists []. rewrite app_nil_r. repeat split; try constructor.
    + unfold stored_count, count_ok.
      destruct (is_some (feedback_store self)); cbn; lia.
    + intros ? ? [].
  - apply item_step_listed in Hstep.
    destruct Hstep as (e1 & Hi1 & Hl1 & Hs1 & Hc1).
    destruct IH as (e2 & Hi2 & Hl2 & Hs2 & Hc2).
    exists (e1 ++ e2)%list.
    split; [rewrite Hi2, Hi1, app_assoc; reflexivity|].
    split; [exact (listed_app section [it] items e1 e2 Hl1 Hl2)|].
    split; [rewrite stored_count_app; lia|].
    intros item out Hin. apply in_app_or in Hin. destruct Hin as [Hin|Hin].
    + destruct (Hc1 item out Hin) as (result & today & -> & Hnow).
      exists it, result, today. split; [now left|]. split; [reflexivity|].
      apply in_or_app. now left.
    + destruct (Hc2 item out Hin) as (it' & result & today & Hit & -> & Hnow).
      exists it', result, today. split; [now right|]. split; [reflexivity|].
      apply in_or_app. now right.
Qed.

Lemma listed_nothing section items : listed section items [].
Proof. induction items; constructor; assumption. Qed.

Lemma main_run_listed rid ht hb high low tr o :
  main_run env self channel rid ht hb high low tr o ->
  (forall item out, In (EvStore item out) tr ->
     exists it result today,
       In it (high ++ low) /\
       item = digest_item_of channel rid it result today /\
       In (EvNow "%Y-%m-%d" today) tr) /\
  (forall m, o = Ok m ->
     exists eh el,
       m_items m = (eh ++ el)%list /\
       listed "main" high eh /\ listed "fyi" low el /\
       m_items_stored m = stored_count (m_items m)).
Proof.
  intros Hrun. inversion Hrun; subst;
    repeat match goal with
           | H : items_run _ _ _ _ _ _ _ _ _ |- _ =>
               apply items_run_listed in H;
               destruct H as (? & ? & ? & ? & ?)
           end;
    cbn [after_header m_items m_items_stored app] in *.
  - split; [|discriminate]. intros item out [Hin|[]]. discriminate.
  - split.
    + intros item out [Hin|Hin]; [discriminate|].
      match goal with
      | Hc : forall i o, In (EvStore i o) _ -> _ |- _ =>
          destruct (Hc item out Hin) as (it & result & today & Hit & -> & Hnow)
      end.
      exists it, result, today. split; [apply in_or_app; now left|].
      split; [reflexivity|now right].
    + intros m Hm. injection Hm as <-.
      match goal with
      | Hi : m_items ?acc = ?e |- _ => exists e, []; rewrite app_nil_r
      end.
      repeat split; try assumption; [apply listed_nothing|].
      match goal with Hs : m_items_stored _ = _ |- _ => rewrite Hs end.
      match goal with Hi : m_items _ = _ |- _ => rewrite Hi end. lia.
  - split; [|discriminate].
    intros item out [Hin|Hin]; [discriminate|].
    apply in_app_or in Hin. destruct Hin as [Hin|[Hin|[]]]; [|discriminate].
    match goal with
    | Hc : forall i o, In (EvStore i o) _ -> _ |- _ =>
        destruct (Hc item out Hin) as (it & result & today & Hit & -> & Hnow)
    end.
    exists it, result, today. split; [apply in_or_app; now left|].
    split; [reflexivity|]. right. apply in_or_app. now left.
  - match goal with
    | H1 : m_items ?acc = ?eh, H2 : m_items ?m = (m_items ?acc ++ ?el)%list,
      S1 : m_items_stored ?acc = 0 + _, S2 : m_items_stored ?m = _,
      C1 : forall i o, In (EvStore i o) ?trh -> _,
      C2 : forall i o, In (EvStore i o) ?trl -> _ |- _ =>
        split;
        [ intros item out [Hin|Hin]; [discriminate|];
          apply in_app_or in Hin; destruct Hin as [Hin|[Hin|Hin]];
          [ destruct (C1 item out Hin) as (it & result & today & Hit & -> & Hnow);
            exists it, result, today; split; [apply in_or_app; now left|];
            split; [reflexivity|]; right; apply in_or_app; now left
          | discriminate
          | destruct (C2 item out Hin) as (it & result & today & Hit & -> & Hnow);
            exists it, result, today; split; [apply in_or_app; now right|];
            split; [reflexivity|]; right; apply in_or_app; right; now right ]
        | intros m' Hm; injection Hm as <-; exists eh, el;
          split; [rewrite H2, H1; reflexivity|];
          split; [assumption|]; split; [assumption|];
          rewrite S2, S1, H2, H1, stored_count_app; lia ]
    end.
Qed.

(** What the main-channel step stores and lists, whatever its outcome. *)
Lemma main_stage_facts (output : Output) (team_analyses : list (string * TA))
    (rid : string) (item_confidences : option (list (string * Q)))
    (w : World C S K) :
  let main := _post_main_digest_with_items env self output team_analyses rid
                                           item_confidences w in
  exists tr,
    trace (snd main) = (trace w ++ tr)%list /\
    (forall item out, In (EvStore item out) tr ->
       exists high low excluded it result today,
         format_digest_items env team_analyses rid item_confidences
           = Ok (high, low, excluded) /\
         In it (high ++ low) /\
         item = digest_item_of channel rid it result today /\
         In (EvNow "%Y-%m-%d" today) tr) /\
    (forall m, fst main = Ok m ->
       exists high low excluded eh el,
         format_digest_items env team_analyses rid item_confidences
           = Ok (high, low, excluded) /\
         m_items m = (eh ++ el)%list /\
         listed "main" high eh /\ listed "fyi" low el /\
         m_items_stored m = stored_count (m_items m)).
Proof.
  intros main.
  destruct (format_header_message env output team_analyses) as [[ht hb]|e] eqn:Hh.
  - destruct (format_digest_items env team_analyses rid item_confidences)
      as [[[high low] excluded]|e] eqn:Hb.
    + destruct (main_digest_run env self output team_analyses rid item_confidences w
                                ht hb high low excluded Hh Hb) as (tr & Htr & Hrun).
      fold main in Htr, Hrun. fold channel in Hrun.
      exists tr. split; [exact Htr|].
      apply main_run_listed in Hrun. destruct Hrun as [Hst Hm]. split.
      * intros item out Hin.
        destruct (Hst item out Hin) as (it & result & today & H).
        exists high, low, excluded, it, result, today. now split.
      * intros m Hok. destruct (Hm m Hok) as (eh & el & H).
        exists high, low, excluded, eh, el. now split.
    + unfold main. rewrite main_unfold. cbv zeta. rewrite Hh, Hb. unfold_run.
      destruct (post_message env (digest_channel (config self)) ht (Some hb)
                             (client w)) as [[hr|e'] c1]; cbn [fst snd trace];
        (eexists; split; [reflexivity|]; split;
         [intros item out [Hin|[]]; discriminate Hin|intros m Hm; discriminate Hm]).
  - unfold main.
    rewrite (main_digest_no_header env self output team_analyses rid
                                   item_confidences w e Hh).
    exists []. cbn [fst snd]. rewrite app_nil_r.
    split; [reflexivity|]. split; [intros ? ? []|discriminate].
Qed.

(** What a run of [distribute] reports of the main-channel step. *)
Lemma distribute_main_facts (output : Output) (team_analyses : list (string * TA))
    (run_id : option string) (item_confidences : option (list (string * Q)))
    (w : World C S K) :
  let run := distribute env self output team_analyses run_id item_confidences w in
  let new := skipn (List.length (trace w)) (trace (snd run)) in
  exists r rid w0 trm,
    fst run = Ok r /\ r_run_id r = rid /\
    resolve_run_id env run_id w = (Ok rid, w0) /\
    trace (snd (_post_main_digest_with_items env self output team_analyses rid
                                             item_confidences w0))
    = (trace w0 ++ trm)%list /\
    incl trm new /\
    (forall item out, In (EvStore item out) new -> In (EvStore item out) trm) /\
    match fst (_post_main_digest_with_items env self output team_analyses rid
                                            item_confidences w0) with
    | Ok m => r_main_post r = m_header m /\ r_item_posts r = m_items m /\
              r_items_stored r = m_items_stored m
    | Raise e => r_main_post r = None /\ r_item_posts r = [] /\
                 r_items_stored r = 0 /\ In (main_error (exn_msg e)) (r_errors r)
    end.
Proof.
  intros run new.
  destruct (resolve_run_id_ok env run_id w) as (rid & w0 & Hrid & _ & _ & Htr0).
  destruct (distribute_run env self output team_analyses run_id item_confidences
                           w rid w0 Hrid)
    as (r & w' & trt & trd & et & ed & Hrun & Htr & _ & Hc & Hr & Hres & _).
  destruct (main_stage_events env self output team_analyses rid item_confidences w0)
    as (trm & Htrm & _).
  cbv zeta in *.
  exists r, rid, w0, trm.
  assert (Hnew : exists pre, new = (pre ++ trm ++ trt ++ trd)%list /\
                             count store_called pre = 0%nat).
  { unfold new, run. rewrite Hrun. cbn [snd]. rewrite Htr, Htrm.
    destruct Htr0 as [-> | [fmt ->]].
    - exists []. rewrite <- !app_assoc, skipn_length_app. split; reflexivity.
    - exists [EvNow fmt rid]. rewrite <- !app_assoc, skipn_length_app.
      split; reflexivity. }
  destruct Hnew as (pre & Hnew & Hpre).
  split; [unfold run; now rewrite Hrun|]. split; [exact Hr|].
  split; [exact Hrid|]. split; [exact Htrm|].
  split; [rewrite Hnew; apply incl_appr, incl_appl, incl_refl|].
  split.
  - rewrite Hnew. intros item out Hin.
    apply in_app_or in Hin. destruct Hin as [Hin|Hin];
      [exfalso; exact (no_store_called _ _ _ Hpre Hin)|].
    apply in_app_or in Hin. destruct Hin as [Hin|Hin]; [exact Hin|].
    exfalso; exact (no_store_called _ _ _ Hc Hin).
  - destruct (fst (_post_main_digest_with_items env self output team_analyses rid
                                                item_confidences w0)).
    + tauto.
    + destruct Hres as (A & B & D & ->). repeat split; auto. now left.
Qed.

(** X4.  The run identifier of the result is the one passed in when it
    is not empty, and otherwise the clock's [%Y%m%d_%H%M%S] reading at the
    start.  Every item handed to the store carries that identifier and
    the digest channel, copies id, team, type, title, text and confidence
    from an item of the high or low bucket, takes its message timestamp
    from the post result ([""] when the result has none) and its date from
    a [%Y-%m-%d] clock reading of the run. *)
Theorem stored_items_content (output : Output)
    (team_analyses : list (string * TA)) (run_id : option string)
    (item_confidences : option (list (string * Q))) (w : World C S K) :
  let run := distribute env self output team_analyses run_id item_confidences w in
  let new := skipn (List.length (trace w)) (trace (snd run)) in
  exists r,
    fst run = Ok r /\
    r_run_id r
    = match run_id with
      | Some given =>
          if String.eqb given "" then
            fst (now_strftime env "%Y%m%d_%H%M%S" (clock w))
          else given
      | None => fst (now_strftime env "%Y%m%d_%H%M%S" (clock w))
      end /\
    forall item out, In (EvStore item out) new ->
      exists high low excluded it result today,
        format_digest_items env team_analyses (r_run_id r) item_confidences
          = Ok (high, low, excluded) /\
        In it (high ++ low) /\
        item = digest_item_of (digest_channel (config self)) (r_run_id r)
                              it result today /\
        In (EvNow "%Y-%m-%d" today) new.
Proof.
  intros run new.
  destruct (distribute_main_facts output team_analyses run_id item_confidences w)
    as (r & rid & w0 & trm & Hok & Hr & Hrid & Htrm & Hincl & Hst & _).
  fold run in Hok. fold new in Hincl, Hst.
  destruct (main_stage_facts output team_analyses rid item_confidences w0)
    as (trm' & Htrm' & Hcontent & _).
  cbv zeta in Htrm'. rewrite Htrm in Htrm'. apply app_inv_head in Htrm'. subst trm'.
  exists r. split; [exact Hok|]. split.
  - rewrite Hr. revert Hrid. unfold resolve_run_id, clock_call, ret.
    destruct run_id as [given|]; cbn [truthy].
    + destruct (String.eqb given ""); cbn [negb].
      * destruct (now_strftime env "%Y%m%d_%H%M%S" (clock w)). cbn. congruence.
      * congruence.
    + destruct (now_strftime env "%Y%m%d_%H%M%S" (clock w)). cbn. congruence.
  - intros item out Hin. rewrite Hr.
    destruct (Hcontent item out (Hst item out Hin))
      as (high & low & excluded & it & result & today & Hb & Hit & Hitem & Hnow).
    exists high, low, excluded, it, result, today. repeat split; auto.
Qed.

Lemma items_stored_formula (output : Output)
    (team_analyses : list (string * TA)) (run_id : option string)
    (item_confidences : option (list (string * Q))) (w : World C S K) :
  exists r,
    fst (distribute env self output team_analyses run_id item_confidences w) = Ok r /\
    r_items_stored r
    = (if is_some (feedback_store self)
       then Z.of_nat (count_ok (r_item_posts r)) else 0) /\
    0 <= r_items_stored r <= Z.of_nat (List.length (r_item_posts r)).
Proof.
  destruct (distribute_main_facts output team_analyses run_id item_confidences w)
    as (r & rid & w0 & trm & Hok & Hr & Hrid & Htrm & Hincl & Hst & Hres).
  destruct (main_stage_facts output team_analyses rid item_confidences w0)
    as (trm' & _ & _ & Hm).
  cbv zeta in *.
  assert (Hle : forall l, 0 <= stored_count l <= Z.of_nat (List.length l)).
  { intros l. unfold stored_count, count_ok.
    pose proof (filter_length_le (fun ip => truthy (ip_ok ip)) l).
    destruct (is_some (feedback_store self)); lia. }
  assert (Heq : r_items_stored r = stored_count (r_item_posts r)).
  { destruct (fst (_post_main_digest_with_items env self output team_analyses rid
                                                item_confidences w0)) as [m|e].
    - destruct Hres as (_ & -> & ->).
      destruct (Hm m eq_refl) as (? & ? & ? & ? & ? & _ & _ & _ & _ & H). exact H.
    - destruct Hres as (_ & -> & -> & _). unfold stored_count, count_ok.
      now destruct (is_some (feedback_store self)). }
  exists r. split; [exact Hok|]. split; [exact Heq|]. rewrite Heq. apply Hle.
Qed.

(** X8.  [items_stored] is the number of listed item posts whose [ok]
    is true when a feedback store is configured, and 0 when none is; it
    never exceeds the number of listed item posts. *)
Theorem items_stored_counts_ok_posts (output : Output)
    (team_analyses : list (string * TA)) (run_id : option string)
    (item_confidences : option (list (string * Q))) (w : World C S K) :
  exists r,
    fst (distribute env self output team_analyses run_id item_confidences w) = Ok r /\
    r_items_stored r
    = (if is_some (feedback_store self)
       then Z.of_nat (count_ok (r_item_posts r)) else 0) /\
    0 <= r_items_stored r <= Z.of_nat (List.length (r_item_posts r)).
Proof. apply items_stored_formula. Qed.



(** X9.  When the main-channel step returns, every item of the high and
    low buckets is accounted for exactly once: its post raised, or its
    store call raised, or it is listed in [items]. *)
Theorem every_item_accounted (output : Output)
    (team_analyses : list (string * TA)) (rid : string)
    (item_confidences : option (list (string * Q))) (w w1 : World C S K)
    (m : MainResults) high low excluded :
  format_digest_items env team_analyses rid item_confidences
    = Ok (high, low, excluded) ->
  _post_main_digest_with_items env self output team_analyses rid
                               item_confidences w = (Ok m, w1) ->
  let new := skipn (List.length (trace w)) (trace w1) in
  (count post_raised new + List.length (m_items m) + count store_raised new
   = List.length high + List.length low)%nat.
Proof.
  intros Hb Hmain new.
  destruct (main_digest_returned env self output team_analyses rid item_confidences
                                 w w1 m high low excluded Hb Hmain)
    as (ht & hb & _ & Hrun).
  apply main_run_counts in Hrun. now destruct Hrun as (H & _).
Qed.

(** X6.  When the divider post raises, the record of the main-channel
    step is lost: every high-confidence item went through the loop (each
    was posted, and stored when its post was ok), yet the result reports
    no header post, no item post and [items_stored = 0], with one line for
    the failure in [errors]. *)
Theorem divider_failure_discards_record (output : Output)
    (team_analyses : list (string * TA)) (run_id : option string)
    (item_confidences : option (list (string * Q)))
    (w w0 w1 : World C S K) (rid : string) (e : exn)
    ht hb high low excluded hr rest :
  resolve_run_id env run_id w = (Ok rid, w0) ->
  format_header_message env output team_analyses = Ok (ht, hb) ->
  format_digest_items env team_analyses rid item_confidences
    = Ok (high, low, excluded) ->
  _post_main_digest_with_items env self output team_analyses rid
                               item_confidences w0 = (Raise e, w1) ->
  skipn (List.length (trace w0)) (trace w1)
  = header_event (digest_channel (config self)) ht hb (Ok hr) :: rest ->
  (exists trh mid,
     rest = (trh ++ [divider_event (digest_channel (config self)) (Raise e)])%list /\
     items_run env self (digest_channel (config self)) rid "main" high
               (after_header hr) trh mid /\
     posts_of trh = map (item_post (digest_channel (config self))) high) /\
  exists r,
    fst (distribute env self output team_analyses run_id item_confidences w) = Ok r /\
    r_main_post r = None /\ r_item_posts r = [] /\ r_items_stored r = 0 /\
    In (main_error (exn_msg e)) (r_errors r).
Proof.
  intros Hrid Hh Hb Hmain Hnew. split.
  - destruct (main_digest_run env self output team_analyses rid item_confidences w0
                              ht hb high low excluded Hh Hb) as (tr & Htr & Hrun).
    rewrite Hmain in Htr, Hrun. cbn [fst snd] in *.
    rewrite Htr, skipn_length_app in Hnew. subst tr.
    inversion Hrun; subst.
    match goal with
    | Hi : items_run _ _ _ _ _ high _ ?trh ?mid |- _ =>
        exists trh, mid; repeat split; [exact Hi|];
        eapply items_run_posts; exact Hi
    end.
  - destruct (distribute_main_facts output team_analyses run_id item_confidences w)
      as (r & rid' & w0' & trm & Hok & _ & Hrid' & _ & _ & _ & Hres).
    rewrite Hrid in Hrid'. injection Hrid' as <- <-.
    rewrite Hmain in Hres. cbn [fst] in Hres.
    exists r. split; [exact Hok|]. exact Hres.
Qed.

(** *** The store and the report agree *)

Lemma stored_ok_app (a b : list Event) :
  stored_ok (a ++ b) = (stored_ok a ++ stored_ok b)%list.
Proof. apply flat_map_app. Qed.

Lemma ok_posts_app (a b : list ItemPost) :
  ok_posts (a ++ b) = (ok_posts a ++ ok_posts b)%list.
Proof. apply filter_app. Qed.

Lemma item_step_agree rid section it acc tr acc' :
  is_some (feedback_store self) = true ->
  FEEDBACK_AVAILABLE env = true ->
  item_step env self channel rid section it acc tr acc' ->
  exists entries,
    m_items acc' = (m_items acc ++ entries)%list /\
    Forall2 same_post (stored_ok tr) (ok_posts entries).
Proof.
  intros Hs Hf Hstep.
  destruct Hstep as [e|result Hw|result Hw Hf'|result today Hw _|result today e Hw _];
    unfold wants_store in *; try rewrite Hs in Hw; cbn [andb] in *.
  - exists []. rewrite app_nil_r. split; [reflexivity|constructor].
  - eexists. split; [reflexivity|]. cbn. rewrite Hw. constructor.
  - congruence.
  - eexists. split; [reflexivity|]. cbn. rewrite Hw.
    constructor; [|constructor].
    unfold same_post. cbn. unfold dict_get.
    split; [reflexivity|]. split; [reflexivity|].
    destruct (dict_lookup result "ts"); [now left|right; now split].
  - exists []. rewrite app_nil_r. split; [reflexivity|constructor].
Qed.

Lemma items_run_agree rid section items acc tr acc' :
  is_some (feedback_store self) = true ->
  FEEDBACK_AVAILABLE env = true ->
  items_run env self channel rid section items acc tr acc' ->
  exists entries,
    m_items acc' = (m_items acc ++ entries)%list /\
    Forall2 same_post (stored_ok tr) (ok_posts entries).
Proof.
  intros Hs Hf.
  induction 1 as [acc|it items acc tr1 acc1 tr2 acc2 Hstep Hrest IH].
  - exists []. rewrite app_nil_r. split; [reflexivity|constructor].
  - destruct (item_step_agree _ _ _ _ _ _ Hs Hf Hstep) as (e1 & Hi1 & Ha1).
    destruct IH as (e2 & Hi2 & Ha2).
    exists (e1 ++ e2)%list. split; [rewrite Hi2, Hi1, app_assoc; reflexivity|].
    rewrite stored_ok_app, ok_posts_app. now apply Forall2_app.
Qed.

(** X5.  With a feedback store configured and the feedback module
    available, when the main-channel step returns, the items the store
    accepted are exactly the item posts listed with a true [ok], in the
    same order, each with the identifier, the confidence and the message
    timestamp of its entry (an empty string where the post result has no
    [ts]). *)
Theorem stored_items_match_item_posts (output : Output)
    (team_analyses : list (string * TA)) (rid : string)
    (item_confidences : option (list (string * Q))) (w w1 : World C S K)
    (m : MainResults) :
  feedback_store self <> None ->
  FEEDBACK_AVAILABLE env = true ->
  _post_main_digest_with_items env self output team_analyses rid
                               item_confidences w = (Ok m, w1) ->
  Forall2 same_post
          (stored_ok (skipn (List.length (trace w)) (trace w1)))
          (ok_posts (m_items m)).
Proof.
  intros Hstore Hf Hmain.
  assert (Hs : is_some (feedback_store self) = true)
    by (destruct (feedback_store self); [reflexivity|congruence]).
  destruct (main_stage_facts output team_analyses rid item_confidences w)
    as (_ & _ & _ & Hm).
  cbv zeta in Hm. rewrite Hmain in Hm.
  destruct (Hm m eq_refl) as (high & low & excluded & _ & _ & Hb & _).
  destruct (main_digest_returned env self output team_analyses rid item_confidences
                                 w w1 m high low excluded Hb Hmain)
    as (ht & hb & _ & Hrun).
  fold channel in Hrun.
  inversion Hrun as [|hr trh acc Hlow Hitems Htr Ho
                     | |hr trh acc dr trl acc' Hlow Hitems Hitems' Htr Ho]; subst.
  - destruct (items_run_agree _ _ _ _ _ _ Hs Hf Hitems) as (entries & Hi & Ha).
    cbn [stored_ok flat_map header_event app]. fold (stored_ok trh).
    rewrite Hi. exact Ha.
  - destruct (items_run_agree _ _ _ _ _ _ Hs Hf Hitems) as (e1 & Hi1 & Ha1).
    destruct (items_run_agree _ _ _ _ _ _ Hs Hf Hitems') as (e2 & Hi2 & Ha2).
    cbn [stored_ok flat_map header_event app].
    fold (stored_ok (trh ++ divider_event channel (Ok dr) :: trl)).
    rewrite stored_ok_app. cbn [stored_ok flat_map divider_event app].
    fold (stored_ok trl).
    rewrite Hi2, Hi1. cbn [after_header m_items app].
    rewrite ok_posts_app. now apply Forall2_app.
Qed.

(** *** Runs with the feedback module unavailable *)

Lemma items_unavailable channel' rid section items acc acc' (w w' : World C S K) :
  FEEDBACK_AVAILABLE env = false ->
  for_each items (post_item env self channel' rid section) acc w = (Ok acc', w') ->
  store_untouched w w'.
Proof.
  intros Hf. revert acc w.
  induction items as [|it items IH]; intros acc w Hrun.
  - cbn in Hrun. injection Hrun as _ <-. apply store_untouched_refl.
  - cbn [for_each] in Hrun. unfold bind in Hrun.
    destruct (post_item env self channel' rid section acc it w) as [[a1|e] w1] eqn:E1.
    + apply store_untouched_trans with w1; [|eapply IH; eassumption].
      revert E1. unfold post_item, _store_digest_item.
      rewrite Hf. cbn [negb]. rewrite orb_true_r. unfold_run.
      destruct (post_message env channel' (msg_text it) (Some (msg_blocks it))
                             (client w)) as [[res|e] c'];
        [destruct (is_some (feedback_store self) && truthy (dict_get res "ok" PNone))|];
        intros E1; injection E1 as _ <-; split; cbn [store trace];
        rewrite ?count_app; cbn; lia || reflexivity.
    + destruct (post_item_run env self channel' rid section acc it w)
        as (? & ? & ? & E & _).
      congruence.
Qed.

Lemma main_unavailable (output : Output) (team_analyses : list (string * TA))
    (rid : string) (item_confidences : option (list (string * Q)))
    (w : World C S K) :
  FEEDBACK_AVAILABLE env = false ->
  store_untouched w (snd (_post_main_digest_with_items env self output team_analyses
                                                       rid item_confidences w)).
Proof.
  intros Hf. unfold _post_main_digest_with_items.
  unfold bind at 1. unfold lift at 1.
  destruct (format_header_message env output team_analyses) as [[ht hb]|e];
    [|apply store_untouched_refl].
  unfold bind at 1.
  pose proof (client_post_untouched env (digest_channel (config self)) ht (Some hb) w)
    as Hhdr.
  destruct (client_post_message env (digest_channel (config self)) ht (Some hb) w)
    as [[hr|e] w1]; cbn [snd] in *; [|exact Hhdr].
  unfold bind at 1. unfold lift at 1.
  destruct (format_digest_items env team_analyses rid item_confidences)
    as [[[high low] excluded]|e]; [|exact Hhdr].
  unfold bind at 1.
  match goal with
  | |- context [for_each high ?body ?acc w1] =>
      destruct (for_each_post_item_run env self (digest_channel (config self)) rid
                                       "main" high acc w1)
        as (acc1 & trh & w2 & Hrun & _);
      pose proof (items_unavailable _ _ _ _ _ _ _ _ Hf Hrun) as Hhigh
  end.
  rewrite Hrun.
  assert (H2 : store_untouched w w2) by (eapply store_untouched_trans; eassumption).
  destruct low as [|l0 low']; [exact H2|].
  unfold bind at 1.
  pose proof (client_post_untouched env (digest_channel (config self)) DIVIDER_TEXT
                                    (Some DIVIDER_BLOCKS) w2) as Hdiv.
  destruct (client_post_message env (digest_channel (config self)) DIVIDER_TEXT
                                (Some DIVIDER_BLOCKS) w2) as [[dr|e] w3];
    cbn [snd] in *; [|eapply store_untouched_trans; eassumption].
  match goal with
  | |- context [for_each ?items ?body ?acc w3] =>
      destruct (for_each_post_item_run env self (digest_channel (config self)) rid
                                       "fyi" items acc w3)
        as (acc2 & trl & w4 & Hrun2 & _);
      pose proof (items_unavailable _ _ _ _ _ _ _ _ Hf Hrun2) as Hlow
  end.
  rewrite Hrun2. cbn [snd].
  eapply store_untouched_trans; [exact H2|].
  eapply store_untouched_trans; eassumption.
Qed.

(** X11.  When the feedback module could not be imported
    ([FEEDBACK_AVAILABLE] is false), [distribute] never calls the store
    and leaves it as it was, even when a store is configured; yet
    [items_stored] still counts every item post whose [ok] is true. *)
Theorem feedback_unavailable_no_store (output : Output)
    (team_analyses : list (string * TA)) (run_id : option string)
    (item_confidences : option (list (string * Q))) (w : World C S K) :
  FEEDBACK_AVAILABLE env = false ->
  exists r w',
    distribute env self output team_analyses run_id item_confidences w = (Ok r, w') /\
    store w' = store w /\
    (forall item out,
       ~ In (EvStore item out) (skipn (List.length (trace w)) (trace w'))) /\
    r_items_stored r
    = (if is_some (feedback_store self)
       then Z.of_nat (count_ok (r_item_posts r)) else 0).
Proof.
  intros Hf.
  destruct (resolve_run_id_ok env run_id w) as (rid & w0 & Hrid & _ & Hs0 & Htr0).
  destruct (distribute_run env self output team_analyses run_id item_confidences
                           w rid w0 Hrid)
    as (r & w' & trt & trd & et & ed & Hrun & Htr & Hst & Hc & _).
  cbv zeta in *.
  pose proof (main_unavailable output team_analyses rid item_confidences w0 Hf)
    as [Hms Hmc].
  destruct (main_stage_facts output team_analyses rid item_confidences w0)
    as (trm & Htrm & _).
  cbv zeta in Htrm.
  destruct (items_stored_formula output team_analyses run_id item_confidences w)
    as (r' & Hr' & Hformula & _).
  rewrite Hrun in Hr'. cbn [fst] in Hr'. injection Hr' as <-.
  exists r, w'. split; [exact Hrun|].
  split; [congruence|].
  split; [|exact Hformula].
  assert (Hnew : exists pre, trace w' = (trace w ++ pre ++ trm ++ trt ++ trd)%list /\
                             count store_called (pre ++ trm ++ trt ++ trd) = 0%nat).
  { rewrite Htrm in Htr, Hmc. rewrite count_app in Hmc.
    destruct Htr0 as [E | [fmt E]]; rewrite E in Htr.
    - exists []. cbn [app]. split.
      + rewrite Htr, <- !app_assoc. reflexivity.
      + rewrite !count_app in *. lia.
    - exists [EvNow fmt rid]. split.
      + rewrite Htr, <- !app_assoc. reflexivity.
      + rewrite !count_app in *. cbn. lia. }
  destruct Hnew as (pre & Hw' & Hcount).
  rewrite Hw', skipn_length_app.
  intros item out Hin.
  pose proof (no_store_called _ item out Hcount Hin) as [].
Qed.

End MainStep.

(** *** Preview *)

Section PreviewFacts.

Context {Output TA Excluded C S K : Type}.
Variable env : Env Output TA Excluded C S K.
Variable self : DigestDistributor.

(** the value of [run_id or datetime.now().strftime("%Y%m%d_%H%M%S")] *)
Definition resolved_run_id (run_id : option string) (w : World C S K) : string :=
  match run_id with
  | Some given =>
      if String.eqb given "" then fst (now_strftime env "%Y%m%d_%H%M%S" (clock w))
      else given
  | None => fst (now_strftime env "%Y%m%d_%H%M%S" (clock w))
  end.

Lemma resolve_run_id_value (run_id : option string) (w : World C S K) :
  fst (resolve_run_id env run_id w) = Ok (resolved_run_id run_id w).
Proof.
  unfold resolve_run_id, resolved_run_id. unfold_run.
  destruct run_id as [given|]; cbn [truthy];
    [destruct (String.eqb given "")|]; cbn [negb];
    try destruct (now_strftime env "%Y%m%d_%H%M%S" (clock w)); reflexivity.
Qed.

Lemma team_details_ok (team_analyses : list (string * TA)) :
  forall (acc : list (string * string)) (w : World C S K),
    is_ok (fst (for_each team_analyses (team_detail env) acc w))
    = forallb (fun entry => is_ok (format_team_details env (snd entry)))
              team_analyses.
Proof.
  induction team_analyses as [|[name ta] rest IH]; intros acc w; [reflexivity|].
  cbn [for_each forallb snd]. unfold bind, team_detail, lift, ret.
  destruct (format_team_details env ta); cbn [fst snd is_ok]; [apply IH|reflexivity].
Qed.

Lemma team_details_lookup (team_analyses : list (string * TA)) :
  forall (acc d : list (string * string)) (w : World C S K),
    fst (for_each team_analyses (team_detail env) acc w) = Ok d ->
    (forall k, ~ In k (map fst team_analyses) ->
       dict_lookup d k = dict_lookup acc k) /\
    (NoDup (map fst team_analyses) ->
     forall name ta, In (name, ta) team_analyses ->
       exists details,
         format_team_details env ta = Ok details /\
         dict_lookup d name = Some details).
Proof.
  induction team_analyses as [|[name ta] rest IH]; intros acc d w Hrun.
  - cbn in Hrun. injection Hrun as <-. split; [reflexivity|intros _ ? ? []].
  - cbn [for_each] in Hrun. unfold bind, team_detail, lift, ret in Hrun.
    destruct (format_team_details env ta) as [details|e] eqn:Hf;
      cbn [fst snd] in Hrun; [|discriminate Hrun].
    destruct (IH _ _ _ Hrun) as [Hother Hin]. split.
    + intros k Hk. cbn [map fst] in Hk.
      rewrite Hother by (intros H; apply Hk; now right).
      apply dict_lookup_set_other. intros ->. apply Hk. now left.
    + intros Hnd name' ta' [Heq|Hrest]; cbn [map fst] in Hnd;
        apply NoDup_cons_iff in Hnd; destruct Hnd as [Hnotin Hnd].
      * injection Heq as <- <-. exists details. split; [exact Hf|].
        rewrite Hother by exact Hnotin. apply dict_lookup_set_same.
      * now apply Hin.
Qed.

(** [preview] by cases on what the formatter yields. *)
Lemma preview_fields (output : Output) (team_analyses : list (string * TA))
    (run_id : option string) (item_confidences : option (list (string * Q)))
    (w : World C S K) :
  let rid := resolved_run_id run_id w in
  fst (preview env self output team_analyses run_id item_confidences w)
  = match format_header_message env output team_analyses with
    | Raise e => Raise e
    | Ok header =>
    match format_digest_items env team_analyses rid item_confidences with
    | Raise e => Raise e
    | Ok (high, low, excluded) =>
    match format_main_digest env output team_analyses with
    | Raise e => Raise e
    | Ok main =>
    match fst (for_each team_analyses (team_detail env) []
                        (snd (resolve_run_id env run_id w))) with
    | Raise e => Raise e
    | Ok details =>
    match format_leadership_dm env output team_analyses with
    | Raise e => Raise e
    | Ok dm =>
        Ok {| p_run_id := rid;
              p_main_post := main;
              p_header := header;
              p_high_confidence_items := map item_view high;
              p_low_confidence_items := map item_view low;
              p_excluded_items := excluded;
              p_team_details := details;
              p_leadership_dm := dm |}
    end end end end end.
Proof.
  intros rid. pose proof (resolve_run_id_value run_id w) as Hrid. fold rid in Hrid.
  unfold preview. unfold bind, lift, ret.
  destruct (resolve_run_id env run_id w) as [[rid'|e] w0]; cbn [fst snd] in *;
    [|discriminate Hrid].
  injection Hrid as ->.
  destruct (format_header_message env output team_analyses) as [header|e];
    [|reflexivity].
  destruct (format_digest_items env team_analyses rid item_confidences)
    as [[[high low] excluded]|e]; [|reflexivity].
  destruct (format_main_digest env output team_analyses) as [main|e]; [|reflexivity].
  destruct (for_each team_analyses (team_detail env) [] w0) as [[details|e] w0'];
    cbn [fst]; [|reflexivity].
  destruct (format_leadership_dm env output team_analyses); reflexivity.
Qed.

(** X12.  [preview] handles no exception: it returns exactly when every
    formatter call it makes returns -- the header, the items, the legacy
    main digest, the details of every team (with or without a channel)
    and the leadership summary. *)
Theorem preview_returns_iff (output : Output)
    (team_analyses : list (string * TA)) (run_id : option string)
    (item_confidences : option (list (string * Q))) (w : World C S K) :
  is_ok (fst (preview env self output team_analyses run_id item_confidences w))
  = is_ok (format_header_message env output team_analyses)
    && is_ok (format_digest_items env team_analyses (resolved_run_id run_id w)
                                  item_confidences)
    && is_ok (format_main_digest env output team_analyses)
    && forallb (fun entry => is_ok (format_team_details env (snd entry)))
               team_analyses
    && is_ok (format_leadership_dm env output team_analyses).
Proof.
  rewrite preview_fields. cbv zeta.
  rewrite <- (team_details_ok team_analyses [] (snd (resolve_run_id env run_id w))).
  destruct (format_header_message env output team_analyses) as [header|e];
    [|reflexivity].
  destruct (format_digest_items env team_analyses (resolved_run_id run_id w)
                                item_confidences) as [[[high low] excluded]|e];
    [|reflexivity].
  destruct (format_main_digest env output team_analyses) as [main|e]; [|reflexivity].
  destruct (fst (for_each team_analyses (team_detail env) []
                          (snd (resolve_run_id env run_id w)))) as [details|e];
    [|reflexivity].
  destruct (format_leadership_dm env output team_analyses); reflexivity.
Qed.

Lemma posts_of_none (f : Event -> bool) (tr : list Event) :
  (forall c t b o, f (EvPost c t b o) = false) ->
  forallb f tr = true -> posts_of tr = [].
Proof.
  intros Hf. induction tr as [|e tr IH]; [reflexivity|].
  cbn [forallb]. intros H. apply andb_prop in H. destruct H as [He Htr].
  destruct e; cbn [posts_of]; try now apply IH.
  now rewrite Hf in He.
Qed.

Lemma posts_of_dm_events (summary : string)
    (answers : list (string * outcome pydict)) :
  posts_of (dm_events summary answers) = [].
Proof. induction answers as [|a l IH]; [reflexivity|exact IH]. Qed.

Lemma teams_stage_posts (team_analyses : list (string * TA)) :
  forall (results : DistributionResult) (w : World C S K) tr,
    trace (snd (for_each team_analyses (post_team env self) results w))
    = (trace w ++ tr)%list ->
    posts_of tr = flat_map (team_post env self) team_analyses.
Proof.
  induction team_analyses as [|entry rest IH]; intros results w tr Htr.
  - cbn in Htr. rewrite <- (app_nil_r (trace w)) in Htr at 1.
    apply app_inv_head in Htr. now subst tr.
  - destruct (post_team_posts env self results entry w)
      as (r1 & w1 & tr1 & Hrun1 & Htr1 & Hposts1 & _).
    cbn [for_each] in Htr. unfold bind in Htr. rewrite Hrun1 in Htr.
    destruct (teams_stage_events env self rest r1 w1) as (tr2 & Htr2 & _).
    rewrite Htr2, Htr1, <- app_assoc in Htr. apply app_inv_head in Htr. subst tr.
    rewrite posts_of_app, Hposts1. cbn [flat_map]. f_equal.
    eapply IH. exact Htr2.
Qed.

Lemma main_run_posts channel rid ht hb high low tr o :
  main_run env self channel rid ht hb high low tr o ->
  forall c text blocks, In (c, text, blocks) (posts_of tr) ->
    (c, text, blocks) = (channel, ht, Some hb)
    \/ ((c, text, blocks) = (channel, DIVIDER_TEXT, Some DIVIDER_BLOCKS)
        /\ low <> [])
    \/ exists it, In it (high ++ low) /\ (c, text, blocks) = item_post channel it.
Proof.
  intros Hrun c text blocks Hin.
  assert (Hitems : forall section items acc tr' acc',
             items_run env self channel rid section items acc tr' acc' ->
             In (c, text, blocks) (posts_of tr') ->
             exists it, In it items /\ (c, text, blocks) = item_post channel it).
  { intros section items acc tr' acc' Hi Hp.
    rewrite (items_run_posts env self _ _ _ _ _ _ _ Hi) in Hp.
    apply in_map_iff in Hp. destruct Hp as (it & Heq & Hit). now exists it. }
  inversion Hrun; subst; cbn [posts_of header_event] in Hin.
  - destruct Hin as [Hin|[]]. left. now symmetry.
  - destruct Hin as [Hin|Hin]; [left; now symmetry|].
    right. right. rewrite app_nil_r. eapply Hitems; eassumption.
  - destruct Hin as [Hin|Hin]; [left; now symmetry|].
    rewrite posts_of_app in Hin. apply in_app_or in Hin. destruct Hin as [Hin|Hin].
    + right. right.
      match goal with
      | Hi : items_run _ _ _ _ _ high _ _ _ |- _ =>
          destruct (Hitems _ _ _ _ _ Hi Hin) as (it & Hit & Heq)
      end.
      exists it. split; [apply in_or_app; now left|exact Heq].
    + cbn in Hin. destruct Hin as [Hin|[]]. right. left. split; [now symmetry|assumption].
  - destruct Hin as [Hin|Hin]; [left; now symmetry|].
    rewrite posts_of_app in Hin. apply in_app_or in Hin. destruct Hin as [Hin|Hin].
    + right. right.
      match goal with
      | Hi : items_run _ _ _ _ _ high _ _ _ |- _ =>
          destruct (Hitems _ _ _ _ _ Hi Hin) as (it & Hit & Heq)
      end.
      exists it. split; [apply in_or_app; now left|exact Heq].
    + cbn [posts_of divider_event] in Hin. destruct Hin as [Hin|Hin].
      * right. left. split; [now symmetry|assumption].
      * right. right.
        match goal with
        | Hi : items_run _ _ _ _ _ low _ _ _ |- _ =>
            destruct (Hitems _ _ _ _ _ Hi Hin) as (it & Hit & Heq)
        end.
        exists it. split; [apply in_or_app; now right|exact Heq].
Qed.

(** X13.  [distribute] sends nothing that [preview], run from the same
    state on the same arguments (with distinct team names), did not show:
    every channel post is the header shown, or the divider (only when
    low-confidence items were shown), or carries the text of an item shown
    in the high or low bucket and goes to the digest channel with blocks,
    or carries, without blocks, the details shown for a team; and every
    DM carries the leadership summary shown and goes to a leadership
    recipient. *)
Theorem distribute_sends_what_preview_shows (output : Output)
    (team_analyses : list (string * TA)) (run_id : option string)
    (item_confidences : option (list (string * Q))) (w : World C S K)
    (p : Preview Excluded) :
  NoDup (map fst team_analyses) ->
  fst (preview env self output team_analyses run_id item_confidences w) = Ok p ->
  let run := distribute env self output team_analyses run_id item_confidences w in
  let new := skipn (List.length (trace w)) (trace (snd run)) in
  let ch := digest_channel (config self) in
  (forall c text blocks, In (c, text, blocks) (posts_of new) ->
     (c, text, blocks) = (ch, fst (p_header p), Some (snd (p_header p)))
     \/ ((c, text, blocks) = (ch, DIVIDER_TEXT, Some DIVIDER_BLOCKS)
         /\ p_low_confidence_items p <> [])
     \/ (c = ch /\ blocks <> None /\
         exists id confidence,
           In (id, text, confidence)
              (p_high_confidence_items p ++ p_low_confidence_items p))
     \/ (blocks = None /\
         exists name, dict_lookup (p_team_details p) name = Some text)) /\
  (forall user text out, In (EvDM user text out) new ->
     text = p_leadership_dm p /\ In user (leadership_users (config self))).
Proof.
  intros Hnd Hp run new ch.
  rewrite preview_fields in Hp. cbv zeta in Hp.
  destruct (format_header_message env output team_analyses) as [[ht hb]|e] eqn:Hh;
    [|discriminate Hp].
  destruct (format_digest_items env team_analyses (resolved_run_id run_id w)
                                item_confidences) as [[[high low] excluded]|e] eqn:Hb;
    [|discriminate Hp].
  destruct (format_main_digest env output team_analyses) as [main|e];
    [|discriminate Hp].
  destruct (fst (for_each team_analyses (team_detail env) []
                          (snd (resolve_run_id env run_id w)))) as [details|e] eqn:Hd;
    [|discriminate Hp].
  destruct (format_leadership_dm env output team_analyses) as [dm|e] eqn:Hdm;
    [|discriminate Hp].
  injection Hp as <-.
  cbn [p_header p_low_confidence_items p_high_confidence_items p_team_details
       p_leadership_dm fst snd].
  destruct (team_details_lookup _ _ _ _ Hd) as [_ Hdetails].
  specialize (Hdetails Hnd).
  destruct (distribute_stages env self output team_analyses run_id item_confidences w)
    as (rid & w0 & r1 & w1 & r2 & w2 & pre & trm & trt & Hrid & Ht0 & Hpre
        & _ & Hw1 & Ht1 & Hmall & Hteams & Ht2 & Htall & _ & _ & Hdist).
  pose proof (resolve_run_id_value run_id w) as Hval. rewrite Hrid in Hval.
  cbn [fst] in Hval. injection Hval as Hval. rewrite <- Hval in Hb.
  destruct (main_digest_run env self output team_analyses rid item_confidences w0
                            ht hb high low excluded Hh Hb) as (trm' & Htrm' & Hmain).
  rewrite <- Hw1, Ht1 in Htrm'. apply app_inv_head in Htrm'. subst trm'.
  assert (Hposts_t : posts_of trt = flat_map (team_post env self) team_analyses).
  { eapply teams_stage_posts. rewrite Hteams. exact Ht2. }
  destruct (dms_stage_returned env self output team_analyses dm
              (leadership_users (config self)) Hdm r2 w2)
    as (answers & r' & w' & Hrun & Hfst & Htr & _).
  assert (Hnew : new = (pre ++ trm ++ trt ++ dm_events dm answers)%list).
  { unfold new, run. rewrite Hdist, Hrun. cbn [snd].
    rewrite Htr, Ht2, Ht1, Ht0, <- !app_assoc. apply skipn_length_app. }
  split.
  - intros c text blocks Hin. rewrite Hnew, !posts_of_app in Hin.
    rewrite (posts_of_none is_now pre), posts_of_dm_events, app_nil_r in Hin
      by (reflexivity || assumption).
    cbn [app] in Hin. apply in_app_or in Hin. destruct Hin as [Hin|Hin].
    + destruct (main_run_posts _ _ _ _ _ _ _ _ Hmain c text blocks Hin)
        as [H|[[H Hlow]|(it & Hit & H)]].
      * left. exact H.
      * right. left. split; [exact H|]. destruct low; [congruence|discriminate].
      * right. right. left. unfold item_post in H. injection H as -> -> ->.
        split; [reflexivity|]. split; [discriminate|].
        exists (msg_digest_item_id it), (msg_confidence it).
        rewrite <- map_app. apply in_map_iff. exists it. now split.
    + right. right. right. rewrite Hposts_t in Hin.
      apply in_flat_map in Hin. destruct Hin as ([name ta] & Hentry & Hpost).
      unfold team_post in Hpost. cbn [snd] in Hpost.
      destruct (team_channel env self ta) as [c'|]; [|destruct Hpost].
      destruct (Hdetails name ta Hentry) as (d & Hfd & Hlk).
      rewrite Hfd in Hpost. destruct Hpost as [Hpost|[]].
      injection Hpost as <- <- <-. split; [reflexivity|]. now exists name.
  - intros user text out Hin. rewrite Hnew in Hin.
    assert (Hno : forall f tr, (forall u t o, f (EvDM u t o) = false) ->
                               forallb f tr = true -> ~ In (EvDM user text out) tr).
    { intros f tr Hf Hall Hi. rewrite forallb_forall in Hall.
      specialize (Hall _ Hi). now rewrite Hf in Hall. }
    apply in_app_or in Hin. destruct Hin as [Hin|Hin];
      [exfalso; now apply (Hno is_now pre)|].
    apply in_app_or in Hin. destruct Hin as [Hin|Hin];
      [exfalso; now apply (Hno (main_event (digest_channel (config self))) trm)|].
    apply in_app_or in Hin. destruct Hin as [Hin|Hin];
      [exfalso; now apply (Hno (team_post_event (config self)) trt)|].
    unfold dm_events in Hin. apply in_map_iff in Hin.
    destruct Hin as (a & Heq & Ha). injection Heq as <- <- _.
    split; [reflexivity|]. rewrite <- Hfst. now apply in_map.
Qed.

End PreviewFacts.

End DistributorFacts.

(* ================================================================== *)
(** ** Further properties of the listener *)
(* ================================================================== *)

Module ListenerFacts.

Import Listener.

Definition is_store_feedback (e : Event) : bool :=
  match e with EvStoreFeedback _ _ => true | _ => false end.

(** the exception a store or metrics call answered with, if it raised *)
Definition raised (e : Event) : option exn :=
  match e with
  | EvEmoji _ (Raise x) | EvGetItem _ _ (Raise x) | EvRateLimit _ (Raise x)
  | EvSpamming _ _ (Raise x) | EvStoreFeedback _ (Raise x) => Some x
  | _ => None
  end.

(** [handler(event)] followed by [return jsonify({"ok": True})] *)
Definition acknowledge {S K} (r : outcome unit * World S K)
  : outcome Response * World S K :=
  match r with
  | (Ok _, w) => (Ok ok_response, w)
  | (Raise e, w) => (Raise e, w)
  end.

Definition no_get : exn := AttributeError "object has no attribute 'get'".

Section Dispatch.

Context {S K : Type}.
Variable env : Env S K.

(** [handle_slack_event] by cases on the verification and the payload. *)
Lemma handle_slack_event_unfold (request : Request) (w : World S K) :
  handle_slack_event env request w
  = match verify_slack_request env request w with
    | (Raise x, w1) => (Raise x, w1)
    | (Ok false, w1) => (Ok invalid_signature, w1)
    | (Ok true, w1) =>
        match json request with
        | Raise x => (Raise x, w1)
        | Ok (PDict d) =>
            if py_eq_str (dict_get d "type" PNone) "url_verification" then
              (Ok (challenge_response (dict_get d "challenge" PNone)), w1)
            else if py_eq_str (dict_get d "type" PNone) "event_callback" then
              match dict_get d "event" (PDict []) with
              | PDict e =>
                  if py_eq_str (dict_get e "type" PNone) "reaction_added" then
                    acknowledge (handle_reaction_added env (PDict e) w1)
                  else if py_eq_str (dict_get e "type" PNone) "reaction_removed" then
                    acknowledge (handle_reaction_removed env (PDict e) w1)
                  else (Ok ok_response, w1)
              | _ => (Raise no_get, w1)
              end
            else (Ok ok_response, w1)
        | Ok _ => (Raise no_get, w1)
        end
    end.
Proof.
  unfold handle_slack_event. unfold bind at 1.
  destruct (verify_slack_request env request w) as [[[|]|x] w1]; cbn [negb];
    [|reflexivity|reflexivity].
  unfold bind, lift, ret, acknowledge.
  destruct (json request) as [[| | | | | |d]|x]; try reflexivity.
  cbn [py_get].
  destruct (py_eq_str (dict_get d "type" PNone) "url_verification"); [reflexivity|].
  destruct (py_eq_str (dict_get d "type" PNone) "event_callback"); [|reflexivity].
  destruct (dict_get d "event" (PDict [])) as [| | | | | |e]; try reflexivity.
  cbn [py_get].
  destruct (py_eq_str (dict_get e "type" PNone) "reaction_added").
  - destruct (handle_reaction_added env (PDict e) w1) as [[[]|x] w2]; reflexivity.
  - destruct (py_eq_str (dict_get e "type" PNone) "reaction_removed"); [|reflexivity].
    destruct (handle_reaction_removed env (PDict e) w1) as [[[]|x] w2]; reflexivity.
Qed.

(** What [handle_reaction_added] calls: never [time.time], at most one
    [store_feedback], and an exception is that of its last call, or an
    [AttributeError] raised before any call. *)
Lemma reaction_added_calls (e : pydict) (w : World S K) :
  let r := handle_reaction_added env (PDict e) w in
  exists new,
    trace (snd r) = (trace w ++ new)%list /\
    (forall t, ~ In (EvTime t) new) /\
    (List.length (filter is_store_feedback new) <= 1)%nat /\
    (forall fe out, In (EvStoreFeedback fe out) new ->
       fe_user_id fe = dict_get e "user" (PStr "") /\
       exists ft, In (EvEmoji (dict_get e "reaction" (PStr "")) (Ok (Some ft))) new /\
                  fe_feedback_type fe = ft) /\
    (forall x, fst r = Raise x ->
       (new = [] /\ x = no_get)
       \/ exists pre ev, new = (pre ++ [ev])%list /\ raised ev = Some x).
Proof.
  unfold handle_reaction_added. unfold_run. cbn [py_get].
  destruct (dict_get e "item" (PDict [])) eqn:Hitem;
    cbn [py_get fst snd];
    try (exists []; rewrite app_nil_r;
         split; [reflexivity|]; split; [intros t []|];
         split; [cbn; lia|]; split; [intros fe out []|];
         intros x Hx; injection Hx as <-; left; now split).
  repeat run_step; subst;
    repeat match goal with
           | H : negb ?b = _ |- _ => is_var b; destruct b; try discriminate H; clear H
           end;
    (eexists; refine (conj _ (conj _ (conj _ (conj _ _))));
     [rewrite <- ?app_assoc; cbn [app]; reflexivity
     |intros t Hin; cbn [In] in Hin;
      repeat match goal with
             | H : _ \/ _ |- _ => destruct H as [H|H]
             end; try discriminate Hin; exact Hin
     |cbn; lia
     |intros fe out Hin; cbn [In] in Hin;
      repeat match goal with
             | H : _ \/ _ |- _ => destruct H as [H|H]
             end; try discriminate Hin; try contradiction;
      injection Hin as <- <-; cbn [fe_user_id fe_feedback_type];
      (split; [reflexivity|]); eexists; (split; [left; reflexivity|reflexivity])
     |intros x Hx; try discriminate Hx; injection Hx as <-; right;
      match goal with
      | |- exists pre ev, ?l = _ /\ _ =>
          exists (removelast l), (last l (EvTime 0)); cbn; split; reflexivity
      end]).
Qed.

Lemma reaction_removed_calls (e : pydict) (w : World S K) :
  let r := handle_reaction_removed env (PDict e) w in
  exists new,
    trace (snd r) = (trace w ++ new)%list /\
    (forall t, ~ In (EvTime t) new) /\
    (forall fe out, ~ In (EvStoreFeedback fe out) new) /\
    (forall x, fst r = Raise x ->
       exists pre ev, new = (pre ++ [ev])%list /\ raised ev = Some x).
Proof.
  unfold handle_reaction_removed. unfold_run. cbn [py_get].
  destruct (emoji_to_feedback_type env (dict_get e "reaction" (PStr "")) (store w))
    as [[o|x] s']; cbn [fst snd trace];
    (eexists; split; [reflexivity|]);
    (split; [intros t [H|[]]; discriminate H|]);
    (split; [intros fe out [H|[]]; discriminate H|]);
    intros y Hy; try discriminate Hy; injection Hy as <-.
  exists [], (EvEmoji (dict_get e "reaction" (PStr "")) (Raise x)). now split.
Qed.


(** X14.  Only a verified [reaction_added] or [reaction_removed] callback
    reaches the store.  Verification itself leaves the store alone and
    reads the clock at most once; after it, a request makes a call only
    when it was verified and its payload is an [event_callback] object
    whose [event] is an object of one of these two types; it never makes
    more than one [store_feedback] call, and only for [reaction_added],
    with the user and the mapped reaction of the event. *)
Theorem only_verified_reactions_reach_store (request : Request) (w : World S K) :
  let v := verify_slack_request env request w in
  let r := handle_slack_event env request w in
  store (snd v) = store w /\
  (trace (snd v) = trace w \/ exists t, trace (snd v) = (trace w ++ [EvTime t])%list) /\
  exists new,
    trace (snd r) = (trace (snd v) ++ new)%list /\
    (forall t, ~ In (EvTime t) new) /\
    (List.length (filter is_store_feedback new) <= 1)%nat /\
    (new <> [] ->
       fst v = Ok true /\
       exists d e,
         json request = Ok (PDict d) /\
         py_eq_str (dict_get d "type" PNone) "event_callback" = true /\
         dict_get d "event" (PDict []) = PDict e /\
         (py_eq_str (dict_get e "type" PNone) "reaction_added" = true \/
          py_eq_str (dict_get e "type" PNone) "reaction_removed" = true) /\
         forall fe out, In (EvStoreFeedback fe out) new ->
           py_eq_str (dict_get e "type" PNone) "reaction_added" = true /\
           fe_user_id fe = dict_get e "user" (PStr "") /\
           exists ft,
             In (EvEmoji (dict_get e "reaction" (PStr "")) (Ok (Some ft))) new /\
             fe_feedback_type fe = ft).
Proof.
  intros v r. pose proof (verify_slack_request_frame env request w) as [Hst Htr].
  fold v in Hst, Htr. split; [exact Hst|]. split; [exact Htr|].
  assert (Hnone : forall w1 o, snd v = w1 -> r = (o, w1) ->
            exists new,
              trace (snd r) = (trace (snd v) ++ new)%list /\
              (forall t, ~ In (EvTime t) new) /\
              (List.length (filter is_store_feedback new) <= 1)%nat /\
              (new <> [] ->
               fst v = Ok true /\
               exists d e,
                 json request = Ok (PDict d) /\
                 py_eq_str (dict_get d "type" PNone) "event_callback" = true /\
                 dict_get d "event" (PDict []) = PDict e /\
                 (py_eq_str (dict_get e "type" PNone) "reaction_added" = true \/
                  py_eq_str (dict_get e "type" PNone) "reaction_removed" = true) /\
                 forall fe out, In (EvStoreFeedback fe out) new ->
                   py_eq_str (dict_get e "type" PNone) "reaction_added" = true /\
                   fe_user_id fe = dict_get e "user" (PStr "") /\
                   exists ft,
                     In (EvEmoji (dict_get e "reaction" (PStr "")) (Ok (Some ft))) new /\
                     fe_feedback_type fe = ft)).
  { intros w1 o Hv Hr. exists []. rewrite Hr, Hv, app_nil_r.
    split; [reflexivity|]. split; [intros t []|]. split; [cbn; lia|].
    intros H. now contradiction H. }
  unfold r in *. rewrite handle_slack_event_unfold in *. unfold v in *. clear v r.
  destruct (verify_slack_request env request w) as [[[|]|x] w1];
    cbn [fst snd] in *; try (eapply Hnone; reflexivity).
  destruct (json request) as [[| | | | | |d]|x];
    try (eapply Hnone; reflexivity).
  destruct (py_eq_str (dict_get d "type" PNone) "url_verification");
    [eapply Hnone; reflexivity|].
  destruct (py_eq_str (dict_get d "type" PNone) "event_callback") eqn:Hcb;
    [|eapply Hnone; reflexivity].
  destruct (dict_get d "event" (PDict [])) as [| | | | | |e] eqn:He;
    try (eapply Hnone; reflexivity).
  clear Hnone.
  destruct (py_eq_str (dict_get e "type" PNone) "reaction_added") eqn:Hadd.
  - destruct (reaction_added_calls e w1) as (new & Hnew & Htime & Hone & Hfe & _).
    cbv zeta in Hnew.
    exists new. split.
    { destruct (handle_reaction_added env (PDict e) w1) as [[[]|x] w2]; exact Hnew. }
    split; [exact Htime|]. split; [exact Hone|].
    intros _. split; [reflexivity|]. exists d, e.
    split; [reflexivity|]. split; [exact Hcb|]. split; [exact He|].
    split; [left; exact Hadd|]. intros fe out Hin. split; [exact Hadd|].
    now apply (Hfe fe out).
  - destruct (py_eq_str (dict_get e "type" PNone) "reaction_removed") eqn:Hrem.
    + destruct (reaction_removed_calls e w1) as (new & Hnew & Htime & Hno & _).
      cbv zeta in Hnew.
      exists new. split.
      { destruct (handle_reaction_removed env (PDict e) w1) as [[[]|x] w2]; exact Hnew. }
      split; [exact Htime|]. split.
      { destruct (filter is_store_feedback new) as [|ev l] eqn:Hf; [cbn; lia|].
        assert (Hin : In ev (filter is_store_feedback new)) by (rewrite Hf; now left).
        apply filter_In in Hin. destruct Hin as [Hin Hk].
        destruct ev; try discriminate Hk. now apply Hno in Hin. }
      intros _. split; [reflexivity|]. exists d, e.
      split; [reflexivity|]. split; [exact Hcb|]. split; [exact He|].
      split; [right; exact Hrem|]. intros fe out Hin. now apply Hno in Hin.
    + exists []. cbn [snd]. rewrite app_nil_r.
      split; [reflexivity|]. split; [intros t []|]. split; [cbn; lia|].
      intros H. now contradiction H.
Qed.



End Dispatch.

End ListenerFacts.

(* ================================================================== *)
(** ** Further scenarios *)
(* ================================================================== *)

Module DistributorRuns.

Import Distributor.
Import DistributorFacts.

(** Scenario E: the run of scenario C with a client whose third call,
    the divider post, raises. *)
Definition divider_call (n : nat) : bool := (n =? 2)%nat.

Definition env_e := Scenario.env (7 # 10) (3 # 10) divider_call.

Definition main_e :=
  _post_main_digest_with_items env_e Scenario.with_store tt Scenario.teams_c
                               "run-e" None Scenario.start.

Definition rate_limited : exn := Exn "SlackApiError" "rate_limited".

Lemma divider_failure_discards_record_witness :
  exists r,
    fst (distribute env_e Scenario.with_store tt Scenario.teams_c (Some "run-e")
                    None Scenario.start) = Ok r /\
    r_main_post r = None /\ r_item_posts r = [] /\ r_items_stored r = 0 /\
    In (main_error "rate_limited") (r_errors r).
Proof.
  refine (proj2 (divider_failure_discards_record
                   env_e Scenario.with_store tt Scenario.teams_c (Some "run-e") None
                   Scenario.start Scenario.start (snd main_e) "run-e" rate_limited
                   "Daily digest" (PList [])
                   [Scenario.item "a" (9 # 10)] [Scenario.item "b" (5 # 10)]
                   [Scenario.item "c" (1 # 10)]
                   Scenario.header_result_c (tl (trace (snd main_e)))
                   _ _ _ _ _)).
  - reflexivity.
  - reflexivity.
  - reflexivity.
  - vm_compute. reflexivity.
  - vm_compute. reflexivity.
Defined.

(** In scenario E the first item was posted and stored all the same. *)
Example divider_failure_after_store :
  map digest_item_id (store (snd main_e)) = ["a"] /\
  fst main_e = Raise rate_limited.
Proof. vm_compute. split; reflexivity. Qed.

Definition main_d :=
  _post_main_digest_with_items Scenario.env_d Scenario.with_store tt Scenario.teams_d
                               "run-d" None Scenario.start.

Lemma every_item_accounted_witness :
  exists m,
    fst main_d = Ok m /\
    (count post_raised (trace (snd main_d)) + List.length (m_items m)
     + count store_raised (trace (snd main_d)) = 5 + 0)%nat.
Proof.
  eexists. split; [vm_compute; reflexivity|].
  refine (every_item_accounted Scenario.env_d Scenario.with_store tt Scenario.teams_d
            "run-d" None Scenario.start (snd main_d) _
            (map (fun id => Scenario.item id (9 # 10)) ["1"; "2"; "3"; "4"; "5"])
            [] [] _ _).
  - reflexivity.
  - vm_compute. reflexivity.
Defined.

(** Scenario F: scenario C with the feedback module missing. *)
Definition env_f
  : Env unit Scenario.TeamAnalysis DigestItemMessage nat (list DigestItem) unit :=
  {| team_name := team_name Scenario.env_c;
     format_header_message := format_header_message Scenario.env_c;
     format_digest_items := format_digest_items Scenario.env_c;
     format_main_digest := format_main_digest Scenario.env_c;
     format_team_details := format_team_details Scenario.env_c;
     format_leadership_dm := format_leadership_dm Scenario.env_c;
     post_message := post_message Scenario.env_c;
     send_dm := send_dm Scenario.env_c;
     store_digest_item := store_digest_item Scenario.env_c;
     now_strftime := now_strftime Scenario.env_c;
     FEEDBACK_AVAILABLE := false |}.

Lemma feedback_unavailable_no_store_witness :
  exists r w',
    distribute env_f Scenario.with_store tt Scenario.teams_c (Some "run-f") None
               Scenario.start = (Ok r, w') /\
    store w' = [] /\
    (forall item out, ~ In (EvStore item out) (trace w')) /\
    r_items_stored r = Z.of_nat (count_ok (r_item_posts r)).
Proof.
  exact (feedback_unavailable_no_store env_f Scenario.with_store tt Scenario.teams_c
           (Some "run-f") None Scenario.start eq_refl).
Defined.

(** In scenario F two items are counted as stored and none is. *)
Example counted_but_not_stored :
  let run := distribute env_f Scenario.with_store tt Scenario.teams_c (Some "run-f")
                        None Scenario.start in
  exists r, fst run = Ok r /\ r_items_stored r = 2 /\ store (snd run) = [].
Proof. eexists. vm_compute. repeat split. Qed.

Lemma stored_items_match_item_posts_witness :
  exists m,
    fst Scenario.main_c = Ok m /\
    Forall2 same_post (stored_ok (trace (snd Scenario.main_c)))
            (ok_posts (m_items m)).
Proof.
  eexists. split; [vm_compute; reflexivity|].
  refine (stored_items_match_item_posts Scenario.env_c Scenario.with_store tt
            Scenario.teams_c "run-c" None Scenario.start (snd Scenario.main_c) _
            _ _ _).
  - discriminate.
  - reflexivity.
  - vm_compute. reflexivity.
Defined.

Lemma distribute_sends_what_preview_shows_witness :
  exists p,
    fst (preview Scenario.env_c Scenario.with_store tt Scenario.teams_c
                 (Some "run-c") None Scenario.start) = Ok p /\
    forall user text out,
      In (EvDM user text out)
         (trace (snd (distribute Scenario.env_c Scenario.with_store tt
                                 Scenario.teams_c (Some "run-c") None Scenario.start))) ->
      text = p_leadership_dm p /\ In user ["U-LEAD"].
Proof.
  eexists. split; [vm_compute; reflexivity|].
  refine (proj2 (distribute_sends_what_preview_shows
                   Scenario.env_c Scenario.with_store tt Scenario.teams_c
                   (Some "run-c") None Scenario.start _ _ _)).
  - constructor; [intros []|constructor].
  - vm_compute. reflexivity.
Defined.

End DistributorRuns.

Module ListenerRuns.

Import Listener.
Import ListenerFacts.



End ListenerRuns.
